(** * Cost accounting of the AI calling agent dashboard (src/web_app.py)

    A shallow embedding of [calculate_call_cost], of the [PUT /api/calls/<id>]
    handler [update_call] and of the [GET /api/costs] handler [get_costs].

    Python floats are IEEE 754 binary64 numbers, modelled with the
    specification floats of the Corelib ([spec_float] with 53 bits of
    precision and [emax = 1024]); Python ints are [Z]. *)

From Stdlib Require Import ZArith List String Ascii Bool Lia QArith Qabs Sorting.Sorted Sorting.Permutation.
From Stdlib Require Import Floats.SpecFloat.
Import ListNotations.
Open Scope Z_scope.

(** ** Python numbers and the operations the cost code uses *)
Module Py.

Definition prec : Z := 53.
Definition emax : Z := 1024.

Notation float := spec_float (only parsing).

Definition fadd := SFadd prec emax.
Definition fmul := SFmul prec emax.
Definition fdiv := SFdiv prec emax.

(** Exceptions the handlers can raise. *)
Inductive exn :=
| KeyError (k : string)
| TypeError
| OverflowError
| ZeroDivisionError
| SqliteError.

Inductive res (A : Type) :=
| Ok (a : A)
| Err (e : exn).
Arguments Ok {A} a.
Arguments Err {A} e.

Definition bind {A B} (r : res A) (k : A -> res B) : res B :=
  match r with
  | Ok a => k a
  | Err e => Err e
  end.

Notation "x <- r ;; k" := (bind r (fun x => k))
  (at level 61, r at next level, right associativity).

(** Python values that can arrive in a JSON request body. [VOther] stands
    for arrays and objects, which no arithmetic accepts. *)
Inductive pyval :=
| VNone
| VBool (b : bool)
| VInt (z : Z)
| VFloat (f : float)
| VStr (s : string)
| VOther.

(** [float(z)] for an int: correctly rounded, [OverflowError] when the
    result does not fit in a double (CPython [PyLong_AsDouble]). *)
Definition int_to_float (z : Z) : res float :=
  match binary_normalize prec emax z 0 false with
  | S754_infinity _ => Err OverflowError
  | f => Ok f
  end.

(** The double nearest to [k / 10^n] with sign [neg]: the value of a decimal
    literal such as [0.0059], and what [_Py_dg_strtod] returns for the
    digit string produced by [round]. *)
Definition dec_to_float (neg : bool) (k : Z) (n : nat) : float :=
  match k with
  | Zpos p => fdiv (S754_finite neg p 0) (S754_finite false (Pos.pow 10 (Pos.of_nat n)) 0)
  | _ => S754_zero neg
  end.

(** Positive decimal literal [k * 10^-n]. *)
Definition lit (k : Z) (n : nat) : float :=
  match n with
  | O => binary_normalize prec emax k 0 false
  | _ => dec_to_float false k n
  end.

(** Integer nearest to [num / den] (den > 0), ties to even. *)
Definition div_half_even (num den : Z) : Z :=
  let q := num / den in
  let r := num mod den in
  match Z.compare (2 * r) den with
  | Lt => q
  | Gt => q + 1
  | Eq => if Z.even q then q else q + 1
  end.

(** [round(x, n)] for a float and [0 <= n <= 323] (CPython [double_round]):
    the exact binary value of [x] is rounded to [n] decimals, ties to even
    ([_Py_dg_dtoa] mode 3), and the decimal is read back correctly rounded;
    the sign of [x] is kept. Zeros, infinities and NaN round to themselves. *)
Definition round_float (x : float) (n : nat) : float :=
  match x with
  | S754_finite s m e =>
      let k := if 0 <=? e then Zpos m * 2 ^ e * 10 ^ Z.of_nat n
               else div_half_even (Zpos m * 10 ^ Z.of_nat n) (2 ^ (- e)) in
      dec_to_float s k n
  | _ => x
  end.

(** Numeric view of a value: [bool] is a subclass of [int]. *)
Inductive num := NInt (z : Z) | NFloat (f : float).

Definition to_num (v : pyval) : res num :=
  match v with
  | VBool b => Ok (NInt (if b then 1 else 0))
  | VInt z => Ok (NInt z)
  | VFloat f => Ok (NFloat f)
  | _ => Err TypeError
  end.

Definition num_to_float (n : num) : res float :=
  match n with
  | NInt z => int_to_float z
  | NFloat f => Ok f
  end.

Definition is_zero (f : float) : bool :=
  match f with S754_zero _ => true | _ => false end.

(** [a + b]: int + int stays an int, otherwise both are converted to float. *)
Definition py_add (a b : pyval) : res pyval :=
  x <- to_num a ;; y <- to_num b ;;
  match x, y with
  | NInt i, NInt j => Ok (VInt (i + j))
  | _, _ => fx <- num_to_float x ;; fy <- num_to_float y ;; Ok (VFloat (fadd fx fy))
  end.

(** [a * b]. *)
Definition py_mul (a b : pyval) : res pyval :=
  x <- to_num a ;; y <- to_num b ;;
  match x, y with
  | NInt i, NInt j => Ok (VInt (i * j))
  | _, _ => fx <- num_to_float x ;; fy <- num_to_float y ;; Ok (VFloat (fmul fx fy))
  end.

(** [a / b] (true division): a zero divisor raises [ZeroDivisionError];
    int / int is the correctly rounded quotient. *)
Definition py_truediv (a b : pyval) : res pyval :=
  x <- to_num a ;; y <- to_num b ;;
  match x, y with
  | NInt i, NInt j =>
      if j =? 0 then Err ZeroDivisionError
      else
        let q := match i, j with
                 | Z0, _ => S754_zero (j <? 0)
                 | _, _ => fdiv (S754_finite (i <? 0) (Z.to_pos (Z.abs i)) 0)
                                (S754_finite (j <? 0) (Z.to_pos (Z.abs j)) 0)
                 end in
        match q with
        | S754_infinity _ => Err OverflowError
        | _ => Ok (VFloat q)
        end
  | _, _ =>
      fx <- num_to_float x ;; fy <- num_to_float y ;;
      if is_zero fy then Err ZeroDivisionError else Ok (VFloat (fdiv fx fy))
  end.

(** [round(v, n)] with [n >= 0]: an int is returned unchanged. *)
Definition py_round (v : pyval) (n : nat) : res pyval :=
  match v with
  | VBool b => Ok (VInt (if b then 1 else 0))
  | VInt z => Ok (VInt z)
  | VFloat f => Ok (VFloat (round_float f n))
  | _ => Err TypeError
  end.

(** A dict with string keys, in insertion order; [d[k]] raises [KeyError]. *)
Definition dict := list (string * pyval).

Fixpoint dict_get (d : dict) (k : string) : res pyval :=
  match d with
  | [] => Err (KeyError k)
  | (k', v) :: d' => if String.eqb k k' then Ok v else dict_get d' k
  end.

Fixpoint dict_find (d : dict) (k : string) : option pyval :=
  match d with
  | [] => None
  | (k', v) :: d' => if String.eqb k k' then Some v else dict_find d' k
  end.

(** [d[k] = v]: replaces the value in place, or appends a new key. *)
Fixpoint dict_set (d : dict) (k : string) (v : pyval) : dict :=
  match d with
  | [] => [(k, v)]
  | (k', v') :: d' => if String.eqb k k' then (k', v) :: d' else (k', v') :: dict_set d' k v
  end.

(** [del d[k]] (no entry left for [k]). *)
Definition dict_del (d : dict) (k : string) : dict :=
  filter (fun kv => negb (String.eqb k (fst kv))) d.

(** A float that is neither infinite nor NaN. *)
Definition is_finite (f : float) : bool :=
  match f with
  | S754_zero _ | S754_finite _ _ _ => true
  | _ => false
  end.

End Py.

(** ** [PRICING], [USD_TO_INR] and [calculate_call_cost] (web_app.py 27-150) *)
Module Cost.
Import Py.

(** The module-level price table (USD per minute or per token). *)
Definition PRICING : dict :=
  [ ("livekit_sip", VFloat (lit 10 3));
    ("deepgram_stt", VFloat (lit 59 4));
    ("deepgram_tts", VFloat (lit 27 3));
    ("groq_input", VFloat (lit 59 8));
    ("groq_output", VFloat (lit 79 8));
    ("avg_tokens_per_call", VInt 2000) ]%string.

Definition USD_TO_INR : pyval := VFloat (lit 830 1).

(** The dict returned by [calculate_call_cost]. *)
Record costs := mk_costs {
  cost_livekit : pyval;
  cost_stt : pyval;
  cost_tts : pyval;
  cost_llm : pyval;
  total_cost_usd : pyval;
  total_cost_inr : pyval;
  duration_minutes : pyval }.

(** [calculate_call_cost], reading the globals [PRICING] and [USD_TO_INR],
    which are passed here as [pricing] and [usd_to_inr]. *)
Definition calculate_call_cost_with (pricing : dict) (usd_to_inr : pyval)
    (duration_seconds : pyval) : res costs :=
  duration_minutes <- py_truediv duration_seconds (VFloat (lit 600 1)) ;;
  p_sip <- dict_get pricing "livekit_sip" ;;
  cost_livekit <- py_mul p_sip duration_minutes ;;
  p_stt <- dict_get pricing "deepgram_stt" ;;
  cost_stt <- py_mul p_stt duration_minutes ;;
  p_tts <- dict_get pricing "deepgram_tts" ;;
  cost_tts <- py_mul p_tts duration_minutes ;;
  avg_tokens <- dict_get pricing "avg_tokens_per_call" ;;
  p_in <- dict_get pricing "groq_input" ;;
  llm_in <- py_mul avg_tokens p_in ;;
  p_out <- dict_get pricing "groq_output" ;;
  llm_out <- py_mul avg_tokens p_out ;;
  cost_llm <- py_add llm_in llm_out ;;
  t1 <- py_add cost_livekit cost_stt ;;
  t2 <- py_add t1 cost_tts ;;
  total_usd <- py_add t2 cost_llm ;;
  total_inr <- py_mul total_usd usd_to_inr ;;
  r_livekit <- py_round cost_livekit 6 ;;
  r_stt <- py_round cost_stt 6 ;;
  r_tts <- py_round cost_tts 6 ;;
  r_llm <- py_round cost_llm 6 ;;
  r_usd <- py_round total_usd 4 ;;
  r_inr <- py_round total_inr 2 ;;
  r_min <- py_round duration_minutes 2 ;;
  Ok (mk_costs r_livekit r_stt r_tts r_llm r_usd r_inr r_min).

Definition calculate_call_cost : pyval -> res costs :=
  calculate_call_cost_with PRICING USD_TO_INR.

End Cost.

(** ** The [calls] table of [calls.db] (web_app.py 54-71) *)
Module Db.
Import Py.

(** SQLite storage classes. *)
Inductive sqlval :=
| SNull
| SInt (z : Z)
| SReal (f : float)
| SText (s : string).

(** A row of [calls]. *)
Record call := mk_call {
  id : Z;
  phone_number : sqlval;
  room_name : sqlval;
  dispatch_id : sqlval;
  status : sqlval;
  duration : sqlval;
  notes : sqlval;
  created_at : sqlval;
  ended_at : sqlval;
  cost_livekit : sqlval;
  cost_stt : sqlval;
  cost_tts : sqlval;
  cost_llm : sqlval;
  total_cost_usd : sqlval;
  total_cost_inr : sqlval }.

Definition table := list call.

(** The columns an [UPDATE calls SET ...] of [update_call] assigns. *)
Inductive column :=
| Cstatus | Cnotes | Cduration
| Ccost_livekit | Ccost_stt | Ccost_tts | Ccost_llm
| Ctotal_cost_usd | Ctotal_cost_inr | Cended_at.

(** Column affinities from the declared types: [duration INTEGER],
    the costs [REAL], [ended_at TIMESTAMP] (NUMERIC), [status]/[notes] TEXT. *)
Inductive affinity := AText | AInteger | AReal | ANumeric.

Definition affinity_of (c : column) : affinity :=
  match c with
  | Cstatus | Cnotes => AText
  | Cduration => AInteger
  | Cended_at => ANumeric
  | _ => AReal
  end.

Definition i64_min : Z := - 2 ^ 63.
Definition i64_max : Z := 2 ^ 63 - 1.

(** Integer value of a double that is integral, when it has one. *)
Definition float_int_value (f : float) : option Z :=
  match f with
  | S754_zero _ => Some 0
  | S754_finite s m e =>
      let z := if 0 <=? e then Zpos m * 2 ^ e
               else if Zpos m mod 2 ^ (- e) =? 0 then Zpos m / 2 ^ (- e) else -1 in
      if z <? 0 then None else Some (if s then - z else z)
  | _ => None
  end.

(** Parameter binding of the [sqlite3] module: ints must fit in 64 bits,
    a NaN is stored as NULL, lists and dicts are refused. *)
Definition bind_param (v : pyval) : res sqlval :=
  match v with
  | VNone => Ok SNull
  | VBool b => Ok (SInt (if b then 1 else 0))
  | VInt z => if (i64_min <=? z) && (z <=? i64_max) then Ok (SInt z) else Err OverflowError
  | VFloat S754_nan => Ok SNull
  | VFloat f => Ok (SReal f)
  | VStr s => Ok (SText s)
  | VOther => Err SqliteError
  end.

(** Affinity conversion on storage, for the numeric classes a bound value of
    this handler can have; the textual rendering that TEXT affinity applies to
    a number bound to [status] or [notes] is not modelled (no cost field
    depends on it). *)
Definition apply_affinity (a : affinity) (v : sqlval) : sqlval :=
  match a, v with
  | AReal, SInt z => SReal (binary_normalize prec emax z 0 false)
  | (AInteger | ANumeric), SReal f =>
      match float_int_value f with
      | Some z => if (i64_min <? z) && (z <? i64_max) then SInt z else v
      | None => v
      end
  | _, _ => v
  end.

(** Assign one column of a row. *)
Definition set_column (r : call) (c : column) (v : sqlval) : call :=
  match c with
  | Cstatus => mk_call (id r) (phone_number r) (room_name r) (dispatch_id r) v (duration r) (notes r) (created_at r) (ended_at r) (cost_livekit r) (cost_stt r) (cost_tts r) (cost_llm r) (total_cost_usd r) (total_cost_inr r)
  | Cnotes => mk_call (id r) (phone_number r) (room_name r) (dispatch_id r) (status r) (duration r) v (created_at r) (ended_at r) (cost_livekit r) (cost_stt r) (cost_tts r) (cost_llm r) (total_cost_usd r) (total_cost_inr r)
  | Cduration => mk_call (id r) (phone_number r) (room_name r) (dispatch_id r) (status r) v (notes r) (created_at r) (ended_at r) (cost_livekit r) (cost_stt r) (cost_tts r) (cost_llm r) (total_cost_usd r) (total_cost_inr r)
  | Ccost_livekit => mk_call (id r) (phone_number r) (room_name r) (dispatch_id r) (status r) (duration r) (notes r) (created_at r) (ended_at r) v (cost_stt r) (cost_tts r) (cost_llm r) (total_cost_usd r) (total_cost_inr r)
  | Ccost_stt => mk_call (id r) (phone_number r) (room_name r) (dispatch_id r) (status r) (duration r) (notes r) (created_at r) (ended_at r) (cost_livekit r) v (cost_tts r) (cost_llm r) (total_cost_usd r) (total_cost_inr r)
  | Ccost_tts => mk_call (id r) (phone_number r) (room_name r) (dispatch_id r) (status r) (duration r) (notes r) (created_at r) (ended_at r) (cost_livekit r) (cost_stt r) v (cost_llm r) (total_cost_usd r) (total_cost_inr r)
  | Ccost_llm => mk_call (id r) (phone_number r) (room_name r) (dispatch_id r) (status r) (duration r) (notes r) (created_at r) (ended_at r) (cost_livekit r) (cost_stt r) (cost_tts r) v (total_cost_usd r) (total_cost_inr r)
  | Ctotal_cost_usd => mk_call (id r) (phone_number r) (room_name r) (dispatch_id r) (status r) (duration r) (notes r) (created_at r) (ended_at r) (cost_livekit r) (cost_stt r) (cost_tts r) (cost_llm r) v (total_cost_inr r)
  | Ctotal_cost_inr => mk_call (id r) (phone_number r) (room_name r) (dispatch_id r) (status r) (duration r) (notes r) (created_at r) (ended_at r) (cost_livekit r) (cost_stt r) (cost_tts r) (cost_llm r) (total_cost_usd r) v
  | Cended_at => mk_call (id r) (phone_number r) (room_name r) (dispatch_id r) (status r) (duration r) (notes r) (created_at r) v (cost_livekit r) (cost_stt r) (cost_tts r) (cost_llm r) (total_cost_usd r) (total_cost_inr r)
  end.


(** Right-hand sides of the [SET] list: a [?] parameter or [CURRENT_TIMESTAMP]. *)
Inductive expr := EParam (v : pyval) | ECurrentTimestamp.

(** Binding of the parameters, in order, and affinity of the target column;
    [CURRENT_TIMESTAMP] is the text ['YYYY-MM-DD HH:MM:SS'] of [now]. *)
Fixpoint bind_sets (now : string) (sets : list (column * expr))
    : res (list (column * sqlval)) :=
  match sets with
  | [] => Ok []
  | (c, EParam v) :: rest =>
      sv <- bind_param v ;;
      rest' <- bind_sets now rest ;;
      Ok ((c, apply_affinity (affinity_of c) sv) :: rest')
  | (c, ECurrentTimestamp) :: rest =>
      rest' <- bind_sets now rest ;;
      Ok ((c, SText now) :: rest')
  end.

Definition apply_sets (r : call) (vs : list (column * sqlval)) : call :=
  fold_left (fun r cv => set_column r (fst cv) (snd cv)) vs r.

(** [UPDATE calls SET <sets> WHERE id = ?]: one statement, so either every
    matching row gets every assignment or, on a binding error, nothing
    changes. *)
Definition exec_update (t : table) (now : string) (sets : list (column * expr))
    (call_id : Z) : res table :=
  vs <- bind_sets now sets ;;
  k <- bind_param (VInt call_id) ;;
  Ok (map (fun r => match k with
                    | SInt z => if z =? id r then apply_sets r vs else r
                    | _ => r
                    end) t).

End Db.

(** ** The request handlers, over a connection to [calls.db] *)
Module Api.
Import Py Db.

(** What a handler does that other requests can see or that we count:
    a call of [calculate_call_cost], an executed statement, a commit
    (with the table other connections see from then on). *)
Inductive event :=
| ECalc (d : pyval)
| EExecute (sets : list (column * expr))
| ECommit (t : table).

(** [committed] is what every connection reads; [pending] holds the
    uncommitted writes of the handler's own connection; [now] is the
    database clock read by [CURRENT_TIMESTAMP]. *)
Record world := mk_world {
  committed : table;
  pending : option table;
  now : string;
  trace : list event }.

Definition log (e : event) (w : world) : world :=
  mk_world (committed w) (pending w) (now w) (trace w ++ [e]).

(** Handler bodies run in a state and exception monad. *)
Definition M (A : Type) := world -> res A * world.

Definition ret {A} (a : A) : M A := fun w => (Ok a, w).

Definition mbind {A B} (m : M A) (k : A -> M B) : M B :=
  fun w => match m w with
           | (Ok a, w') => k a w'
           | (Err e, w') => (Err e, w')
           end.

Notation "'let*' x := m 'in' k" := (mbind m (fun x => k))
  (at level 200, x name, m at level 100, k at level 200).

(** [calculate_call_cost(d)], recorded in the trace. *)
Definition calc (d : pyval) : M Cost.costs :=
  fun w => (Cost.calculate_call_cost d, log (ECalc d) w).

(** [cursor.execute(UPDATE ...)] on the handler's connection. *)
Definition execute (sets : list (column * expr)) (call_id : Z) : M unit :=
  fun w =>
    let base := match pending w with Some t => t | None => committed w end in
    match exec_update base (now w) sets call_id with
    | Ok t' => (Ok tt, log (EExecute sets) (mk_world (committed w) (Some t') (now w) (trace w)))
    | Err e => (Err e, w)
    end.

(** [conn.commit()]. *)
Definition commit : M unit :=
  fun w =>
    match pending w with
    | Some t => (Ok tt, log (ECommit t) (mk_world t None (now w) (trace w)))
    | None => (Ok tt, w)
    end.

(** [conn.close()], or the end of the connection after an exception:
    uncommitted writes are dropped. *)
Definition close (w : world) : world :=
  mk_world (committed w) None (now w) (trace w).

Inductive response :=
| Success (message : string)
| Failure (error : exn).

Definition terminal_statuses : list string := ["completed"; "failed"; "no_answer"]%string.

(** [data.get('status') in ['completed', 'failed', 'no_answer']]. *)
Definition is_terminal (v : option pyval) : bool :=
  match v with
  | Some (VStr s) => existsb (String.eqb s) terminal_statuses
  | _ => false
  end.

(** The [try] block of [update_call] (web_app.py 641-686). [data] is the
    JSON object of the request body. *)
Definition update_call_body (call_id : Z) (data : dict) : M unit :=
  let u_status := match dict_find data "status" with
                  | Some v => [(Cstatus, EParam v)]
                  | None => []
                  end in
  let u_notes := match dict_find data "notes" with
                 | Some v => [(Cnotes, EParam v)]
                 | None => []
                 end in
  let* u_duration :=
    match dict_find data "duration" with
    | Some d =>
        let* costs := calc d in
        ret [(Cduration, EParam d);
             (Ccost_livekit, EParam (Cost.cost_livekit costs));
             (Ccost_stt, EParam (Cost.cost_stt costs));
             (Ccost_tts, EParam (Cost.cost_tts costs));
             (Ccost_llm, EParam (Cost.cost_llm costs));
             (Ctotal_cost_usd, EParam (Cost.total_cost_usd costs));
             (Ctotal_cost_inr, EParam (Cost.total_cost_inr costs))]
    | None => ret []
    end in
  let u_ended := if is_terminal (dict_find data "status")
                 then [(Cended_at, ECurrentTimestamp)] else [] in
  let updates := u_status ++ u_notes ++ u_duration ++ u_ended in
  match updates with
  | [] => ret tt
  | _ => let* _ := execute updates call_id in commit
  end.

(** [update_call(call_id)]: any exception becomes a 500 error response. *)
Definition update_call (call_id : Z) (data : dict) (w : world) : response * world :=
  match update_call_body call_id data w with
  | (Ok _, w') => (Success "Call updated", close w')
  | (Err e, w') => (Failure e, close w')
  end.

End Api.

(** ** [get_costs] (web_app.py 692-791) *)
Module Aggregate.
Import Py Db.

Section GetCosts.

(** The floating-point accumulation of SQLite's [SUM] over the non-NULL
    values of a column when they are not all integers; its algorithm depends
    on the SQLite library the [sqlite3] module is linked with. *)
Variable sum_approx : list sqlval -> float.

(** [DATE(x)], [DATE('now')] and [DATE('now', '-n days')] of SQLite. *)
Variable sql_date : sqlval -> sqlval.
Variable date_now : string.
Variable date_now_minus_days : Z -> string.

Definition is_null (v : sqlval) : bool :=
  match v with SNull => true | _ => false end.

Definition int_of (v : sqlval) : option Z :=
  match v with SInt z => Some z | _ => None end.

(** The values, when every one of them is an integer. *)
Fixpoint ints_of (vs : list sqlval) : option (list Z) :=
  match vs with
  | [] => Some []
  | v :: vs' =>
      match int_of v, ints_of vs' with
      | Some a, Some l => Some (a :: l)
      | _, _ => None
      end
  end.

(** The 64-bit accumulation of [sumStep]: [sqlite3AddInt64] fails, and
    [SUM] ends in the error "integer overflow", as soon as a partial sum
    leaves 64 bits. *)
Fixpoint sum_i64 (acc : Z) (zs : list Z) : res Z :=
  match zs with
  | [] => Ok acc
  | z :: zs' =>
      if (i64_min <=? acc + z) && (acc + z <=? i64_max) then sum_i64 (acc + z) zs'
      else Err SqliteError
  end.

(** [sqlite3_result_double] stores a NaN as NULL. *)
Definition result_double (f : float) : sqlval :=
  match f with S754_nan => SNull | _ => SReal f end.

(** [SUM(col)] (SQLite 3.43 and later): NULL when every value is NULL (or
    there is none); while every value is an integer, the 64-bit sum, an
    error when a partial sum overflows; otherwise the floating-point sum,
    a real value after an overflow clearing the error. *)
Definition sql_sum (vs : list sqlval) : res sqlval :=
  let nn := filter (fun v => negb (is_null v)) vs in
  match nn with
  | [] => Ok SNull
  | _ =>
      match ints_of nn with
      | Some zs => s <- sum_i64 0 zs ;; Ok (SInt s)
      | None => Ok (result_double (sum_approx nn))
      end
  end.

(** [COALESCE(x, 0)]. *)
Definition coalesce0 (v : sqlval) : sqlval :=
  match v with SNull => SInt 0 | _ => v end.

Definition coalesce_sum (f : call -> sqlval) (t : table) : res sqlval :=
  s <- sql_sum (map f t) ;; Ok (coalesce0 s).

(** A value read back by the [sqlite3] module. *)
Definition to_py (v : sqlval) : pyval :=
  match v with
  | SNull => VNone
  | SInt z => VInt z
  | SReal f => VFloat f
  | SText s => VStr s
  end.

(** SQLite comparison [a = b] and [a >= b] for the operands of the window
    filters: NULL compares to nothing, numbers sort before text, text is
    compared byte-wise. *)
Definition sql_text_cmp (a b : sqlval) : option comparison :=
  match a, b with
  | SText x, SText y => Some (String.compare x y)
  | (SInt _ | SReal _), SText _ => Some Lt
  | _, _ => None
  end.

Definition in_today (r : call) : bool :=
  match sql_text_cmp (sql_date (created_at r)) (SText date_now) with
  | Some Eq => true
  | _ => false
  end.

Definition in_last_days (n : Z) (r : call) : bool :=
  match sql_text_cmp (created_at r) (SText (date_now_minus_days n)) with
  | Some (Eq | Gt) => true
  | _ => false
  end.

(** Python [x > 0] for a number read from the database. *)
Definition py_gt_zero (v : pyval) : res bool :=
  x <- to_num v ;;
  match x with
  | NInt z => Ok (0 <? z)
  | NFloat f => Ok (SFltb (S754_zero false) f)
  end.

Record window_totals := mk_window { w_usd : pyval; w_inr : pyval; w_calls : pyval }.

Record cost_report := mk_report {
  breakdown_livekit_sip : pyval;
  breakdown_deepgram_stt : pyval;
  breakdown_deepgram_tts : pyval;
  breakdown_groq_llm : pyval;
  totals_usd : pyval;
  totals_inr : pyval;
  totals_minutes : pyval;
  totals_cost_per_minute_usd : pyval;
  totals_cost_per_minute_inr : pyval;
  today : window_totals;
  week : window_totals;
  month : window_totals }.

(** One window query: [COALESCE(SUM(total_cost_usd), 0)],
    [COALESCE(SUM(total_cost_inr), 0)], [COUNT( * )], then rounded. *)
Definition window_query (keep : call -> bool) (t : table) : res window_totals :=
  let rows := filter keep t in
  usd <- coalesce_sum total_cost_usd rows ;;
  inr <- coalesce_sum total_cost_inr rows ;;
  r_usd <- py_round (to_py usd) 4 ;;
  r_inr <- py_round (to_py inr) 2 ;;
  Ok (mk_window r_usd r_inr (VInt (Z.of_nat (List.length rows)))).

(** [total_duration / 60.0 if total_duration > 0 else 0]. *)
Definition minutes_of (total_duration : pyval) : res pyval :=
  pos_duration <- py_gt_zero total_duration ;;
  if pos_duration then py_truediv total_duration (VFloat (lit 600 1)) else Ok (VInt 0).

(** [total_usd / total_minutes if total_minutes > 0 else 0]. *)
Definition per_minute (total_usd total_minutes : pyval) : res pyval :=
  pos_minutes <- py_gt_zero total_minutes ;;
  if pos_minutes then py_truediv total_usd total_minutes else Ok (VInt 0).

Definition get_costs (t : table) : res cost_report :=
  total_livekit <- coalesce_sum cost_livekit t ;;
  total_stt <- coalesce_sum cost_stt t ;;
  total_tts <- coalesce_sum cost_tts t ;;
  total_llm <- coalesce_sum cost_llm t ;;
  total_usd <- coalesce_sum total_cost_usd t ;;
  total_inr <- coalesce_sum total_cost_inr t ;;
  total_duration <- coalesce_sum duration t ;;
  w_today <- window_query in_today t ;;
  w_week <- window_query (in_last_days 7) t ;;
  w_month <- window_query (in_last_days 30) t ;;
  total_minutes <- minutes_of (to_py total_duration) ;;
  cost_per_minute <- per_minute (to_py total_usd) total_minutes ;;
  b_livekit <- py_round (to_py total_livekit) 4 ;;
  b_stt <- py_round (to_py total_stt) 4 ;;
  b_tts <- py_round (to_py total_tts) 4 ;;
  b_llm <- py_round (to_py total_llm) 4 ;;
  t_usd <- py_round (to_py total_usd) 4 ;;
  t_inr <- py_round (to_py total_inr) 2 ;;
  t_min <- py_round total_minutes 2 ;;
  t_cpm <- py_round cost_per_minute 4 ;;
  cpm_inr <- py_mul cost_per_minute Cost.USD_TO_INR ;;
  t_cpm_inr <- py_round cpm_inr 2 ;;
  Ok (mk_report b_livekit b_stt b_tts b_llm t_usd t_inr t_min t_cpm t_cpm_inr
                w_today w_week w_month).


End GetCosts.
End Aggregate.

(** ** Reading the effect of an [UPDATE] back *)
Module Effect.
Import Py Db Api.

Definition get_column (r : call) (c : column) : sqlval :=
  match c with
  | Cstatus => status r
  | Cnotes => notes r
  | Cduration => duration r
  | Ccost_livekit => cost_livekit r
  | Ccost_stt => cost_stt r
  | Ccost_tts => cost_tts r
  | Ccost_llm => cost_llm r
  | Ctotal_cost_usd => total_cost_usd r
  | Ctotal_cost_inr => total_cost_inr r
  | Cended_at => ended_at r
  end.

Definition column_eqb (a b : column) : bool :=
  match a, b with
  | Cstatus, Cstatus | Cnotes, Cnotes | Cduration, Cduration
  | Ccost_livekit, Ccost_livekit | Ccost_stt, Ccost_stt | Ccost_tts, Ccost_tts
  | Ccost_llm, Ccost_llm | Ctotal_cost_usd, Ctotal_cost_usd
  | Ctotal_cost_inr, Ctotal_cost_inr | Cended_at, Cended_at => true
  | _, _ => false
  end.

(** The last value a [SET] list gives to column [c]. *)
Fixpoint assigned {A} (vs : list (column * A)) (c : column) : option A :=
  match vs with
  | [] => None
  | (c', v) :: vs' =>
      match assigned vs' c with
      | Some x => Some x
      | None => if column_eqb c' c then Some v else None
      end
  end.

(** What a bound parameter becomes in column [c]. *)
Definition stored (c : column) (v : pyval) : res sqlval :=
  sv <- bind_param v ;; Ok (apply_affinity (affinity_of c) sv).

Definition eval_set (now : string) (c : column) (e : expr) : res sqlval :=
  match e with
  | EParam v => stored c v
  | ECurrentTimestamp => Ok (SText now)
  end.

(** A row holds duration [d] together with exactly the costs [c] computed
    for it. *)
Definition consistent (d : pyval) (c : Cost.costs) (r : call) : Prop :=
  stored Cduration d = Ok (duration r) /\
  stored Ccost_livekit (Cost.cost_livekit c) = Ok (cost_livekit r) /\
  stored Ccost_stt (Cost.cost_stt c) = Ok (cost_stt r) /\
  stored Ccost_tts (Cost.cost_tts c) = Ok (cost_tts r) /\
  stored Ccost_llm (Cost.cost_llm c) = Ok (cost_llm r) /\
  stored Ctotal_cost_usd (Cost.total_cost_usd c) = Ok (total_cost_usd r) /\
  stored Ctotal_cost_inr (Cost.total_cost_inr c) = Ok (total_cost_inr r).

(** Calls of the cost calculator in a trace. *)
Fixpoint calc_count (tr : list event) : nat :=
  match tr with
  | [] => O
  | ECalc _ :: tr' => S (calc_count tr')
  | _ :: tr' => calc_count tr'
  end.

(** The tables made visible to other connections, in order. *)
Fixpoint commits (tr : list event) : list table :=
  match tr with
  | [] => []
  | ECommit t :: tr' => t :: commits tr'
  | _ :: tr' => commits tr'
  end.

End Effect.

(** ** Sample requests and database states *)
Module Samples.
Import Py Db Api.

(** A call that already ended: its row has status [completed] and an end
    timestamp. *)
Definition ended_call : call :=
  mk_call 1 (SText "+919876543210") (SText "call-room-1") (SText "dispatch-1")
    (SText "completed") (SInt 120) SNull
    (SText "2024-05-01 09:58:00") (SText "2024-05-01 10:00:00")
    (SReal (S754_zero false)) (SReal (S754_zero false)) (SReal (S754_zero false))
    (SReal (S754_zero false)) (SReal (S754_zero false)) (SReal (S754_zero false)).

(** The database five minutes after that call ended. *)
Definition world_after_end : world :=
  mk_world [ended_call] None "2024-05-01 10:05:00" [].

Definition body_completed : dict := [("status", VStr "completed")]%string.

Definition body_completed_120 : dict :=
  [("status", VStr "completed"); ("duration", VInt 120)]%string.


(** A request that ends a call with a negative duration. *)
Definition body_completed_neg30 : dict :=
  [("status", VStr "completed"); ("duration", VInt (-30))]%string.

(** Three calls of one, two and three minutes, costed by
    [calculate_call_cost] and stored on 2024-05-01, with the SQLite date
    functions evaluated on that day. *)
Definition date_of (v : sqlval) : sqlval :=
  match v with SText s => SText (substring 0 10 s) | _ => SNull end.
Definition date_today : string := "2024-05-01".
Definition days_before (n : Z) : string :=
  if n =? 7 then "2024-04-24" else "2024-04-01".

Definition cost_field (d : Z) (f : Cost.costs -> pyval) : sqlval :=
  match Cost.calculate_call_cost (VInt d) with
  | Ok c => match f c with VFloat x => SReal x | _ => SNull end
  | Err _ => SNull
  end.

Definition costed_call (i d : Z) (created ended : string) : call :=
  mk_call i (SText "+919876543210") (SText "call-room") (SText "dispatch")
    (SText "completed") (SInt d) SNull (SText created) (SText ended)
    (cost_field d Cost.cost_livekit) (cost_field d Cost.cost_stt)
    (cost_field d Cost.cost_tts) (cost_field d Cost.cost_llm)
    (cost_field d Cost.total_cost_usd) (cost_field d Cost.total_cost_inr).

Definition call_60 : call := costed_call 1 60 "2024-05-01 09:00:00" "2024-05-01 09:01:00".
Definition call_120 : call := costed_call 2 120 "2024-05-01 10:00:00" "2024-05-01 10:02:00".
Definition call_180 : call := costed_call 3 180 "2024-05-01 11:00:00" "2024-05-01 11:03:00".

Definition three_calls : table := [call_60; call_120; call_180].

(** A call of 0 seconds stored two months before [date_today]: it falls in
    no window. *)
Definition old_call : call := costed_call 4 0 "2024-03-01 09:00:00" "2024-03-01 09:00:00".

(** Left-to-right accumulation in a double from [0.0]. *)
Definition naive_sum (vs : list sqlval) : float :=
  fold_left (fun acc v => match v with
                          | SReal f => fadd acc f
                          | SInt z => fadd acc (binary_normalize prec emax z 0 false)
                          | _ => acc
                          end) vs (S754_zero false).
End Samples.

(** * Properties of the cost accounting *)
Import Py Db Api.

(** A zero: the int [0], or [0.0] / [-0.0]. *)
Definition zero_value (d : pyval) : Prop :=
  d = VInt 0 \/ exists s, d = VFloat (S754_zero s).

(** The keys [calculate_call_cost] reads from [PRICING]. *)
Definition price_keys : list string :=
  ["livekit_sip"; "deepgram_stt"; "deepgram_tts";
   "groq_input"; "groq_output"; "avg_tokens_per_call"]%string.

(** Doubling a finite double by raising its exponent, with overflow to an
    infinity. *)
Definition fshift1 (f : float) : float :=
  match f with
  | S754_finite s m e =>
      if e + 1 <=? emax - prec then S754_finite s m (e + 1) else S754_infinity s
  | _ => f
  end.

(** A float that is a zero, an infinity or a number of sign [s]
    ([true]: negative). *)
Definition has_sign (s : bool) (f : float) : Prop :=
  match f with
  | S754_zero s' | S754_infinity s' | S754_finite s' _ _ => s' = s
  | S754_nan => False
  end.

(** A duration [d] with [d >= 0] in Python: a bool, a nonnegative int, or
    a double that is [0.0], [-0.0], positive or [+inf]. *)
Definition nonneg_duration (d : pyval) : Prop :=
  match d with
  | VBool _ => True
  | VInt z => 0 <= z
  | VFloat (S754_zero _) | VFloat (S754_infinity false) => True
  | VFloat (S754_finite false m e) => valid_binary prec emax (S754_finite false m e) = true
  | _ => False
  end.

(** [float(v)] succeeds and is finite. *)
Definition as_finite_double (v : pyval) : Prop :=
  match to_num v with
  | Ok n => match num_to_float n with Ok f => is_finite f = true | Err _ => False end
  | Err _ => False
  end.

(** [v] and [v2] are [round(_, 6)] results of [k] and [k2] millionths of
    the same sign [s] with [k2] within one of [2 * k]. *)
Definition near_double (v v2 : pyval) : Prop :=
  exists s k k2, v = VFloat (dec_to_float s k 6) /\ v2 = VFloat (dec_to_float s k2 6) /\
                 Z.abs (k2 - 2 * k) <= 1.

(** A negative duration SQLite can store: an int in [-2^63, 0), or a
    negative double other than [-0.0]. *)
Definition negative_duration (d : pyval) : Prop :=
  match d with
  | VInt z => i64_min <= z < 0
  | VFloat f => has_sign true f /\ f <> S754_zero true
  | _ => False
  end.

(** The value of an optional request field binds as an SQL parameter. *)
Definition param_ok (v : option pyval) : bool :=
  match v with
  | Some x => match bind_param x with Ok _ => true | Err _ => false end
  | None => true
  end.

(** The exact rational value of a finite double. *)
Definition float_value (f : float) : option Q :=
  match f with
  | S754_zero _ => Some 0%Q
  | S754_finite s m e =>
      let z := if s then Zneg m else Zpos m in
      Some (if 0 <=? e then inject_Z (z * 2 ^ e) else z # Z.to_pos (2 ^ (- e)))
  | _ => None
  end.





(** ** Request bodies, Python strings and SQLite text (web_app.py 168-1022) *)
Module Req.

(** A JSON value as [request.get_json()] returns it. *)
Inductive jval :=
| JNone
| JBool (b : bool)
| JInt (z : Z)
| JFloat (f : spec_float)
| JStr (s : string)
| JArray (xs : list jval)
| JObject (kvs : list (string * jval)).

(** The dict of a JSON object body (its keys are distinct). *)
Definition jdict := list (string * jval).

Fixpoint jfind (d : jdict) (k : string) : option jval :=
  match d with
  | [] => None
  | (k', v) :: d' => if String.eqb k k' then Some v else jfind d' k
  end.

(** [d.get(k, default)]. *)
Definition jget (d : jdict) (k : string) (default : jval) : jval :=
  match jfind d k with Some v => v | None => default end.

(** [bool(v)]. *)
Definition truthy (v : jval) : bool :=
  match v with
  | JNone => false
  | JBool b => b
  | JInt z => negb (z =? 0)
  | JFloat f => negb (is_zero f)
  | JStr s => negb (String.eqb s "")
  | JArray xs => match xs with [] => false | _ => true end
  | JObject kvs => match kvs with [] => false | _ => true end
  end.

(** [type(v).__name__]. *)
Definition type_name (v : jval) : string :=
  match v with
  | JNone => "NoneType"
  | JBool _ => "bool"
  | JInt _ => "int"
  | JFloat _ => "float"
  | JStr _ => "str"
  | JArray _ => "list"
  | JObject _ => "dict"
  end.

(** Python strings are sequences of code points; those below 256 are
    modelled, one [ascii] each. [str.isspace] on them. *)
Definition is_space (c : ascii) : bool :=
  let n := nat_of_ascii c in
  (Nat.leb 9 n && Nat.leb n 13) || (Nat.leb 28 n && Nat.leb n 32) ||
  Nat.eqb n 133 || Nat.eqb n 160.

Fixpoint drop_spaces (l : list ascii) : list ascii :=
  match l with
  | c :: l' => if is_space c then drop_spaces l' else l
  | [] => []
  end.

(** [s.strip()]. *)
Definition strip (s : string) : string :=
  string_of_list_ascii
    (rev (drop_spaces (rev (drop_spaces (list_ascii_of_string s))))).

Definition is_prefix (p s : list ascii) : bool :=
  Nat.leb (List.length p) (List.length s) &&
  (if list_eq_dec ascii_dec p (firstn (List.length p) s) then true else false).

(** [s.replace(old, new)]: left to right, non-overlapping. *)
Fixpoint replace_aux (fuel : nat) (old new s : list ascii) : list ascii :=
  match fuel with
  | O => s
  | S fuel' =>
      match s with
      | [] => []
      | c :: s' =>
          if is_prefix old s
          then new ++ replace_aux fuel' old new (skipn (List.length old) s)
          else c :: replace_aux fuel' old new s'
      end
  end.

Definition py_replace (s old new : string) : string :=
  let l := list_ascii_of_string s in
  let o := list_ascii_of_string old in
  let n := list_ascii_of_string new in
  string_of_list_ascii
    (match o with
     | [] => n ++ flat_map (fun c => c :: n) l
     | _ => replace_aux (List.length l) o n l
     end).

(** [s.startswith(p)]. *)
Definition startswith (s p : string) : bool :=
  is_prefix (list_ascii_of_string p) (list_ascii_of_string s).

(** [str(z)] for an int. *)
Fixpoint digits_aux (fuel : nat) (n : Z) (acc : string) : string :=
  match fuel with
  | O => acc
  | S fuel' =>
      let acc' := String (ascii_of_nat (48 + Z.to_nat (n mod 10))) acc in
      if n <? 10 then acc' else digits_aux fuel' (n / 10) acc'
  end.

Definition z_to_dec (z : Z) : string :=
  let digits := digits_aux (Pos.size_nat (Z.to_pos (Z.abs z + 1))) (Z.abs z) EmptyString in
  if z <? 0 then String "-" digits else digits.

Definition digit_value (c : ascii) : option Z :=
  let n := nat_of_ascii c in
  if Nat.leb 48 n && Nat.leb n 57 then Some (Z.of_nat n - 48) else None.

(** Decimal digits, with single underscores between digits. *)
Fixpoint parse_digits (l : list ascii) (acc : Z) (after_digit : bool) : option Z :=
  match l with
  | [] => if after_digit then Some acc else None
  | c :: l' =>
      match digit_value c with
      | Some d => parse_digits l' (10 * acc + d) true
      | None =>
          if Ascii.eqb c "_" && after_digit then parse_digits l' acc false else None
      end
  end.

(** [int(s)] for a string; [None] where Python raises [ValueError]. *)
Definition py_int (s : string) : option Z :=
  match list_ascii_of_string (strip s) with
  | c :: l =>
      if Ascii.eqb c "-" then option_map Z.opp (parse_digits l 0 false)
      else if Ascii.eqb c "+" then parse_digits l 0 false
      else parse_digits (c :: l) 0 false
  | [] => None
  end.

(** [request.args.get(key, default, type=int)]: the default when the
    argument is missing or [int] refuses it. *)
Definition arg_int (arg : option string) (default : Z) : Z :=
  match arg with
  | Some s => match py_int s with Some z => z | None => default end
  | None => default
  end.

(** The double quote character (code 34). *)
Definition dq : string := String (ascii_of_nat 34) EmptyString.

End Req.

(** SQLite's [LIKE] without [ESCAPE] (case folding of ASCII letters only) and
    the order of [ORDER BY] with the BINARY collation. *)
Module SqlText.
Import Req.

Definition fold_case (c : ascii) : ascii :=
  let n := nat_of_ascii c in
  if Nat.leb 65 n && Nat.leb n 90 then ascii_of_nat (n + 32) else c.

Fixpoint any_suffix (f : list ascii -> bool) (s : list ascii) : bool :=
  f s || match s with [] => false | _ :: s' => any_suffix f s' end.

(** [s LIKE p]: [%] matches any sequence, [_] any one character. *)
Fixpoint like (p s : list ascii) : bool :=
  match p with
  | [] => match s with [] => true | _ => false end
  | c :: p' =>
      if Ascii.eqb c "%" then any_suffix (like p') s
      else if Ascii.eqb c "_" then
        match s with [] => false | _ :: s' => like p' s' end
      else
        match s with
        | [] => false
        | c' :: s' => Ascii.eqb (fold_case c) (fold_case c') && like p' s'
        end
  end.

(** A C string: the characters before the first NUL. *)
Fixpoint c_str (s : list ascii) : list ascii :=
  match s with
  | [] => []
  | c :: s' => if Ascii.eqb c Ascii.zero then [] else c :: c_str s'
  end.

(** Length in bytes of the UTF-8 encoding of a text of code points below
    256, as [sqlite3_value_bytes] counts a bound [str]. *)
Definition utf8_length (s : string) : nat :=
  fold_right (fun c n => if Nat.ltb (nat_of_ascii c) 128 then S n else S (S n)) O
    (list_ascii_of_string s).

(** [SQLITE_MAX_LIKE_PATTERN_LENGTH], the default limit. *)
Definition like_pattern_limit : nat := 50000.

(** [a = b] on stored values (NULL equals nothing). *)
Definition sql_same (a b : sqlval) : bool :=
  match a, b with
  | SText x, SText y => String.eqb x y
  | SInt x, SInt y => Z.eqb x y
  | SReal x, SReal y => match SFcompare x y with Some Eq => true | _ => false end
  | SInt z, SReal f | SReal f, SInt z =>
      match float_int_value f with Some z' => Z.eqb z z' | None => false end
  | _, _ => false
  end.

(** Equality of [GROUP BY]: as [=], but NULLs form one group. *)
Definition sql_group_eq (a b : sqlval) : bool :=
  match a, b with
  | SNull, SNull => true
  | _, _ => sql_same a b
  end.

Definition storage_rank (v : sqlval) : Z :=
  match v with SNull => 0 | SInt _ | SReal _ => 1 | SText _ => 2 end.

(** An int against a double, exactly. *)
Definition int_real_cmp (z : Z) (f : spec_float) : comparison :=
  match f with
  | S754_infinity s => if s then Gt else Lt
  | S754_nan => Eq
  | _ => match float_value f with Some q => Qcompare (inject_Z z) q | None => Eq end
  end.

(** The order of [ORDER BY]: NULL, then numbers, then text (byte-wise). *)
Definition sql_compare (a b : sqlval) : comparison :=
  match a, b with
  | SInt x, SInt y => Z.compare x y
  | SReal x, SReal y => match SFcompare x y with Some c => c | None => Eq end
  | SInt z, SReal f => int_real_cmp z f
  | SReal f, SInt z => CompOpp (int_real_cmp z f)
  | SText x, SText y => String.compare x y
  | _, _ => Z.compare (storage_rank a) (storage_rank b)
  end.

(** A stable insertion sort; SQLite leaves the order of equal keys open. *)
Fixpoint insert_by {A} (cmp : A -> A -> comparison) (x : A) (l : list A) : list A :=
  match l with
  | [] => [x]
  | y :: l' => match cmp x y with Lt => x :: l | _ => y :: insert_by cmp x l' end
  end.

Definition sort_by {A} (cmp : A -> A -> comparison) (l : list A) : list A :=
  fold_left (fun acc x => insert_by cmp x acc) l [].

(** [ORDER BY key ASC] and [ORDER BY key DESC]. *)
Definition order_asc {A} (key : A -> sqlval) : list A -> list A :=
  sort_by (fun a b => sql_compare (key a) (key b)).

Definition order_desc {A} (key : A -> sqlval) : list A -> list A :=
  sort_by (fun a b => sql_compare (key b) (key a)).

(** The order [sort_by cmp] sorts by: no element before a larger one. *)
Definition le_by {A} (cmp : A -> A -> comparison) (a b : A) : Prop := cmp a b <> Gt.

End SqlText.

(** ** The tables of [calls.db] and the handlers that use them *)
Module Web.
Import Req SqlText.
Local Open Scope string_scope.
Local Open Scope Z_scope.

(** A row of [contacts] (web_app.py 94-104). *)
Record contact := mk_contact {
  ct_id : Z;
  ct_name : sqlval;
  ct_phone_number : sqlval;
  ct_company : sqlval;
  ct_notes : sqlval;
  ct_tags : sqlval;
  ct_created_at : sqlval;
  ct_last_called : sqlval }.

(** A row of [transcripts] (web_app.py 107-116). *)
Record transcript := mk_transcript {
  tr_id : Z;
  tr_call_id : sqlval;
  tr_speaker : sqlval;
  tr_message : sqlval;
  tr_timestamp : sqlval }.

(** The committed database: the three tables, their [AUTOINCREMENT]
    counters ([sqlite_sequence]) and the clock of [CURRENT_TIMESTAMP]. *)
Record db := mk_db {
  calls : table;
  calls_seq : Z;
  contacts : list contact;
  contacts_seq : Z;
  transcripts : list transcript;
  transcripts_seq : Z;
  clock : string }.

Definition set_calls (w : db) (t : table) (seq : Z) : db :=
  mk_db t seq (contacts w) (contacts_seq w) (transcripts w) (transcripts_seq w) (clock w).

Definition set_contacts (w : db) (cs : list contact) (seq : Z) : db :=
  mk_db (calls w) (calls_seq w) cs seq (transcripts w) (transcripts_seq w) (clock w).

Definition set_transcripts (w : db) (ts : list transcript) (seq : Z) : db :=
  mk_db (calls w) (calls_seq w) (contacts w) (contacts_seq w) ts seq (clock w).

(** Exceptions of these handlers. *)
Inductive err :=
| AttributeError (type_name : string)   (* 'NoneType' object has no attribute 'strip' *)
| IntegrityError (constraint : string)
| UnsupportedParam                        (* a list or dict bound as a parameter *)
| IntOverflow                             (* an int outside 64 bits bound as a parameter *)
| SqliteFull                              (* no AUTOINCREMENT rowid left *)
| ApiError (msg : string)                 (* raised by the LiveKit API *)
| ReError.                                (* re.error: a bad replacement template *)

Inductive outcome (A : Type) :=
| Done (a : A)
| Raise (e : err).
Arguments Done {A} a.
Arguments Raise {A} e.

Definition obind {A B} (m : outcome A) (k : A -> outcome B) : outcome B :=
  match m with Done a => k a | Raise e => Raise e end.

Notation "'let?' x := m 'in' k" := (obind m (fun x => k))
  (at level 200, x name, m at level 100, k at level 200).

(** [s.strip()] on the value of a request field. *)
Definition py_strip (v : jval) : outcome string :=
  match v with
  | JStr s => Done (strip s)
  | _ => Raise (AttributeError (type_name v))
  end.

(** Parameter binding of the [sqlite3] module. *)
Definition bind_value (v : jval) : outcome sqlval :=
  match v with
  | JNone => Done SNull
  | JBool b => Done (SInt (if b then 1 else 0))
  | JInt z => if (i64_min <=? z) && (z <=? i64_max) then Done (SInt z) else Raise IntOverflow
  | JFloat S754_nan => Done SNull
  | JFloat f => Done (SReal f)
  | JStr s => Done (SText s)
  | JArray _ | JObject _ => Raise UnsupportedParam
  end.

(** A stored value as JSON ([dict(row)] then [jsonify]). *)
Definition sql_json (v : sqlval) : jval :=
  match v with
  | SNull => JNone
  | SInt z => JInt z
  | SReal f => JFloat f
  | SText s => JStr s
  end.

(** The rowid an [AUTOINCREMENT] insert takes: one above the largest rowid
    the table ever had. *)
Definition next_rowid (seq : Z) (ids : list Z) : outcome Z :=
  let m := fold_left Z.max ids (Z.max seq 0) in
  if m <? i64_max then Done (m + 1) else Raise SqliteFull.

Definition not_null (col : string) (v : sqlval) : outcome unit :=
  match v with
  | SNull => Raise (IntegrityError ("NOT NULL constraint failed: " ++ col))
  | _ => Done tt
  end.

(** What a handler returns: [jsonify(body), code], or an exception that
    leaves the handler (Flask's own 500 page). *)
Inductive reply :=
| Json (code : Z) (body : jval)
| Uncaught (e : err).

Definition ok_body (fields : list (string * jval)) : jval :=
  JObject (("success", JBool true) :: fields).

Definition fail (code : Z) (msg : string) : reply :=
  Json code (JObject [("success", JBool false); ("error", JStr msg)]).

Section Handlers.

(** The text SQLite makes of a REAL stored in a TEXT column, and [str(e)]
    of an exception: both depend on the library versions. *)
Variable real_text : spec_float -> string.
Variable exc_str : err -> string.

(** TEXT affinity on storage. *)
Definition text_affinity (v : sqlval) : sqlval :=
  match v with
  | SInt z => SText (z_to_dec z)
  | SReal f => SText (real_text f)
  | _ => v
  end.

(** [v LIKE p]: [likeFunc] reads both operands with [sqlite3_value_text],
    as C strings that end at their first NUL. *)
Definition like_value (p : string) (v : sqlval) : bool :=
  let pat := c_str (list_ascii_of_string p) in
  match v with
  | SNull => false
  | SText s => like pat (c_str (list_ascii_of_string s))
  | SInt z => like pat (c_str (list_ascii_of_string (z_to_dec z)))
  | SReal f => like pat (c_str (list_ascii_of_string (real_text f)))
  end.

(** *** Contacts (web_app.py 930-1022) *)

Definition contact_json (r : contact) : jval :=
  JObject [("id", JInt (ct_id r)); ("name", sql_json (ct_name r));
           ("phone_number", sql_json (ct_phone_number r));
           ("company", sql_json (ct_company r)); ("notes", sql_json (ct_notes r));
           ("tags", sql_json (ct_tags r)); ("created_at", sql_json (ct_created_at r));
           ("last_called", sql_json (ct_last_called r))].

(** [GET /api/contacts?search=...]. [likeFunc] refuses a pattern of more
    than [SQLITE_LIMIT_LIKE_PATTERN_LENGTH] bytes; the [WHERE] clause, and
    so the error, is reached as soon as there is a row. *)
Definition get_contacts (search : string) (w : db) : reply :=
  let listing rows :=
    Json 200 (ok_body [("contacts", JArray (map contact_json (order_asc ct_name rows)))]) in
  if String.eqb search "" then listing (contacts w)
  else
    let p := ("%" ++ search ++ "%")%string in
    match contacts w with
    | _ :: _ =>
        if Nat.ltb like_pattern_limit (utf8_length p)
        then fail 500 "LIKE or GLOB pattern too complex"
        else
          listing (filter (fun r => like_value p (ct_name r) || like_value p (ct_phone_number r) ||
                                    like_value p (ct_company r)) (contacts w))
    | [] => listing []
    end.

(** [INSERT INTO contacts (name, phone_number, company, notes, tags)]. *)
Definition insert_contact (w : db) (name phone company notes tags : sqlval)
    : outcome (Z * db) :=
  let? cid := next_rowid (contacts_seq w) (map ct_id (contacts w)) in
  let name' := text_affinity name in
  let phone' := text_affinity phone in
  let? _ := not_null "contacts.name" name' in
  let? _ := not_null "contacts.phone_number" phone' in
  if existsb (fun r => sql_same (ct_phone_number r) phone') (contacts w)
  then Raise (IntegrityError "UNIQUE constraint failed: contacts.phone_number")
  else
    let row := mk_contact cid name' phone' (text_affinity company) (text_affinity notes)
                 (text_affinity tags) (SText (clock w)) SNull in
    Done (cid, set_contacts w (app (contacts w) [row]) cid).

(** [POST /api/contacts]. *)
Definition add_contact (data : jdict) (w : db) : reply * db :=
  match
    let? name := py_strip (jget data "name" (JStr "")) in
    let? phone := py_strip (jget data "phone_number" (JStr "")) in
    let? company := py_strip (jget data "company" (JStr "")) in
    let? notes := py_strip (jget data "notes" (JStr "")) in
    let? tags := py_strip (jget data "tags" (JStr "")) in
    Done (name, phone, company, notes, tags)
  with
  | Raise e => (fail 500 (exc_str e), w)
  | Done (name, phone, company, notes, tags) =>
      if String.eqb name "" || String.eqb phone "" then
        (fail 400 "Name and phone number are required", w)
      else
        match insert_contact w (SText name) (SText phone) (SText company) (SText notes) (SText tags) with
        | Done (cid, w') =>
            (Json 200 (ok_body [("contact_id", JInt cid); ("message", JStr "Contact added!")]), w')
        | Raise (IntegrityError _) => (fail 400 "Phone number already exists", w)
        | Raise e => (fail 500 (exc_str e), w)
        end
  end.

(** [UPDATE contacts SET name = ?, ... WHERE id = ?]: the row with that id
    gets the five values, unless a constraint fails. *)
Definition exec_update_contact (w : db) (contact_id : Z)
    (name phone company notes tags : sqlval) : outcome db :=
  let hit r := Z.eqb (ct_id r) contact_id in
  if existsb hit (contacts w) then
    let? _ := not_null "contacts.name" name in
    let? _ := not_null "contacts.phone_number" phone in
    if existsb (fun r => negb (hit r) && sql_same (ct_phone_number r) phone) (contacts w)
    then Raise (IntegrityError "UNIQUE constraint failed: contacts.phone_number")
    else
      Done (set_contacts w
              (map (fun r => if hit r
                             then mk_contact (ct_id r) name phone company notes tags
                                    (ct_created_at r) (ct_last_called r)
                             else r) (contacts w))
              (contacts_seq w))
  else Done w.

(** [PUT /api/contacts/<contact_id>]. *)
Definition update_contact (contact_id : Z) (data : jdict) (w : db) : reply * db :=
  match
    let? name := bind_value (jget data "name" JNone) in
    let? phone := bind_value (jget data "phone_number" JNone) in
    let? company := bind_value (jget data "company" (JStr "")) in
    let? notes := bind_value (jget data "notes" (JStr "")) in
    let? tags := bind_value (jget data "tags" (JStr "")) in
    let? _ := bind_value (JInt contact_id) in
    exec_update_contact w contact_id (text_affinity name) (text_affinity phone)
      (text_affinity company) (text_affinity notes) (text_affinity tags)
  with
  | Done w' => (Json 200 (ok_body [("message", JStr "Contact updated!")]), w')
  | Raise e => (fail 500 (exc_str e), w)
  end.

(** [DELETE /api/contacts/<contact_id>]. *)
Definition delete_contact (contact_id : Z) (w : db) : reply * db :=
  match bind_value (JInt contact_id) with
  | Raise e => (fail 500 (exc_str e), w)
  | Done _ =>
      (Json 200 (ok_body [("message", JStr "Contact deleted!")]),
       set_contacts w (filter (fun r => negb (Z.eqb (ct_id r) contact_id)) (contacts w))
         (contacts_seq w))
  end.

(** *** Transcripts (web_app.py 794-836) *)

(** [INSERT INTO transcripts (call_id, speaker, message)]. *)
Definition insert_transcript (w : db) (call_id : Z) (speaker message : jval)
    : outcome (Z * db) :=
  let? k := bind_value (JInt call_id) in
  let? s := bind_value speaker in
  let? m := bind_value message in
  let? tid := next_rowid (transcripts_seq w) (map tr_id (transcripts w)) in
  let s' := text_affinity s in
  let m' := text_affinity m in
  let? _ := not_null "transcripts.speaker" s' in
  let? _ := not_null "transcripts.message" m' in
  Done (tid, set_transcripts w (app (transcripts w) [mk_transcript tid k s' m' (SText (clock w))]) tid).

(** [POST /api/transcripts/<call_id>]. *)
Definition add_transcript_message (call_id : Z) (data : jdict) (w : db) : reply * db :=
  let speaker := jget data "speaker" (JStr "unknown") in
  let message := jget data "message" (JStr "") in
  if negb (truthy message) then (fail 400 "Message is required", w)
  else
    match insert_transcript w call_id speaker message with
    | Done (tid, w') => (Json 200 (ok_body [("transcript_id", JInt tid)]), w')
    | Raise e => (fail 500 (exc_str e), w)
    end.

Definition transcript_json (r : transcript) : jval :=
  JObject [("id", JInt (tr_id r)); ("speaker", sql_json (tr_speaker r));
           ("message", sql_json (tr_message r)); ("timestamp", sql_json (tr_timestamp r))].

(** [GET /api/transcripts/<call_id>]. *)
Definition get_transcript (call_id : Z) (w : db) : reply :=
  match bind_value (JInt call_id) with
  | Raise e => fail 500 (exc_str e)
  | Done k =>
      let rows := filter (fun r => sql_same (tr_call_id r) k) (transcripts w) in
      Json 200 (ok_body [("transcript", JArray (map transcript_json (order_asc tr_timestamp rows)));
                         ("call_id", JInt call_id)])
  end.

(** *** Call history (web_app.py 618-636) *)

Definition call_json (r : call) : jval :=
  JObject [("id", JInt (id r)); ("phone_number", sql_json (phone_number r));
           ("room_name", sql_json (room_name r)); ("status", sql_json (status r));
           ("duration", sql_json (duration r)); ("notes", sql_json (notes r));
           ("created_at", sql_json (created_at r)); ("ended_at", sql_json (ended_at r));
           ("cost_livekit", sql_json (cost_livekit r)); ("cost_stt", sql_json (cost_stt r));
           ("cost_tts", sql_json (cost_tts r)); ("cost_llm", sql_json (cost_llm r));
           ("total_cost_usd", sql_json (total_cost_usd r));
           ("total_cost_inr", sql_json (total_cost_inr r))].

(** [LIMIT n]: a negative limit means no limit. *)
Definition sql_limit {A} (n : Z) (l : list A) : list A :=
  if n <? 0 then l else firstn (Z.to_nat n) l.

(** [GET /api/calls?limit=...]. *)
Definition get_calls (limit_arg : option string) (w : db) : reply :=
  let limit := arg_int limit_arg 50 in
  match bind_value (JInt limit) with
  | Raise e => fail 500 (exc_str e)
  | Done _ =>
      Json 200 (ok_body [("calls", JArray (map call_json
                                             (sql_limit limit (order_desc created_at (calls w)))))])
  end.

(** *** Placing a call (web_app.py 168-254) *)

Fixpoint getenv (env : list (string * string)) (k : string) : option string :=
  match env with
  | [] => None
  | (k', v) :: env' => if String.eqb k k' then Some v else getenv env' k
  end.

(** Truth of an [os.getenv] result. *)
Definition env_set (v : option string) : bool :=
  match v with Some s => negb (String.eqb s "") | None => false end.

(** [INSERT INTO calls (phone_number, room_name, dispatch_id, status)
    VALUES (?, ?, ?, 'dialing')]; the other columns take their defaults. *)
Definition insert_call (w : db) (phone room dispatch : string) : outcome (Z * db) :=
  let? cid := next_rowid (calls_seq w) (map id (calls w)) in
  let zero := SReal (S754_zero false) in
  let row := mk_call cid (SText phone) (SText room) (SText dispatch) (SText "dialing")
               (SInt 0) SNull (SText (clock w)) SNull zero zero zero zero zero zero in
  Done (cid, set_calls w (app (calls w) [row]) cid).

(** [UPDATE contacts SET last_called = CURRENT_TIMESTAMP WHERE phone_number = ?],
    run on a new connection after the [INSERT] was committed: [now] is
    the [CURRENT_TIMESTAMP] of that statement, or the exception it raised,
    which the bare [except: pass] swallows. *)
Definition touch_contacts (now : outcome string) (w : db) (phone : string) : db :=
  match now with
  | Raise _ => w
  | Done ts =>
      set_contacts w
        (map (fun r => if sql_same (ct_phone_number r) (SText phone)
                       then mk_contact (ct_id r) (ct_name r) (ct_phone_number r) (ct_company r)
                              (ct_notes r) (ct_tags r) (ct_created_at r) (SText ts)
                       else r) (contacts w))
        (contacts_seq w)
  end.

Definition room_name_of (phone : string) (rand : Z) : string :=
  ("call-" ++ py_replace phone "+" "" ++ "-" ++ z_to_dec rand)%string.

(** [dispatch_call]: [rand] is [random.randint(1000, 9999)], [dispatch]
    what [create_dispatch] returns (the dispatch id) or raises, and [now]
    the outcome of the [last_called] update. *)
Definition dispatch_call (phone : string) (rand : Z) (dispatch : outcome string)
    (now : outcome string) (w : db) : jval * db :=
  let room := room_name_of phone rand in
  match dispatch with
  | Raise e => (JObject [("success", JBool false); ("error", JStr (exc_str e))], w)
  | Done did =>
      match insert_call w phone room did with
      | Raise e => (JObject [("success", JBool false); ("error", JStr (exc_str e))], w)
      | Done (cid, w1) =>
          (ok_body [("call_id", JInt cid); ("dispatch_id", JStr did); ("room_name", JStr room);
                    ("phone_number", JStr phone);
                    ("message", JStr "Call dispatched successfully! The agent is now dialing.")],
           touch_contacts now w1 phone)
      end
  end.

(** [POST /api/call]; [env] is the environment after [load_dotenv]. *)
Definition make_call (data : jdict) (env : list (string * string)) (rand : Z)
    (dispatch : outcome string) (now : outcome string) (w : db) : reply * db :=
  match py_strip (jget data "phone_number" (JStr "")) with
  | Raise e => (Uncaught e, w)
  | Done phone =>
      if String.eqb phone "" then (fail 400 "Phone number is required", w)
      else if negb (startswith phone "+") then
        (fail 400 ("Phone number must start with " ++ dq ++ "+" ++ dq ++ " and country code"), w)
      else if Nat.ltb (String.length phone) 8 then
        (fail 400 ("Phone number " ++ dq ++ phone ++ dq ++ " looks too short"), w)
      else if negb (env_set (getenv env "LIVEKIT_URL") && env_set (getenv env "LIVEKIT_API_KEY")
                    && env_set (getenv env "LIVEKIT_API_SECRET")) then
        (fail 500 "LiveKit credentials missing in Settings", w)
      else
        let (result, w') := dispatch_call phone rand dispatch now w in
        (Json 200 result, w')
  end.

End Handlers.

(** *** A sequence of requests *)

Inductive request :=
| ReqAddContact (data : jdict)
| ReqUpdateContact (contact_id : Z) (data : jdict)
| ReqDeleteContact (contact_id : Z)
| ReqMakeCall (data : jdict) (env : list (string * string)) (rand : Z) (dispatch : outcome string)
    (now : outcome string)
| ReqAddTranscript (call_id : Z) (data : jdict)
| ReqGetContacts (search : string)
| ReqGetTranscript (call_id : Z)
| ReqGetCalls (limit_arg : option string).

Section Serve.
Variable real_text : spec_float -> string.
Variable exc_str : err -> string.

(** One request, served on its own connection. *)
Definition handle (q : request) (w : db) : reply * db :=
  match q with
  | ReqAddContact data => add_contact real_text exc_str data w
  | ReqUpdateContact k data => update_contact real_text exc_str k data w
  | ReqDeleteContact k => delete_contact exc_str k w
  | ReqMakeCall data env rand d now => make_call exc_str data env rand d now w
  | ReqAddTranscript k data => add_transcript_message real_text exc_str k data w
  | ReqGetContacts s => (get_contacts real_text s w, w)
  | ReqGetTranscript k => (get_transcript exc_str k w, w)
  | ReqGetCalls a => (get_calls exc_str a w, w)
  end.

Fixpoint run (qs : list request) (w : db) : db :=
  match qs with
  | [] => w
  | q :: qs' => run qs' (snd (handle q w))
  end.

End Serve.

(** *** Predicates of the statements *)

(** The field [k] is missing or a string. *)
Definition str_or_missing (data : jdict) (k : string) : bool :=
  match jfind data k with
  | None | Some (JStr _) => true
  | Some _ => false
  end.

(** [data.get(k, '').strip()] for such a field. *)
Definition stripped_field (data : jdict) (k : string) : string :=
  match jget data k (JStr "") with JStr s => strip s | _ => "" end.

Definition contact_fields : list string :=
  ["name"; "phone_number"; "company"; "notes"; "tags"].

(** Contact ids are distinct, and so are the phone numbers. *)
Fixpoint contacts_ok (cs : list contact) : bool :=
  match cs with
  | [] => true
  | r :: cs' =>
      forallb (fun r' => negb (Z.eqb (ct_id r) (ct_id r')) &&
                         negb (sql_same (ct_phone_number r) (ct_phone_number r'))) cs' &&
      contacts_ok cs'
  end.






(** *** Analytics (web_app.py 838-922) *)

Fixpoint add_to_group (k : sqlval) (gs : list (sqlval * Z)) : list (sqlval * Z) :=
  match gs with
  | [] => [(k, 1)]
  | (k', n) :: gs' => if sql_group_eq k k' then (k', n + 1) :: gs' else (k', n) :: add_to_group k gs'
  end.

(** [SELECT key, COUNT( * ) ... GROUP BY key], groups in order of first row. *)
Definition group_count (key : call -> sqlval) (t : table) : list (sqlval * Z) :=
  fold_left (fun gs r => add_to_group (key r) gs) t [].

Record analytics := mk_analytics {
  an_total_calls : Z;
  an_today_calls : Z;
  an_week_calls : Z;
  an_month_calls : Z;
  an_status_counts : list (sqlval * Z);
  an_daily_calls : list (sqlval * Z);
  an_total_contacts : Z;
  an_today_cost_usd : pyval;
  an_today_cost_inr : pyval;
  an_week_cost_usd : pyval;
  an_week_cost_inr : pyval;
  an_month_cost_usd : pyval;
  an_month_cost_inr : pyval;
  an_total_cost_usd : pyval;
  an_total_cost_inr : pyval }.

(** The type of the Python value read back from a status: [None], a
    number, or a [str]. Values of different types do not compare with [<]. *)
Definition key_kind (v : sqlval) : nat :=
  match v with
  | SNull => 0
  | SInt _ | SReal _ => 1
  | SText _ => 2
  end.

(** [jsonify] sorts the keys of every dict ([sort_keys]); sorting the keys
    of [status_counts] raises [TypeError] exactly when two of them have
    types that do not compare. *)
Definition keys_sortable (ks : list sqlval) : bool :=
  match ks with
  | [] => true
  | k :: ks' => forallb (fun k' => Nat.eqb (key_kind k') (key_kind k)) ks'
  end.

Section GetAnalytics.

Variable sum_approx : list sqlval -> spec_float.
Variable sql_date : sqlval -> sqlval.
Variable date_now : string.
Variable date_now_minus_days : Z -> string.

Definition count_rows (keep : call -> bool) (t : table) : Z :=
  Z.of_nat (List.length (filter keep t)).

(** [GET /api/analytics]. *)
Definition get_analytics (w : db) : res analytics :=
  let t := calls w in
  let in_today := Aggregate.in_today sql_date date_now in
  let in_week := Aggregate.in_last_days date_now_minus_days 7 in
  let in_month := Aggregate.in_last_days date_now_minus_days 30 in
  let sum := Aggregate.coalesce_sum sum_approx in
  let status_counts := group_count status t in
  let daily_calls :=
    order_asc fst (group_count (fun r => sql_date (created_at r)) (filter in_week t)) in
  today_usd <- sum total_cost_usd (filter in_today t) ;;
  today_inr <- sum total_cost_inr (filter in_today t) ;;
  week_usd <- sum total_cost_usd (filter in_week t) ;;
  week_inr <- sum total_cost_inr (filter in_week t) ;;
  month_usd <- sum total_cost_usd (filter in_month t) ;;
  month_inr <- sum total_cost_inr (filter in_month t) ;;
  all_usd <- sum total_cost_usd t ;;
  all_inr <- sum total_cost_inr t ;;
  r_today_usd <- py_round (Aggregate.to_py today_usd) 4 ;;
  r_today_inr <- py_round (Aggregate.to_py today_inr) 2 ;;
  r_week_usd <- py_round (Aggregate.to_py week_usd) 4 ;;
  r_week_inr <- py_round (Aggregate.to_py week_inr) 2 ;;
  r_month_usd <- py_round (Aggregate.to_py month_usd) 4 ;;
  r_month_inr <- py_round (Aggregate.to_py month_inr) 2 ;;
  r_all_usd <- py_round (Aggregate.to_py all_usd) 4 ;;
  r_all_inr <- py_round (Aggregate.to_py all_inr) 2 ;;
  if negb (keys_sortable (map fst status_counts)) then Err TypeError else
  Ok (mk_analytics (Z.of_nat (List.length t)) (count_rows in_today t) (count_rows in_week t)
        (count_rows in_month t) status_counts daily_calls (Z.of_nat (List.length (contacts w)))
        r_today_usd r_today_inr r_week_usd r_week_inr r_month_usd r_month_inr
        r_all_usd r_all_inr).

End GetAnalytics.

(** The total of the counts of a grouped count query. *)
Definition count_sum (gs : list (sqlval * Z)) : Z := fold_right Z.add 0 (map snd gs).

(** *** Sample rows and requests *)
Module WebSamples.
Import Req.
Local Open Scope string_scope.
Local Open Scope Z_scope.

Definition clock0 : string := "2024-05-01 10:00:00".

(** Any rendering of reals and of exceptions. *)
Definition rt0 (f : spec_float) : string := "0.0".
Definition es0 (e : err) : string := "error".

Definition db_empty : db := mk_db [] 0 [] 0 [] 0 clock0.

(** A [last_called] update that runs one second after the [INSERT]. *)
Definition touch_ok : outcome string := Done "2024-05-01 10:00:01".

Definition ann : contact :=
  mk_contact 1 (SText "Ann") (SText "+15550100") (SText "Acme") (SText "") (SText "")
    (SText "2024-05-01 09:00:00") SNull.

Definition db_ann : db := mk_db [] 0 [ann] 1 [] 0 clock0.

Definition req_ann : jdict := [("name", JStr " Ann "); ("phone_number", JStr "+15550100")].

Definition req_bob_same_phone : jdict := [("name", JStr "Bob"); ("phone_number", JStr "+15550100")].

Definition req_call : jdict := [("phone_number", JStr "+15550100")].

Definition env_full : list (string * string) :=
  [("LIVEKIT_URL", "wss://x.livekit.cloud"); ("LIVEKIT_API_KEY", "k"); ("LIVEKIT_API_SECRET", "s")].

Definition session : list request :=
  [ReqAddContact req_ann; ReqAddContact req_bob_same_phone;
   ReqAddContact [("name", JStr "Bob"); ("phone_number", JStr "+15550111")];
   ReqUpdateContact 2 [("name", JStr "Bob"); ("phone_number", JStr "+15550100")];
   ReqMakeCall req_call env_full 4321 (Done "AD_1") touch_ok;
   ReqDeleteContact 1;
   ReqUpdateContact 2 [("name", JStr "Bob"); ("phone_number", JStr "+15550100")]].

Definition req_ann_renamed : jdict :=
  [("name", JStr "Ann B"); ("phone_number", JStr "+15550101")].

Definition ann_renamed : contact :=
  mk_contact 1 (SText "Ann B") (SText "+15550101") (SText "") (SText "") (SText "")
    (SText "2024-05-01 09:00:00") SNull.

Definition req_line : jdict := [("speaker", JStr "agent"); ("message", JStr "Hello, this is Krish")].

Definition db_calls : db := mk_db Samples.three_calls 3 [ann] 1 [] 0 clock0.

(** A search string of 50000 letters. *)
Definition long_search : string := string_of_list_ascii (repeat "a"%char 50000).

(** The body of a JSON reply. *)
Definition reply_body (r : reply) : jval :=
  match r with Json _ b => b | Uncaught _ => JNone end.

(** The fields after [success] of an [ok_body]. *)
Definition ok_fields (b : jval) : list (string * jval) :=
  match b with JObject (_ :: fields) => fields | _ => [] end.

End WebSamples.

End Web.

(** ** The agent configuration file (web_app.py 351-426)

    [get_agent_config] reads [SYSTEM_PROMPT], [INITIAL_GREETING] and
    [fallback_greeting] out of the text of config.py with [re.search];
    [save_agent_config] rewrites them with [re.sub]. The file text is a list
    of code points below 256, as the other strings. *)
Module AgentCfg.
Import Req Web.
Local Open Scope string_scope.

(** The regular expressions used, as sequences of items:
    a literal character, one character of a class, a repetition of a class
    ([*], [+], [*?], [+?]: at least [min] characters, greedy or lazy), and
    the two ends of group 1. *)
Inductive item :=
| ILit (c : ascii)
| IOne (f : ascii -> bool)
| IRep (f : ascii -> bool) (lazy : bool) (min : nat)
| IOpen
| IClose.

Definition lits (l : list ascii) : list item := map ILit l.

(** How many characters of [f] start [s]. *)
Fixpoint run_len (f : ascii -> bool) (s : list ascii) : nat :=
  match s with
  | c :: s' => if f c then S (run_len f s') else O
  | [] => O
  end.

Fixpoint first_some {A B} (f : A -> option B) (l : list A) : option B :=
  match l with
  | [] => None
  | x :: l' => match f x with Some y => Some y | None => first_some f l' end
  end.

(** The backtracking matcher of [sre] at position [i] of the searched text,
    [s] being the text from [i] on: the end of the match and the span of
    group 1. A repetition tries its counts from the most (greedy) or the
    fewest (lazy), and the first count with which the rest matches wins. *)
Fixpoint match_at (its : list item) (s : list ascii) (i op : nat) (grp : option (nat * nat))
    : option (nat * option (nat * nat)) :=
  match its with
  | [] => Some (i, grp)
  | ILit c :: r =>
      match s with
      | c' :: s' => if Ascii.eqb c c' then match_at r s' (S i) op grp else None
      | [] => None
      end
  | IOne f :: r =>
      match s with
      | c' :: s' => if f c' then match_at r s' (S i) op grp else None
      | [] => None
      end
  | IOpen :: r => match_at r s i i grp
  | IClose :: r => match_at r s i op (Some (op, i))
  | IRep f lazy mn :: r =>
      let counts := seq mn (S (run_len f s) - mn) in
      first_some (fun n => match_at r (skipn n s) (i + n) op grp)
        (if lazy then counts else rev counts)
  end.

(** [re.search]: the first position where the pattern matches, with the
    end of the match and group 1. *)
Fixpoint search_at (its : list item) (s : list ascii) (p : nat)
    : option (nat * nat * option (nat * nat)) :=
  match match_at its s p 0 None with
  | Some (e, grp) => Some (p, e, grp)
  | None => match s with [] => None | _ :: s' => search_at its s' (S p) end
  end.

Definition search (its : list item) (s : list ascii) := search_at its s 0.

Definition slice (s : list ascii) (a b : nat) : list ascii := firstn (b - a) (skipn a s).

(** [m.group(1) if m else None]. *)
Definition group1 (its : list item) (s : list ascii) : option (list ascii) :=
  match search its s with
  | Some (_, _, Some (a, b)) => Some (slice s a b)
  | _ => None
  end.

(** [\s] is [str.isspace]; the dot without [re.DOTALL] is every character
    but a newline; the class of the greeting patterns is either quote. *)
Definition newline : ascii := "010"%char.
Definition dquote : ascii := "034"%char.
Definition squote : ascii := "039"%char.
Definition backslash : ascii := "092"%char.
Definition carriage_return : ascii := "013"%char.

Definition any_char (c : ascii) : bool := true.
Definition not_newline (c : ascii) : bool := negb (Ascii.eqb c newline).
Definition is_quote (c : ascii) : bool := Ascii.eqb c dquote || Ascii.eqb c squote.

Definition triple_quote : list ascii := [dquote; dquote; dquote].

(** [KEY\s*=\s*] *)
Definition assign (key : string) : list item :=
  lits (list_ascii_of_string key) ++ [IRep is_space false 0; ILit "="%char; IRep is_space false 0].

(** The search pattern of [SYSTEM_PROMPT]: the key, the equals sign, three
    double quotes, a lazy group of any characters ([re.DOTALL]) and three
    double quotes. *)
Definition get_prompt_pat : list item :=
  assign "SYSTEM_PROMPT" ++ lits triple_quote ++ [IOpen; IRep any_char true 0; IClose] ++
  lits triple_quote.

(** The search pattern of a greeting: the key, the equals sign, a quote, a
    lazy group of one or more characters but newlines, and a quote. *)
Definition get_greeting_pat (key : string) : list item :=
  assign key ++ [IOne is_quote; IOpen; IRep not_newline true 1; IClose; IOne is_quote].

(** The substitution pattern of [SYSTEM_PROMPT]: as the search pattern,
    without the group. *)
Definition set_prompt_pat : list item :=
  assign "SYSTEM_PROMPT" ++ lits triple_quote ++ [IRep any_char true 0] ++ lits triple_quote.

(** The substitution pattern of a greeting: the key, the equals sign, a
    quote, a lazy run of characters but newlines (possibly none), and a
    quote. *)
Definition set_greeting_pat (key : string) : list item :=
  assign key ++ [IOne is_quote; IRep not_newline true 0; IOne is_quote].

(** A replacement template of [re.sub] once parsed: characters and [\g<0>]
    (the whole match). The patterns above have no group of their own, so
    any other group reference is an error. *)
Inductive tpiece := TChar (c : ascii) | TMatch.

Definition code (c : ascii) : nat := nat_of_ascii c.
Definition is_digit (c : ascii) : bool := Nat.leb 48 (code c) && Nat.leb (code c) 57.
Definition is_octal (c : ascii) : bool := Nat.leb 48 (code c) && Nat.leb (code c) 55.
Definition is_letter (c : ascii) : bool :=
  (Nat.leb 65 (code c) && Nat.leb (code c) 90) || (Nat.leb 97 (code c) && Nat.leb (code c) 122).

(** The escapes [ESCAPES] of [re._parser]. *)
Definition escape_char (c : ascii) : option ascii :=
  if Ascii.eqb c "a"%char then Some "007"%char
  else if Ascii.eqb c "b"%char then Some "008"%char
  else if Ascii.eqb c "f"%char then Some "012"%char
  else if Ascii.eqb c "n"%char then Some "010"%char
  else if Ascii.eqb c "r"%char then Some "013"%char
  else if Ascii.eqb c "t"%char then Some "009"%char
  else if Ascii.eqb c "v"%char then Some "011"%char
  else if Ascii.eqb c backslash then Some backslash
  else None.

(** [s.getuntil] of a group name: the name and what follows the closing
    angle bracket. *)
Fixpoint group_name (t : list ascii) (acc : list ascii) : option (list ascii * list ascii) :=
  match t with
  | [] => None
  | c :: t' => if Ascii.eqb c ">"%char then Some (rev acc, t') else group_name t' (c :: acc)
  end.

Definition all_zeros (name : list ascii) : bool :=
  match name with [] => false | _ => forallb (fun c => Ascii.eqb c "0"%char) name end.

Definition octal_value (l : list ascii) : nat :=
  fold_left (fun acc c => (8 * acc + (code c - 48))%nat) l O.

(** [re._parser.parse_template]; [None] where it raises [re.error]. Every
    round consumes at least one character, so [S (length t)] rounds
    suffice. *)
Fixpoint parse_template (fuel : nat) (t : list ascii) : option (list tpiece) :=
  match fuel with
  | O => None
  | S fuel' =>
      match t with
      | [] => Some []
      | c :: t' =>
          if negb (Ascii.eqb c backslash) then option_map (cons (TChar c)) (parse_template fuel' t')
          else
            match t' with
            | [] => None
            | d :: t'' =>
                if Ascii.eqb d "g"%char then
                  match t'' with
                  | c1 :: t3 =>
                      if Ascii.eqb c1 "<"%char then
                        match group_name t3 [] with
                        | Some (name, t4) =>
                            if all_zeros name then option_map (cons TMatch) (parse_template fuel' t4)
                            else None
                        | None => None
                        end
                      else None
                  | [] => None
                  end
                else if Ascii.eqb d "0"%char then
                  match t'' with
                  | e1 :: e2 :: t4 =>
                      if is_octal e1 then
                        if is_octal e2 then
                          option_map (cons (TChar (ascii_of_nat (octal_value [e1; e2]))))
                            (parse_template fuel' t4)
                        else option_map (cons (TChar (ascii_of_nat (octal_value [e1]))))
                               (parse_template fuel' (e2 :: t4))
                      else option_map (cons (TChar "000"%char)) (parse_template fuel' t'')
                  | [e1] =>
                      if is_octal e1 then Some [TChar (ascii_of_nat (octal_value [e1]))]
                      else option_map (cons (TChar "000"%char)) (parse_template fuel' t'')
                  | [] => Some [TChar "000"%char]
                  end
                else if is_digit d then
                  match t'' with
                  | e1 :: e2 :: t4 =>
                      if is_octal d && is_octal e1 && is_octal e2 &&
                         Nat.leb (octal_value [d; e1; e2]) 255
                      then option_map (cons (TChar (ascii_of_nat (octal_value [d; e1; e2]))))
                             (parse_template fuel' t4)
                      else None
                  | _ => None
                  end
                else
                  match escape_char d with
                  | Some x => option_map (cons (TChar x)) (parse_template fuel' t'')
                  | None =>
                      if is_letter d then None
                      else option_map (fun r => TChar backslash :: TChar d :: r)
                             (parse_template fuel' t'')
                  end
            end
      end
  end.

Definition expand (tpl : list tpiece) (m : list ascii) : list ascii :=
  flat_map (fun p => match p with TChar c => [c] | TMatch => m end) tpl.

(** The substitution loop of [re.sub] (count 0). The patterns never match
    the empty text, so every round consumes at least one character. *)
Fixpoint sub_loop (fuel : nat) (its : list item) (tpl : list tpiece) (s : list ascii) : list ascii :=
  match fuel with
  | O => s
  | S fuel' =>
      match search its s with
      | Some (a, b, _) =>
          firstn a s ++ expand tpl (slice s a b) ++ sub_loop fuel' its tpl (skipn b s)
      | None => s
      end
  end.

(** [re.sub(pattern, repl, string)]: the template is parsed first; [None]
    where that raises. *)
Definition re_sub (its : list item) (repl s : list ascii) : option (list ascii) :=
  match parse_template (S (List.length repl)) repl with
  | Some tpl => Some (sub_loop (S (List.length s)) its tpl s)
  | None => None
  end.

(** [GET /api/agent] on the text [content] of config.py. *)
Definition get_agent_config (content : string) : reply :=
  let s := list_ascii_of_string content in
  let text o := match o with Some g => string_of_list_ascii g | None => "" end in
  Json 200 (ok_body [("config", JObject
    [("system_prompt", JStr (strip (text (group1 get_prompt_pat s))));
     ("initial_greeting", JStr (text (group1 (get_greeting_pat "INITIAL_GREETING") s)));
     ("fallback_greeting", JStr (text (group1 (get_greeting_pat "fallback_greeting") s)))])]).

(** One [if key in data:] block of [save_agent_config]: [data[key]] is
    escaped with [str.replace] (an [AttributeError] if it is not a string)
    and the assignment rewritten with [re.sub]. *)
Definition save_step (data : jdict) (key : string) (escape : string -> string)
    (pat : list item) (template : string -> string) (s : list ascii) : outcome (list ascii) :=
  match jfind data key with
  | None => Done s
  | Some (JStr v) =>
      match re_sub pat (list_ascii_of_string (template (escape v))) s with
      | Some s' => Done s'
      | None => Raise ReError
      end
  | Some v => Raise (AttributeError (type_name v))
  end.

Definition tq : string := dq ++ dq ++ dq.
Definition nl : string := String newline EmptyString.
Definition bs : string := String backslash EmptyString.
(** A Windows line ending. *)
Definition crlf : string := String carriage_return (String newline EmptyString).

Definition escape_prompt (p : string) : string := py_replace p tq (bs ++ dq ++ bs ++ dq ++ bs ++ dq).
Definition escape_greeting (g : string) : string := py_replace g dq (bs ++ dq).

Definition prompt_template (p : string) : string := "SYSTEM_PROMPT = " ++ tq ++ nl ++ p ++ nl ++ tq.
Definition greeting_template (key : string) (g : string) : string := key ++ " = " ++ dq ++ g ++ dq.

(** The three [if key in data:] blocks of [save_agent_config], in order. *)
Definition save_content (data : jdict) (s : list ascii) : outcome (list ascii) :=
  let? s1 := save_step data "system_prompt" escape_prompt set_prompt_pat prompt_template s in
  let? s2 := save_step data "initial_greeting" escape_greeting
               (set_greeting_pat "INITIAL_GREETING") (greeting_template "INITIAL_GREETING") s1 in
  save_step data "fallback_greeting" escape_greeting
    (set_greeting_pat "fallback_greeting") (greeting_template "fallback_greeting") s2.

(** [open(CONFIG_FILE, 'r').read()]: in universal newlines mode a
    carriage return, alone or before a line feed, is read as one line
    feed. [after_cr] is set after a carriage return. *)
Fixpoint universal_newlines (after_cr : bool) (s : list ascii) : list ascii :=
  match s with
  | [] => []
  | c :: s' =>
      if Ascii.eqb c carriage_return then newline :: universal_newlines true s'
      else if after_cr && Ascii.eqb c newline then universal_newlines false s'
      else c :: universal_newlines false s'
  end.

Definition read_text (raw : string) : string :=
  string_of_list_ascii (universal_newlines false (list_ascii_of_string raw)).

(** [GET /api/agent] on the bytes [raw] of config.py. *)
Definition get_agent_config_file (raw : string) : reply :=
  get_agent_config (read_text raw).

Section Save.
Variable exc_str : err -> string.


(** The same on the bytes [raw] of config.py: read in universal newlines
    mode, and written back ([f.write] keeps a line feed on POSIX) only on
    success. *)
Definition save_agent_config_file (data : jdict) (raw : string) : reply * string :=
  match save_content data (list_ascii_of_string (read_text raw)) with
  | Done s3 =>
      (Json 200 (ok_body [("message", JStr "Agent configuration saved! Restart agent to apply changes.")]),
       string_of_list_ascii s3)
  | Raise e => (fail 500 (exc_str e), raw)
  end.

End Save.

(** The position of the first occurrence of [kw] in [s]. *)
Fixpoint first_occ_at (kw s : list ascii) (p : nat) : option nat :=
  if is_prefix kw s then Some p
  else match s with [] => None | _ :: s' => first_occ_at kw s' (S p) end.

Definition first_occ (kw : string) (s : string) : option nat :=
  first_occ_at (list_ascii_of_string kw) (list_ascii_of_string s) 0.

(** Templates whose backslashes all escape a double quote, as the escaped
    greetings and prompts of [save_agent_config] without backslashes of
    their own. *)
Fixpoint plain_escapes (t : list ascii) : bool :=
  match t with
  | [] => true
  | c :: t' =>
      if Ascii.eqb c backslash then
        match t' with d :: t'' => Ascii.eqb d dquote && plain_escapes t'' | [] => false end
      else plain_escapes t'
  end.

(** What the greeting patterns read between the key and the quote when
    [save_agent_config] wrote the line. *)
Definition eq_line : list ascii := [" "; "="; " "]%char.

(** [str.replace] of a double quote by a backslash and a double quote, on
    one character. *)
Definition esc_dq (c : ascii) : list ascii :=
  if Ascii.eqb dquote c then [backslash; dquote] else [c].

(** The reply of a successful [save_agent_config]. *)
Definition saved_message : reply :=
  Json 200 (ok_body [("message", JStr "Agent configuration saved! Restart agent to apply changes.")]).

End AgentCfg.


Module FloatFacts.

Lemma fexp_eq : forall x, fexp prec emax x = Z.max (x - 53) (-1074).
Proof. intros x. reflexivity. Qed.

Lemma iter_pos_nat : forall {A} (f : A -> A) p x,
  iter_pos f p x = Nat.iter (Pos.to_nat p) f x.
Proof.
  intros A f p. induction p as [p IH | p IH |]; intros x; cbn [iter_pos].
  - rewrite Pos2Nat.inj_xI, IH, IH, <- Nat.iter_add, Nat.iter_succ_r. f_equal. lia.
  - rewrite Pos2Nat.inj_xO, IH, IH, <- Nat.iter_add. f_equal. lia.
  - reflexivity.
Qed.

Lemma shr_exp : forall r e n, snd (shr r e n) = e + Z.max 0 n.
Proof. intros r e [| n | n]; simpl; lia. Qed.

Lemma shr_fexp_exp : forall m e l,
  snd (shr_fexp prec emax m e l) = Z.max e (fexp prec emax (Zdigits2 m + e)).
Proof. intros m e l. unfold shr_fexp. rewrite shr_exp. lia. Qed.

Lemma shr_shift : forall r e n n',
  n = n' \/ (n <= 0 /\ n' <= 0) ->
  shr r (e + 1) n = let '(r', e') := shr r e n' in (r', e' + 1).
Proof.
  intros r e n n' [<- | [H1 H2]].
  - destruct n; simpl; f_equal; lia.
  - destruct n; destruct n'; try lia; reflexivity.
Qed.

Lemma shr_fexp_shift : forall m e l,
  -1074 <= e \/ -1021 <= Zdigits2 m + e ->
  shr_fexp prec emax m (e + 1) l = let '(r', e') := shr_fexp prec emax m e l in (r', e' + 1).
Proof.
  intros m e l H. unfold shr_fexp. apply shr_shift. rewrite !fexp_eq. lia.
Qed.

Lemma bra_shift : forall s m e l,
  -1074 <= e \/ -1021 <= Zdigits2 m + e ->
  binary_round_aux prec emax s m (e + 1) l = fshift1 (binary_round_aux prec emax s m e l).
Proof.
  intros s m e l H. unfold binary_round_aux.
  rewrite (shr_fexp_shift m e l H).
  pose proof (shr_fexp_exp m e l) as He1.
  destruct (shr_fexp prec emax m e l) as [r1 e1]. simpl in He1.
  assert (H1 : -1074 <= e1) by (rewrite fexp_eq in He1; lia).
  rewrite (shr_fexp_shift _ e1 loc_Exact (or_introl H1)).
  destruct (shr_fexp prec emax _ e1 loc_Exact) as [r2 e2].
  destruct (shr_m r2) as [| p | p]; simpl; try reflexivity.
  unfold fshift1, emax, prec; simpl.
  destruct (Z.leb_spec e2 971); destruct (Z.leb_spec (e2 + 1) 971);
    try lia; reflexivity.
Qed.


(** Number of binary digits. *)
Lemma digits2_pos_size : forall p, digits2_pos p = Pos.size p.
Proof. induction p as [p IH | p IH |]; simpl; rewrite ?IH; reflexivity. Qed.

Lemma Zdigits2_log2 : forall z, 0 < z -> Zdigits2 z = Z.log2 z + 1.
Proof.
  intros [| p | p] Hz; try lia. simpl. rewrite digits2_pos_size.
  destruct p as [p | p |]; simpl; rewrite ?Pos2Z.inj_succ; reflexivity.
Qed.

Lemma Zdigits2_nonneg : forall z, 0 <= Zdigits2 z.
Proof. intros [| p | p]; simpl; lia. Qed.

Lemma Zdigits2_lt : forall z, 0 <= z -> z < 2 ^ Zdigits2 z.
Proof.
  intros z Hz. destruct (Z.eq_dec z 0) as [-> | Hn]; [simpl; lia |].
  rewrite Zdigits2_log2 by lia. apply Z.log2_spec. lia.
Qed.

Lemma Zdigits2_ge_pow : forall z, 0 < z -> 2 ^ (Zdigits2 z - 1) <= z.
Proof.
  intros z Hz. rewrite Zdigits2_log2 by lia.
  replace (Z.log2 z + 1 - 1) with (Z.log2 z) by lia. apply Z.log2_spec. lia.
Qed.

Lemma Zdigits2_le : forall z k, 0 <= z -> 0 <= k -> z < 2 ^ k -> Zdigits2 z <= k.
Proof.
  intros z k Hz Hk Hlt. destruct (Z.eq_dec z 0) as [-> | Hn]; [simpl; lia |].
  rewrite Zdigits2_log2 by lia.
  assert (Z.log2 z < k) by (apply Z.log2_lt_pow2; lia). lia.
Qed.

Lemma Zdigits2_ge : forall z k, 0 <= k -> 2 ^ k <= z -> k + 1 <= Zdigits2 z.
Proof.
  intros z k Hk Hle.
  assert (0 < 2 ^ k) by (apply Z.pow_pos_nonneg; lia).
  rewrite Zdigits2_log2 by lia.
  assert (k <= Z.log2 z).
  { rewrite <- (Z.log2_pow2 k) by lia. apply Z.log2_le_mono. exact Hle. }
  lia.
Qed.

(** Shifting right. *)
Lemma shr_1_m : forall r, 0 <= shr_m r -> shr_m (shr_1 r) = shr_m r / 2.
Proof.
  intros [m rr ss] Hm. simpl in Hm |- *.
  destruct m as [| p | p]; [reflexivity | | lia].
  destruct p as [p | p |]; simpl.
  - rewrite Pos2Z.inj_xI. Z.div_mod_to_equations. lia.
  - rewrite Pos2Z.inj_xO. Z.div_mod_to_equations. lia.
  - reflexivity.
Qed.

Lemma iter_shr_1_m : forall n r, 0 <= shr_m r ->
  shr_m (Nat.iter n shr_1 r) = shr_m r / 2 ^ Z.of_nat n.
Proof.
  induction n as [| n IH]; intros r Hm.
  - simpl. rewrite Z.div_1_r. reflexivity.
  - assert (Hp : 0 < 2 ^ Z.of_nat n) by (apply Z.pow_pos_nonneg; lia).
    rewrite Nat.iter_succ, shr_1_m.
    2:{ rewrite IH by exact Hm. apply Z.div_pos; lia. }
    rewrite IH by exact Hm.
    rewrite Z.div_div by lia.
    f_equal. rewrite Nat2Z.inj_succ, Z.pow_succ_r by lia. ring.
Qed.

Lemma shr_record_of_loc_m : forall m l, shr_m (shr_record_of_loc m l) = m.
Proof. intros m [| []]; reflexivity. Qed.

Lemma shr_fexp_m : forall m e l, 0 <= m ->
  shr_m (fst (shr_fexp prec emax m e l)) = m / 2 ^ (snd (shr_fexp prec emax m e l) - e).
Proof.
  intros m e l Hm. unfold shr_fexp, shr.
  destruct (fexp prec emax (Zdigits2 m + e) - e) as [| p | p]; simpl.
  - rewrite shr_record_of_loc_m, Z.sub_diag, Z.div_1_r. reflexivity.
  - rewrite iter_pos_nat, iter_shr_1_m, shr_record_of_loc_m by (rewrite shr_record_of_loc_m; lia).
    rewrite positive_nat_Z. f_equal. f_equal. lia.
  - rewrite shr_record_of_loc_m, Z.sub_diag, Z.div_1_r. reflexivity.
Qed.

Lemma round_nearest_even_bounds : forall m l,
  m <= round_nearest_even m l <= m + 1.
Proof.
  intros m [| []]; simpl; try lia. destruct (Z.even m); lia.
Qed.

(** What [binary_round_aux] returns for a nonnegative mantissa: a zero or a
    number of the given sign, with a mantissa below [2^53] and an exponent
    between the input exponent and the one fixed by the input's magnitude;
    it overflows to an infinity exactly above exponent [emax - prec]. *)
Lemma bra_spec : forall s m e l, 0 <= m ->
  binary_round_aux prec emax s m e l = S754_zero s \/
  exists p e'',
    binary_round_aux prec emax s m e l =
      (if e'' <=? emax - prec then S754_finite s p e'' else S754_infinity s) /\
    Zpos p < 2 ^ 53 /\ e <= e'' /\ -1074 <= e'' /\
    e'' <= Z.max e (Z.max (Zdigits2 m + e - 52) (-1074)).
Proof.
  intros s m e l Hm. unfold binary_round_aux.
  pose proof (shr_fexp_exp m e l) as He1.
  pose proof (shr_fexp_m m e l Hm) as Hm1.
  destruct (shr_fexp prec emax m e l) as [r1 e1]. simpl in He1, Hm1.
  rewrite fexp_eq in He1.
  set (m2 := round_nearest_even (shr_m r1) (loc_of_shr_record r1)).
  pose proof (round_nearest_even_bounds (shr_m r1) (loc_of_shr_record r1)) as Hb2.
  fold m2 in Hb2.
  assert (Hp1 : 0 < 2 ^ (e1 - e)) by (apply Z.pow_pos_nonneg; lia).
  assert (Hm1nn : 0 <= shr_m r1) by (rewrite Hm1; apply Z.div_pos; lia).
  assert (Hm2 : 0 <= m2) by lia.
  pose proof (shr_fexp_exp m2 e1 loc_Exact) as He2.
  pose proof (shr_fexp_m m2 e1 loc_Exact Hm2) as Hm3.
  destruct (shr_fexp prec emax m2 e1 loc_Exact) as [r2 e2]. simpl in He2, Hm3.
  rewrite fexp_eq in He2.
  set (D := Zdigits2 m) in *. set (D2 := Zdigits2 m2) in *.
  assert (HD : 0 <= D) by apply Zdigits2_nonneg.
  assert (HD2 : 0 <= D2) by apply Zdigits2_nonneg.
  assert (Hmlt : m < 2 ^ D) by (apply Zdigits2_lt; lia).
  assert (Hm2lt : m2 < 2 ^ D2) by (apply Zdigits2_lt; lia).
  (* the digits of the rounded mantissa *)
  assert (HD2b : D2 <= Z.max (D - (e1 - e)) 0 + 1).
  { apply Zdigits2_le; [lia | lia |].
    assert (shr_m r1 < 2 ^ Z.max (D - (e1 - e)) 0).
    { rewrite Hm1. apply Z.div_lt_upper_bound; [lia |].
      rewrite <- Z.pow_add_r by lia.
      eapply Z.lt_le_trans; [exact Hmlt |]. apply Z.pow_le_mono_r; lia. }
    rewrite Z.pow_add_r by lia. lia. }
  assert (Hp2 : 0 < 2 ^ (e2 - e1)) by (apply Z.pow_pos_nonneg; lia).
  assert (Hm3nn : 0 <= shr_m r2) by (rewrite Hm3; apply Z.div_pos; lia).
  assert (Hm3lt : shr_m r2 < 2 ^ 53).
  { rewrite Hm3. apply Z.div_lt_upper_bound; [lia |].
    rewrite <- Z.pow_add_r by lia.
    eapply Z.lt_le_trans; [exact Hm2lt |]. apply Z.pow_le_mono_r; lia. }
  destruct (shr_m r2) as [| p | p] eqn:Hr2; [left; reflexivity | right | lia].
  exists p, e2. split; [reflexivity |]. split; [exact Hm3lt |].
  split; [lia |]. split; [lia |].
  lia.
Qed.


(** Scaling by two in the normal range. *)
Lemma fmul_shift : forall sx mx ex sy my ey,
  -1074 <= ex + ey ->
  fmul (S754_finite sx mx ex) (S754_finite sy my (ey + 1)) =
  fshift1 (fmul (S754_finite sx mx ex) (S754_finite sy my ey)).
Proof.
  intros sx mx ex sy my ey H. unfold fmul, SFmul.
  rewrite Z.add_assoc. apply bra_shift. left. exact H.
Qed.

Lemma fdiv_shift : forall sx mx ex sy my ey,
  -1021 <= Zdigits2 (Zpos mx) + ex - (Zdigits2 (Zpos my) + ey) ->
  -1074 <= ex - ey ->
  fdiv (S754_finite sx mx (ex + 1)) (S754_finite sy my ey) =
  fshift1 (fdiv (S754_finite sx mx ex) (S754_finite sy my ey)).
Proof.
  intros sx mx ex sy my ey H1 H2. unfold fdiv, SFdiv, SFdiv_core_binary.
  rewrite !fexp_eq.
  set (d1 := Zdigits2 (Zpos mx)) in *. set (d2 := Zdigits2 (Zpos my)) in *.
  replace (Z.min (Z.max (d1 + (ex + 1) - (d2 + ey) - 53) (-1074)) (ex + 1 - ey))
    with (Z.min (Z.max (d1 + ex - (d2 + ey) - 53) (-1074)) (ex - ey) + 1) by lia.
  set (E := Z.min (Z.max (d1 + ex - (d2 + ey) - 53) (-1074)) (ex - ey)).
  assert (HE : -1074 <= E) by (unfold E; lia).
  replace (ex + 1 - ey - (E + 1)) with (ex - ey - E) by lia.
  destruct (Z.div_eucl _ (Zpos my)) as [q r].
  apply bra_shift. left. exact HE.
Qed.

Lemma shl_align_spec : forall mx ex ex',
  let '(mz, ez) := shl_align mx ex ex' in
  Zpos mz = Zpos mx * 2 ^ (ex - ez) /\ ez <= ex /\ (ez = ex \/ ez = ex').
Proof.
  intros mx ex ex'. unfold shl_align.
  destruct (ex' - ex) as [| d | d] eqn:Hd.
  - rewrite Z.sub_diag. simpl. lia.
  - rewrite Z.sub_diag. simpl. lia.
  - assert (Hit : forall n, Zpos (Pos.iter xO mx n) = Zpos mx * 2 ^ Zpos n).
    { induction n using Pos.peano_ind.
      - simpl. lia.
      - rewrite Pos.iter_succ, Pos2Z.inj_xO, IHn, Pos2Z.inj_succ, Z.pow_succ_r by lia. ring. }
    rewrite Hit. replace (ex - ex') with (Zpos d) by lia. split; [reflexivity | lia].
Qed.

Lemma Zdigits2_mul_pow2 : forall m k, 0 < m -> 0 <= k ->
  Zdigits2 (m * 2 ^ k) = Zdigits2 m + k.
Proof.
  intros m k Hm Hk.
  assert (0 < 2 ^ k) by (apply Z.pow_pos_nonneg; lia).
  rewrite !Zdigits2_log2 by nia. rewrite Z.log2_mul_pow2 by lia. lia.
Qed.

(** [binary_round] aligns the mantissa, keeping the magnitude, then
    rounds. *)
Lemma binary_round_spec : forall s p e,
  exists mz ez,
    binary_round prec emax s p e = binary_round_aux prec emax s (Zpos mz) ez loc_Exact /\
    ez <= e /\ Z.min e (Z.max (Zpos (digits2_pos p) + e - 53) (-1074)) <= ez /\
    Zdigits2 (Zpos mz) + ez = Zpos (digits2_pos p) + e.
Proof.
  intros s p e. unfold binary_round.
  pose proof (shl_align_spec p e (fexp prec emax (Zpos (digits2_pos p) + e))) as Hs.
  destruct (shl_align p e _) as [mz ez].
  rewrite fexp_eq in Hs. destruct Hs as [Hm [Hle Hor]].
  exists mz, ez. split; [reflexivity |]. split; [exact Hle |]. split; [lia |].
  rewrite Hm, Zdigits2_mul_pow2 by lia.
  change (Zdigits2 (Zpos p)) with (Zpos (digits2_pos p)). lia.
Qed.

(** [binary_round] of an even mantissa, and of a doubled exponent. *)
Lemma shr_fexp_xO : forall p e,
  1 <= fexp prec emax (Zpos (digits2_pos (xO p)) + e) - e ->
  shr_fexp prec emax (Zpos (xO p)) e loc_Exact = shr_fexp prec emax (Zpos p) (e + 1) loc_Exact.
Proof.
  intros p e H. unfold shr_fexp.
  assert (Hd : Zpos (digits2_pos (xO p)) + e = Zpos (digits2_pos p) + (e + 1))
    by (cbn [digits2_pos]; rewrite Pos2Z.inj_succ; lia).
  change (Zdigits2 (Zpos (xO p))) with (Zpos (digits2_pos (xO p))).
  change (Zdigits2 (Zpos p)) with (Zpos (digits2_pos p)).
  rewrite Hd in H |- *.
  set (t := fexp prec emax (Zpos (digits2_pos p) + (e + 1))) in *.
  unfold shr.
  destruct (t - e) as [| n | n] eqn:Hn; try lia.
  destruct (t - (e + 1)) as [| n' | n'] eqn:Hn'.
  - assert (n = 1%positive) by lia. subst n. simpl; f_equal; lia.
  - rewrite !iter_pos_nat.
    replace (Pos.to_nat n) with (S (Pos.to_nat n')) by lia.
    rewrite Nat.iter_succ_r. simpl shr_1; f_equal; lia.
  - lia.
Qed.

Lemma binary_round_xO : forall s p e,
  binary_round prec emax s (xO p) e = binary_round prec emax s p (e + 1).
Proof.
  intros s p e. unfold binary_round.
  assert (Hd : Zpos (digits2_pos (xO p)) + e = Zpos (digits2_pos p) + (e + 1))
    by (cbn [digits2_pos]; rewrite Pos2Z.inj_succ; lia).
  rewrite Hd.
  set (t := fexp prec emax (Zpos (digits2_pos p) + (e + 1))).
  unfold shl_align.
  destruct (Z.compare_spec t e) as [Heq | Hlt | Hgt].
  - rewrite Heq, Z.sub_diag. replace (e - (e + 1)) with (-1) by lia. reflexivity.
  - destruct (t - e) as [| n | n] eqn:Hn; try lia.
    destruct (t - (e + 1)) as [| n' | n'] eqn:Hn'; try lia.
    replace n' with (Pos.succ n) by lia.
    rewrite Pos.iter_succ_r. reflexivity.
  - destruct (t - e) as [| n | n] eqn:Hn; try lia.
    destruct (t - (e + 1)) as [| n' | n'] eqn:Hn'.
    + unfold binary_round_aux. rewrite shr_fexp_xO; [reflexivity |].
      rewrite Hd. fold t. lia.
    + unfold binary_round_aux. rewrite shr_fexp_xO; [reflexivity |].
      rewrite Hd. fold t. lia.
    + lia.
Qed.


Lemma binary_round_shift : forall s p e,
  -1074 <= e -> -1021 <= Zpos (digits2_pos p) + e ->
  binary_round prec emax s p (e + 1) = fshift1 (binary_round prec emax s p e).
Proof.
  intros s p e H1 H2. unfold binary_round.
  rewrite !fexp_eq.
  replace (Z.max (Zpos (digits2_pos p) + (e + 1) - 53) (-1074))
    with (Z.max (Zpos (digits2_pos p) + e - 53) (-1074) + 1) by lia.
  set (t := Z.max (Zpos (digits2_pos p) + e - 53) (-1074)).
  assert (Ht : -1074 <= t) by (unfold t; lia).
  unfold shl_align. replace (t + 1 - (e + 1)) with (t - e) by lia.
  destruct (t - e); apply bra_shift; left; lia.
Qed.

(** [float(2 * n)] is [float(n)] with the exponent raised by one. *)
Lemma binary_normalize_double : forall p,
  binary_normalize prec emax (Zpos (xO p)) 0 false =
  fshift1 (binary_normalize prec emax (Zpos p) 0 false).
Proof.
  intros p. simpl binary_normalize.
  rewrite binary_round_xO. apply binary_round_shift; lia.
Qed.

Lemma iter_shr_1_exact : forall k m,
  Nat.iter k shr_1 (Build_shr_record (Zpos m * 2 ^ Z.of_nat k) false false) =
  Build_shr_record (Zpos m) false false.
Proof.
  induction k as [| k IH]; intros m.
  - cbn [Nat.iter Z.of_nat]. rewrite Z.pow_0_r, Z.mul_1_r. reflexivity.
  - rewrite Nat.iter_succ.
    replace (Zpos m * 2 ^ Z.of_nat (S k)) with (Zpos (xO m) * 2 ^ Z.of_nat k)
      by (rewrite Nat2Z.inj_succ, Z.pow_succ_r, Pos2Z.inj_xO by lia; ring).
    rewrite IH. reflexivity.
Qed.

(** Multiplying a normal double by [2.0] raises its exponent by one. *)
Lemma fmul_two : forall m e,
  -1000 <= e -> Zpos (digits2_pos m) = 53 ->
  fmul (S754_finite false (2 ^ 52) (-51)) (S754_finite false m e) = fshift1 (S754_finite false m e).
Proof.
  intros m e He Hd. unfold fmul, SFmul, binary_round_aux. simpl xorb.
  assert (Hm : Zpos (2 ^ 52 * m) = Zpos m * 2 ^ Z.of_nat 52)
    by (rewrite Pos2Z.inj_mul, Pos2Z.inj_pow; change (Z.of_nat 52) with 52; ring).
  assert (HD : Zdigits2 (Zpos (2 ^ 52 * m)) = 105).
  { rewrite Hm, Zdigits2_mul_pow2 by lia. change (Zdigits2 (Zpos m)) with (Zpos (digits2_pos m)). lia. }
  assert (H1 : shr_fexp prec emax (Zpos (2 ^ 52 * m)) (-51 + e) loc_Exact =
                (Build_shr_record (Zpos m) false false, e + 1)).
  { unfold shr_fexp. rewrite HD, fexp_eq.
    replace (Z.max (105 + (-51 + e) - 53) (-1074) - (-51 + e)) with (Zpos 52) by lia.
    unfold shr. rewrite iter_pos_nat. unfold shr_record_of_loc. rewrite Hm.
    change (Pos.to_nat 52) with 52%nat. rewrite iter_shr_1_exact. f_equal. lia. }
  assert (H2 : shr_fexp prec emax (Zpos m) (e + 1) loc_Exact =
                (Build_shr_record (Zpos m) false false, e + 1)).
  { unfold shr_fexp. change (Zdigits2 (Zpos m)) with (Zpos (digits2_pos m)).
    rewrite Hd, fexp_eq.
    replace (Z.max (53 + (e + 1) - 53) (-1074) - (e + 1)) with 0 by lia. reflexivity. }
  rewrite H1. cbn [shr_m loc_of_shr_record round_nearest_even]. rewrite H2.
  reflexivity.
Qed.


(** The quotient [SFdiv] rounds: nonnegative, with the magnitude of the
    exact quotient. *)
Lemma fdiv_spec : forall sx mx ex sy my ey,
  exists q e' l,
    fdiv (S754_finite sx mx ex) (S754_finite sy my ey) =
      binary_round_aux prec emax (xorb sx sy) q e' l /\
    0 <= q /\
    e' = Z.min (Z.max (Zdigits2 (Zpos mx) + ex - (Zdigits2 (Zpos my) + ey) - 53) (-1074)) (ex - ey) /\
    Zdigits2 q + e' <= Z.max (Zdigits2 (Zpos mx) + ex - (Zdigits2 (Zpos my) + ey) + 1) e'.
Proof.
  intros sx mx ex sy my ey. unfold fdiv, SFdiv, SFdiv_core_binary.
  rewrite fexp_eq.
  set (d1 := Zdigits2 (Zpos mx)). set (d2 := Zdigits2 (Zpos my)).
  set (E := Z.min (Z.max (d1 + ex - (d2 + ey) - 53) (-1074)) (ex - ey)).
  assert (Hs : 0 <= ex - ey - E) by (unfold E; lia).
  assert (Hm' : match ex - ey - E with
                | Zpos _ => Z.shiftl (Zpos mx) (ex - ey - E)
                | Z0 => Zpos mx
                | Zneg _ => 0
                end = Zpos mx * 2 ^ (ex - ey - E)).
  { destruct (ex - ey - E) eqn:Hd;
      [rewrite Z.pow_0_r; lia | rewrite Z.shiftl_mul_pow2 by lia; reflexivity | lia]. }
  rewrite Hm'.
  set (s := ex - ey - E) in *.
  destruct (Z.div_eucl (Zpos mx * 2 ^ s) (Zpos my)) as [q r] eqn:Hq.
  assert (Hqd : q = Zpos mx * 2 ^ s / Zpos my) by (unfold Z.div; rewrite Hq; reflexivity).
  exists q, E, (new_location (Zpos my) r). split; [reflexivity |].
  assert (Hps : 0 < 2 ^ s) by (apply Z.pow_pos_nonneg; lia).
  split; [rewrite Hqd; apply Z.div_pos; lia |]. split; [reflexivity |].
  assert (Hd1 : 1 <= d1) by (pose proof (Zdigits2_ge (Zpos mx) 0); simpl in *; lia).
  assert (Hd2 : 1 <= d2) by (pose proof (Zdigits2_ge (Zpos my) 0); simpl in *; lia).
  assert (Hx : Zpos mx < 2 ^ d1) by (apply Zdigits2_lt; lia).
  assert (Hy : 2 ^ (d2 - 1) <= Zpos my) by (apply Zdigits2_ge_pow; lia).
  assert (Hmx : Zpos mx * 2 ^ s < 2 ^ (d1 + s)) by (rewrite Z.pow_add_r by lia; nia).
  destruct (Z_le_gt_dec 0 (d1 + s - d2 + 1)) as [HK | HK].
  - assert (Hq2 : q < 2 ^ (d1 + s - d2 + 1)).
    { rewrite Hqd. apply Z.div_lt_upper_bound; [lia |].
      eapply Z.lt_le_trans; [exact Hmx |].
      replace (d1 + s) with ((d2 - 1) + (d1 + s - d2 + 1)) at 1 by lia.
      rewrite Z.pow_add_r by lia.
      apply Z.mul_le_mono_nonneg_r; [apply Z.pow_nonneg; lia | exact Hy]. }
    assert (Zdigits2 q <= d1 + s - d2 + 1)
      by (apply Zdigits2_le; [rewrite Hqd; apply Z.div_pos; lia | lia | exact Hq2]).
    unfold s in *. lia.
  - assert (Hq0 : q = 0).
    { rewrite Hqd. apply Z.div_small. split; [lia |].
      eapply Z.lt_le_trans; [exact Hmx |]. eapply Z.le_trans; [| exact Hy].
      apply Z.pow_le_mono_r; lia. }
    rewrite Hq0. simpl. lia.
Qed.

(** Round half to even to an integer, against the exact quotient. *)
Lemma div_half_even_close : forall a b, 0 < b ->
  2 * Z.abs (a - b * div_half_even a b) <= b.
Proof.
  intros a b Hb. unfold div_half_even.
  pose proof (Z.div_mod a b ltac:(lia)) as Ha.
  pose proof (Z.mod_pos_bound a b Hb) as Hr.
  set (q := a / b) in *. set (r := a mod b) in *.
  destruct (Z.compare_spec (2 * r) b) as [Heq | Hlt | Hgt].
  - destruct (Z.even q); nia.
  - nia.
  - nia.
Qed.

Lemma div_half_even_nonneg : forall a b, 0 <= a -> 0 < b -> 0 <= div_half_even a b.
Proof.
  intros a b Ha Hb. unfold div_half_even.
  assert (0 <= a / b) by (apply Z.div_pos; lia).
  destruct (Z.compare (2 * (a mod b)) b); [destruct (Z.even (a / b)) |..]; lia.
Qed.

Lemma div_half_even_double : forall a b, 0 < b ->
  Z.abs (div_half_even a b - 2 * div_half_even a (2 * b)) <= 1.
Proof.
  intros a b Hb.
  pose proof (div_half_even_close a b Hb) as H1.
  pose proof (div_half_even_close a (2 * b) ltac:(lia)) as H2.
  set (k := div_half_even a b) in *. set (k' := div_half_even a (2 * b)) in *.
  assert (Habs : b * Z.abs (k - 2 * k') < 2 * b).
  { rewrite <- (Z.abs_eq b) at 1 by lia. rewrite <- Z.abs_mul. 
    replace (b * (k - 2 * k')) with ((a - 2 * b * k') - (a - b * k)) by ring.
    pose proof (Z.abs_triangle (a - 2 * b * k') (- (a - b * k))) as T.
    rewrite Z.abs_opp in T. replace (a - 2 * b * k' + - (a - b * k)) with (a - 2 * b * k' - (a - b * k)) in T by ring.
    set (X := a - 2 * b * k') in *. set (Y := a - b * k) in *. lia. }
  assert (Z.abs (k - 2 * k') < 2) by (apply (Z.mul_lt_mono_pos_l b); lia).
  lia.
Qed.

(** [round(x, 6)] of a positive double and of its double. *)
Lemma round_float_shift : forall m e, e + 1 <= emax - prec ->
  exists k k2,
    round_float (S754_finite false m e) 6 = dec_to_float false k 6 /\
    round_float (fshift1 (S754_finite false m e)) 6 = dec_to_float false k2 6 /\
    Z.abs (k2 - 2 * k) <= 1.
Proof.
  intros m e He. unfold fshift1. apply Z.leb_le in He. rewrite He.
  unfold round_float.
  eexists; eexists; split; [reflexivity |]. split; [reflexivity |].
  set (a := Zpos m * 10 ^ Z.of_nat 6).
  assert (Ha : 0 <= a) by (unfold a; lia).
  destruct (Z.leb_spec 0 e) as [H0 | H0]; destruct (Z.leb_spec 0 (e + 1)) as [H1 | H1]; try lia.
  - rewrite Z.pow_add_r by lia. replace (2 ^ 1) with 2 by reflexivity.
    replace (Zpos m * (2 ^ e * 2) * 10 ^ Z.of_nat 6 - 2 * (Zpos m * 2 ^ e * 10 ^ Z.of_nat 6)) with 0 by ring.
    simpl. lia.
  - assert (e = -1) by lia. subst e. simpl (2 ^ (- -1)). simpl (2 ^ (-1 + 1)).
    fold a. pose proof (div_half_even_close a 2 ltac:(lia)) as Hc.
    replace (Zpos m * 1 * 10 ^ Z.of_nat 6) with a by (unfold a; ring).
    change (Z.pow_pos 2 1) with 2. lia.
  - fold a.
    replace (2 ^ (- e)) with (2 * 2 ^ (- (e + 1))).
    2:{ replace (- e) with (Z.succ (- (e + 1))) by lia. rewrite Z.pow_succ_r by lia. reflexivity. }
    apply div_half_even_double. apply Z.pow_pos_nonneg; lia.
Qed.


Lemma fmul_finite : forall sx mx ex sy my ey,
  fmul (S754_finite sx mx ex) (S754_finite sy my ey) =
  binary_round_aux prec emax (xorb sx sy) (Zpos (mx * my)) (ex + ey) loc_Exact.
Proof. reflexivity. Qed.

(** Signs. *)
Lemma bra_sign : forall s m e l, 0 <= m -> has_sign s (binary_round_aux prec emax s m e l).
Proof.
  intros s m e l Hm.
  destruct (bra_spec s m e l Hm) as [-> | [p [e'' [-> _]]]]; [reflexivity |].
  destruct (e'' <=? emax - prec); reflexivity.
Qed.

Lemma fdiv_sign : forall s x my ey, has_sign s x ->
  has_sign s (fdiv x (S754_finite false my ey)).
Proof.
  intros s [sx | sx | | sx mx ex] my ey H; simpl in H; try contradiction; subst sx.
  - simpl. apply xorb_false_r.
  - simpl. apply xorb_false_r.
  - destruct (fdiv_spec s mx ex false my ey) as [q [e' [l [-> [Hq _]]]]].
    rewrite xorb_false_r. apply bra_sign. exact Hq.
Qed.

Lemma fmul_sign : forall s mp ep y, has_sign s y ->
  has_sign s (fmul (S754_finite false mp ep) y).
Proof.
  intros s mp ep [sy | sy | | sy my ey] H; simpl in H; try contradiction; subst sy.
  - reflexivity.
  - reflexivity.
  - rewrite fmul_finite. apply bra_sign. lia.
Qed.

Lemma round_float_sign : forall s x n, has_sign s x -> has_sign s (round_float x n).
Proof.
  intros s [sx | sx | | sx mx ex] n H; simpl in H; try contradiction; subst sx;
    try exact eq_refl.
  unfold round_float, dec_to_float.
  match goal with |- has_sign _ (match ?k with _ => _ end) => set (K := k) end.
  assert (HK : 0 <= K).
  { unfold K. destruct (Z.leb_spec 0 ex).
    - apply Z.mul_nonneg_nonneg; [apply Z.mul_nonneg_nonneg; [lia | apply Z.pow_nonneg; lia] | apply Z.pow_nonneg; lia].
    - apply div_half_even_nonneg; [apply Z.mul_nonneg_nonneg; [lia | apply Z.pow_nonneg; lia] | apply Z.pow_pos_nonneg; lia]. }
  destruct K as [| p | p]; [reflexivity | | lia].
  apply fdiv_sign. reflexivity.
Qed.

(** Doubling the minutes, through [price * minutes] and [round(_, 6)]. *)
Lemma scale_core : forall mp ep, Zpos mp < 2 ^ 53 -> -100 <= ep <= -50 ->
  forall x,
    (x = S754_zero false \/
     exists mx ex, x = S754_finite false mx ex /\ Zpos mx < 2 ^ 53 /\
                   -900 <= Zdigits2 (Zpos mx) + ex /\ ex <= 970) ->
  exists k k2,
    round_float (fmul (S754_finite false mp ep)
                      (fdiv x (S754_finite false 8444249301319680 (-47)))) 6 = dec_to_float false k 6 /\
    round_float (fmul (S754_finite false mp ep)
                      (fdiv (fshift1 x) (S754_finite false 8444249301319680 (-47)))) 6 = dec_to_float false k2 6 /\
    Z.abs (k2 - 2 * k) <= 1.
Proof.
  intros mp ep Hmp Hep x [-> | [mx [ex [-> [Hmx Hex]]]]].
  { exists 0, 0. split; [reflexivity |]. split; [reflexivity |]. simpl. lia. }
  assert (HD60 : Zdigits2 (Zpos 8444249301319680) = 53) by reflexivity.
  assert (HDx1 : 1 <= Zdigits2 (Zpos mx)) by (pose proof (Zdigits2_ge (Zpos mx) 0); simpl in *; lia).
  assert (HDx2 : Zdigits2 (Zpos mx) <= 53) by (apply Zdigits2_le; lia).
  unfold fshift1.
  replace (ex + 1 <=? emax - prec) with true by (symmetry; apply Z.leb_le; unfold emax, prec; lia).
  rewrite fdiv_shift by (rewrite ?HD60; lia).
  destruct (fdiv_spec false mx ex false 8444249301319680 (-47)) as [q [e' [l [Hy [Hq [He' Hdq]]]]]].
  rewrite HD60 in He', Hdq.
  rewrite Hy. simpl xorb.
  destruct (bra_spec false q e' l Hq) as [Hz | [my [ey [Hb [Hmy [Hle1 [Hlo Hhi]]]]]]].
  { rewrite Hz. exists 0, 0. split; [reflexivity |]. split; [reflexivity |]. simpl. lia. }
  assert (HDq : 0 <= Zdigits2 q) by apply Zdigits2_nonneg.
  assert (Hey : ey <= 966) by lia.
  rewrite Hb. replace (ey <=? emax - prec) with true by (symmetry; apply Z.leb_le; unfold emax, prec; lia).
  unfold fshift1.
  replace (ey + 1 <=? emax - prec) with true by (symmetry; apply Z.leb_le; unfold emax, prec; lia).
  rewrite fmul_shift by lia.
  rewrite fmul_finite. simpl xorb.
  assert (HDm : Zdigits2 (Zpos (mp * my)) <= 106).
  { apply Zdigits2_le; [lia | lia |]. rewrite Pos2Z.inj_mul.
    change (2 ^ 106) with (2 ^ 53 * 2 ^ 53). apply Z.mul_lt_mono_nonneg; lia. }
  destruct (bra_spec false (Zpos (mp * my)) (ep + ey) loc_Exact ltac:(lia))
    as [Hz | [mX [eX [HX [_ [_ [_ HXhi]]]]]]].
  { rewrite Hz. exists 0, 0. split; [reflexivity |]. split; [reflexivity |]. simpl. lia. }
  rewrite HX. replace (eX <=? emax - prec) with true by (symmetry; apply Z.leb_le; unfold emax, prec; lia).
  apply round_float_shift. unfold emax, prec. lia.
Qed.

Lemma div_half_even_small : forall a b, 0 <= a -> 2 * a < b -> div_half_even a b = 0.
Proof.
  intros a b Ha Hab. unfold div_half_even.
  rewrite Z.div_small, Z.mod_small by lia.
  replace (Z.compare (2 * a) b) with Lt by (symmetry; apply Z.compare_lt_iff; lia).
  reflexivity.
Qed.

(** [round(x, 6)] of a positive double below [2^-800] is [0.0]. *)
Lemma round_float_tiny : forall m e, Zpos m < 2 ^ 53 -> e <= -800 ->
  round_float (S754_finite false m e) 6 = S754_zero false.
Proof.
  intros m e Hm He. unfold round_float.
  replace (0 <=? e) with false by (symmetry; apply Z.leb_gt; lia).
  rewrite div_half_even_small; [reflexivity | lia |].
  assert (H74 : 2 ^ 74 <= 2 ^ (- e)) by (apply Z.pow_le_mono_r; lia).
  change (10 ^ Z.of_nat 6) with 1000000.
  assert (H53 : 2 ^ 53 = 9007199254740992) by reflexivity.
  assert (H74' : 2 ^ 74 = 18889465931478580854784) by reflexivity.
  lia.
Qed.

(** Below [2^-800], [round(price * (x / 60.0), 6)] is [0.0]. *)
Lemma scale_tiny : forall mp ep, Zpos mp < 2 ^ 53 -> -100 <= ep <= 0 ->
  forall x,
    (x = S754_zero false \/
     exists mx ex, x = S754_finite false mx ex /\ Zpos mx < 2 ^ 53 /\ Zdigits2 (Zpos mx) + ex <= -800) ->
    round_float (fmul (S754_finite false mp ep)
                      (fdiv x (S754_finite false 8444249301319680 (-47)))) 6 = S754_zero false.
Proof.
  intros mp ep Hmp Hep x [-> | [mx [ex [-> [Hmx Hex]]]]]; [reflexivity |].
  assert (HD60 : Zdigits2 (Zpos 8444249301319680) = 53) by reflexivity.
  assert (HDx1 : 1 <= Zdigits2 (Zpos mx)) by (pose proof (Zdigits2_ge (Zpos mx) 0); simpl in *; lia).
  destruct (fdiv_spec false mx ex false 8444249301319680 (-47)) as [q [e' [l [Hy [Hq [He' Hdq]]]]]].
  rewrite HD60 in He', Hdq.
  rewrite Hy. simpl xorb.
  destruct (bra_spec false q e' l Hq) as [Hz | [my [ey [Hb [Hmy [Hle1 [Hlo Hhi]]]]]]].
  { rewrite Hz. reflexivity. }
  assert (HDq : 0 <= Zdigits2 q) by apply Zdigits2_nonneg.
  assert (Hey : ey <= -857) by lia.
  rewrite Hb. replace (ey <=? emax - prec) with true by (symmetry; apply Z.leb_le; unfold emax, prec; lia).
  rewrite fmul_finite. simpl xorb.
  assert (HDm : Zdigits2 (Zpos (mp * my)) <= 106).
  { apply Zdigits2_le; [lia | lia |]. rewrite Pos2Z.inj_mul.
    change (2 ^ 106) with (2 ^ 53 * 2 ^ 53). apply Z.mul_lt_mono_nonneg; lia. }
  destruct (bra_spec false (Zpos (mp * my)) (ep + ey) loc_Exact ltac:(lia))
    as [Hz | [mX [eX [HX [HmX [_ [_ HXhi]]]]]]].
  { rewrite Hz. reflexivity. }
  rewrite HX. replace (eX <=? emax - prec) with true by (symmetry; apply Z.leb_le; unfold emax, prec; lia).
  apply round_float_tiny; lia.
Qed.

(** [2.0 * x] for a positive double below [2^-900] stays below [2^-800]. *)
Lemma fmul_two_tiny : forall m e, Zpos m < 2 ^ 53 -> Zdigits2 (Zpos m) + e < -900 ->
  fmul (S754_finite false (2 ^ 52) (-51)) (S754_finite false m e) = S754_zero false \/
  exists p e'', fmul (S754_finite false (2 ^ 52) (-51)) (S754_finite false m e) = S754_finite false p e'' /\
    Zpos p < 2 ^ 53 /\ Zdigits2 (Zpos p) + e'' <= -800.
Proof.
  intros m e Hm He. rewrite fmul_finite. simpl xorb.
  assert (HDx1 : 1 <= Zdigits2 (Zpos m)) by (pose proof (Zdigits2_ge (Zpos m) 0); simpl in *; lia).
  assert (HD : Zdigits2 (Zpos (2 ^ 52 * m)) = Zdigits2 (Zpos m) + 52).
  { rewrite Pos2Z.inj_mul, Pos2Z.inj_pow, Z.mul_comm. apply Zdigits2_mul_pow2; lia. }
  destruct (bra_spec false (Zpos (2 ^ 52 * m)) (-51 + e) loc_Exact ltac:(lia))
    as [Hz | [p [e'' [HX [Hp [_ [_ Hhi]]]]]]]; [left; exact Hz | right].
  rewrite HX. replace (e'' <=? emax - prec) with true by (symmetry; apply Z.leb_le; unfold emax, prec; lia).
  exists p, e''. split; [reflexivity |]. split; [exact Hp |].
  assert (Zdigits2 (Zpos p) <= 53) by (apply Zdigits2_le; lia). lia.
Qed.

End FloatFacts.

Module CostFacts.
Import FloatFacts.

Lemma lit_60 : lit 600 1 = S754_finite false 8444249301319680 (-47).
Proof. vm_compute. reflexivity. Qed.

Lemma lit_livekit : lit 10 3 = S754_finite false 5764607523034235 (-59).
Proof. vm_compute. reflexivity. Qed.

Lemma lit_stt : lit 59 4 = S754_finite false 6802236877180397 (-60).
Proof. vm_compute. reflexivity. Qed.

Lemma lit_tts : lit 27 3 = S754_finite false 7782220156096217 (-58).
Proof. vm_compute. reflexivity. Qed.

Lemma int_to_float_two : int_to_float 2 = Ok (S754_finite false (2 ^ 52) (-51)).
Proof. vm_compute. reflexivity. Qed.

Lemma py_truediv_float : forall a b v, py_truediv a b = Ok v -> exists f, v = VFloat f.
Proof.
  intros a b v H. unfold py_truediv in H.
  destruct (to_num a) as [x |]; simpl in H; [| discriminate].
  destruct (to_num b) as [y |]; simpl in H; [| discriminate].
  destruct x as [i | fx], y as [j | fy].
  - destruct (j =? 0); [discriminate |].
    match type of H with
    | (match ?q with _ => _ end) = _ => destruct q
    end; inversion H; eauto.
  - destruct (num_to_float (NInt i)); simpl in H; [| discriminate].
    destruct (is_zero fy); inversion H; eauto.
  - simpl in H. destruct (int_to_float j); simpl in H; [| discriminate].
    destruct (is_zero a0); inversion H; eauto.
  - simpl in H. destruct (is_zero fy); inversion H; eauto.
Qed.

(** [calculate_call_cost] once the minutes [d / 60.0] are known. *)
Lemma calculate_call_cost_minutes : forall d y,
  py_truediv d (VFloat (lit 600 1)) = Ok (VFloat y) ->
  exists c, Cost.calculate_call_cost d = Ok c /\
    Cost.cost_livekit c = VFloat (round_float (fmul (lit 10 3) y) 6) /\
    Cost.cost_stt c = VFloat (round_float (fmul (lit 59 4) y) 6) /\
    Cost.cost_tts c = VFloat (round_float (fmul (lit 27 3) y) 6) /\
    Cost.cost_llm c = VFloat (lit 276 5) /\
    (exists f, Cost.total_cost_usd c = VFloat f) /\
    (exists f, Cost.total_cost_inr c = VFloat f).
Proof.
  intros d y Hy. eexists. split.
  - unfold Cost.calculate_call_cost, Cost.calculate_call_cost_with. rewrite Hy.
    cbn -[fmul fadd fdiv round_float lit]. reflexivity.
  - cbn [Cost.cost_livekit Cost.cost_stt Cost.cost_tts Cost.cost_llm
         Cost.total_cost_usd Cost.total_cost_inr].
    split; [reflexivity |]. split; [reflexivity |]. split; [reflexivity |].
    split; [vm_compute; reflexivity |].
    split; eexists; reflexivity.
Qed.

Lemma calculate_call_cost_ok_minutes : forall d c,
  Cost.calculate_call_cost d = Ok c ->
  exists y, py_truediv d (VFloat (lit 600 1)) = Ok (VFloat y).
Proof.
  intros d c H. unfold Cost.calculate_call_cost, Cost.calculate_call_cost_with in H.
  destruct (py_truediv d (VFloat (lit 600 1))) as [v |] eqn:Hv; [| discriminate].
  destruct (py_truediv_float _ _ _ Hv) as [f ->]. eauto.
Qed.

(** [float(n)] for [n > 0] when [float(2 * n)] does not overflow. *)
Lemma int_to_float_shift : forall p x2, int_to_float (Zpos (xO p)) = Ok x2 ->
  exists x, int_to_float (Zpos p) = Ok x /\ x2 = fshift1 x /\
    (x = S754_zero false \/
     exists mx ex, x = S754_finite false mx ex /\ Zpos mx < 2 ^ 53 /\
                   -900 <= Zdigits2 (Zpos mx) + ex /\ ex <= 970).
Proof.
  intros p x2 H. unfold int_to_float in *.
  rewrite binary_normalize_double in H.
  change (binary_normalize prec emax (Zpos p) 0 false) with (binary_round prec emax false p 0) in *.
  destruct (binary_round_spec false p 0) as [mz [ez [Hr [Hez1 [Hez2 Hdz]]]]].
  rewrite Hr in *.
  assert (HD1 : 1 <= Zpos (digits2_pos p)) by lia.
  destruct (bra_spec false (Zpos mz) ez loc_Exact ltac:(lia)) as [Hz | [mx [ex [Hb [Hmx [Hlo [_ Hhi]]]]]]].
  - rewrite Hz in *. simpl in H. inversion H; subst x2.
    exists (S754_zero false). split; [reflexivity |]. split; [reflexivity |]. left; reflexivity.
  - rewrite Hb in *. destruct (ex <=? emax - prec) eqn:E1; [| discriminate].
    unfold fshift1 in H. destruct (ex + 1 <=? emax - prec) eqn:E2; [| discriminate].
    inversion H; subst x2.
    exists (S754_finite false mx ex). split; [reflexivity |].
    split; [unfold fshift1; rewrite E2; reflexivity |].
    right. exists mx, ex. split; [reflexivity |]. split; [exact Hmx |].
    apply Z.leb_le in E2. unfold emax, prec in E2.
    assert (1 <= Zdigits2 (Zpos mx)) by (pose proof (Zdigits2_ge (Zpos mx) 0); simpl in *; lia).
    lia.
Qed.

(** [float(n)] for [-2^63 <= n < 0]: no overflow, and negative. *)
Lemma int_to_float_neg : forall p, Zpos p <= 2 ^ 63 ->
  exists x, int_to_float (Zneg p) = Ok x /\ has_sign true x.
Proof.
  intros p Hp. unfold int_to_float.
  change (binary_normalize prec emax (Zneg p) 0 false) with (binary_round prec emax true p 0).
  destruct (binary_round_spec true p 0) as [mz [ez [Hr [Hez1 [Hez2 Hdz]]]]].
  rewrite Hr.
  assert (HD : Zpos (digits2_pos p) <= 64).
  { change (Zpos (digits2_pos p)) with (Zdigits2 (Zpos p)). apply Zdigits2_le; lia. }
  destruct (bra_spec true (Zpos mz) ez loc_Exact ltac:(lia)) as [-> | [mx [ex [-> [Hmx [Hlo [_ Hhi]]]]]]].
  - eexists. split; reflexivity.
  - replace (ex <=? emax - prec) with true by (symmetry; apply Z.leb_le; unfold emax, prec; lia).
    eexists. split; reflexivity.
Qed.

Lemma py_mul_two_float : forall f,
  py_mul (VInt 2) (VFloat f) = Ok (VFloat (fmul (S754_finite false (2 ^ 52) (-51)) f)).
Proof. intros f. reflexivity. Qed.

(** The minutes of [d] and of [2 * d]: [d / 60.0] is [x / 60.0] and
    [2 * d / 60.0] is [x2 / 60.0], where [x] and [x2] are both [-0.0], or
    [x2] is [x] with the exponent raised by one, or both are below
    [2^-800]. *)
Lemma minutes_double : forall d d2,
  nonneg_duration d -> py_mul (VInt 2) d = Ok d2 -> as_finite_double d2 ->
  exists x x2,
    py_truediv d (VFloat (lit 600 1)) = Ok (VFloat (fdiv x (lit 600 1))) /\
    py_truediv d2 (VFloat (lit 600 1)) = Ok (VFloat (fdiv x2 (lit 600 1))) /\
    ((x = S754_zero true /\ x2 = S754_zero true) \/
     (x2 = fshift1 x /\
      (x = S754_zero false \/
       exists mx ex, x = S754_finite false mx ex /\ Zpos mx < 2 ^ 53 /\
                     -900 <= Zdigits2 (Zpos mx) + ex /\ ex <= 970)) \/
     ((x = S754_zero false \/
       exists mx ex, x = S754_finite false mx ex /\ Zpos mx < 2 ^ 53 /\ Zdigits2 (Zpos mx) + ex <= -800) /\
      (x2 = S754_zero false \/
       exists mx ex, x2 = S754_finite false mx ex /\ Zpos mx < 2 ^ 53 /\ Zdigits2 (Zpos mx) + ex <= -800))).
Proof.
  intros d d2 Hr Hm Hf.
  assert (Hnz : is_zero (lit 600 1) = false) by (rewrite lit_60; reflexivity).
  assert (Hint : forall z x, int_to_float z = Ok x ->
            py_truediv (VInt z) (VFloat (lit 600 1)) = Ok (VFloat (fdiv x (lit 600 1)))).
  { intros z x Hz. unfold py_truediv; cbn -[fdiv int_to_float lit]. rewrite Hz.
    cbn -[fdiv int_to_float lit]. rewrite Hnz. reflexivity. }
  assert (Hflt : forall g,
            py_truediv (VFloat g) (VFloat (lit 600 1)) = Ok (VFloat (fdiv g (lit 600 1)))).
  { intros g. unfold py_truediv; cbn -[fdiv lit]. rewrite Hnz. reflexivity. }
  destruct d as [| b | z | f | str |]; simpl in Hr; try contradiction.
  - (* a bool: [0] or [1] *)
    simpl in Hm. inversion Hm; subst d2. clear Hm.
    destruct b.
    + exists (S754_finite false (2 ^ 52) (-52)), (S754_finite false (2 ^ 52) (-51)).
      split; [vm_compute; reflexivity |]. split; [vm_compute; reflexivity |].
      right; left. split; [reflexivity |]. right.
      exists (2 ^ 52)%positive, (-52). split; [reflexivity |]. split; [reflexivity |].
      split; vm_compute; congruence.
    + exists (S754_zero false), (S754_zero false).
      split; [vm_compute; reflexivity |]. split; [vm_compute; reflexivity |].
      right; left. split; [reflexivity | left; reflexivity].
  - (* an int *)
    simpl in Hm. inversion Hm; subst d2. clear Hm.
    destruct z as [| p | p]; [| | lia].
    + exists (S754_zero false), (S754_zero false).
      split; [apply Hint; reflexivity |]. split; [apply Hint; reflexivity |].
      right; left. split; [reflexivity | left; reflexivity].
    + unfold as_finite_double in Hf. cbn [to_num num_to_float] in Hf.
      change (2 * Zpos p) with (Zpos (xO p)) in Hf |- *.
      destruct (int_to_float (Zpos (xO p))) as [x2 |] eqn:H2; [| contradiction].
      destruct (int_to_float_shift p x2 H2) as [x [H1 [Hx2 Hx]]].
      exists x, x2. split; [apply Hint; exact H1 |]. split; [apply Hint; exact H2 |].
      right; left. auto.
  - (* a float *)
    rewrite py_mul_two_float in Hm.
    assert (Hd2 : d2 = VFloat (fmul (S754_finite false (2 ^ 52) (-51)) f)) by congruence.
    subst d2. clear Hm. unfold as_finite_double in Hf. cbn [to_num num_to_float] in Hf.
    exists f, (fmul (S754_finite false (2 ^ 52) (-51)) f).
    split; [apply Hflt |]. split; [apply Hflt |].
    destruct f as [[|] | [|] | | [|] m e]; try contradiction.
    + left. split; reflexivity.
    + right; left. split; [reflexivity | left; reflexivity].
    + discriminate Hf.
    + assert (Hm : Zpos m < 2 ^ 53).
      { unfold valid_binary, bounded, canonical_mantissa in Hr.
        apply andb_prop in Hr. destruct Hr as [Hc _]. apply Z.eqb_eq in Hc.
        rewrite fexp_eq in Hc.
        assert (Zdigits2 (Zpos m) <= 53) by (change (Zdigits2 (Zpos m)) with (Zpos (digits2_pos m)); lia).
        pose proof (Zdigits2_lt (Zpos m) ltac:(lia)) as H0.
        eapply Z.lt_le_trans; [exact H0 |]. apply Z.pow_le_mono_r; lia. }
      destruct (Z_lt_le_dec (Zdigits2 (Zpos m) + e) (-900)) as [Hs | Hl].
      * right; right. split.
        -- right. exists m, e. split; [reflexivity |]. split; [exact Hm | lia].
        -- destruct (fmul_two_tiny m e Hm Hs) as [-> | [p [e'' [-> Hp]]]]; [left; reflexivity |].
           right. exists p, e''. split; [reflexivity | exact Hp].
      * assert (Hd : Zpos (digits2_pos m) = 53).
        { unfold valid_binary, bounded, canonical_mantissa in Hr.
          apply andb_prop in Hr. destruct Hr as [Hc _]. apply Z.eqb_eq in Hc.
          rewrite fexp_eq in Hc. change (Zdigits2 (Zpos m)) with (Zpos (digits2_pos m)) in Hl. lia. }
        change (Zdigits2 (Zpos m)) with (Zpos (digits2_pos m)) in Hl.
        rewrite fmul_two in Hf |- * by lia.
        right; left. split; [reflexivity |]. right.
        exists m, e. split; [reflexivity |]. split; [exact Hm |].
        unfold fshift1 in Hf. destruct (e + 1 <=? emax - prec) eqn:E; [| discriminate Hf].
        apply Z.leb_le in E. unfold emax, prec in E.
        change (Zdigits2 (Zpos m)) with (Zpos (digits2_pos m)). lia.
Qed.

End CostFacts.


Module SumFacts.
Import FloatFacts.












End SumFacts.

Module SumFacts2.
Import FloatFacts SumFacts.

Lemma bind_ok : forall {A B} (r : res A) (k : A -> res B) b,
  bind r k = Ok b -> exists a, r = Ok a /\ k a = Ok b.
Proof. intros A B [a | e] k b H; [eauto | discriminate]. Qed.




Lemma get_costs_windows : forall sa sd dn dnm t rep,
  Aggregate.get_costs sa sd dn dnm t = Ok rep ->
  Aggregate.window_query sa (Aggregate.in_today sd dn) t = Ok (Aggregate.today rep) /\
  Aggregate.window_query sa (Aggregate.in_last_days dnm 7) t = Ok (Aggregate.week rep) /\
  Aggregate.window_query sa (Aggregate.in_last_days dnm 30) t = Ok (Aggregate.month rep).
Proof.
  intros sa sd dn dnm t rep H. unfold Aggregate.get_costs in H.
  repeat (apply bind_ok in H; destruct H as [? [? H]]).
  injection H as <-. cbn [Aggregate.today Aggregate.week Aggregate.month].
  split; [| split]; assumption.
Qed.

Lemma window_query_none : forall sa keep t,
  filter keep t = [] ->
  Aggregate.window_query sa keep t = Ok (Aggregate.mk_window (VInt 0) (VInt 0) (VInt 0)).
Proof. intros sa keep t H. unfold Aggregate.window_query. cbv zeta. rewrite H. reflexivity. Qed.

Lemma per_minute_zero : forall usd m, zero_value m -> Aggregate.per_minute usd m = Ok (VInt 0).
Proof. intros usd m [-> | [s ->]]; [reflexivity | destruct s; reflexivity]. Qed.

End SumFacts2.

(** ** Claim C1 *)

(** C1: With the shipped price table and exchange rate, a 120 second
    call costs 0.02 (LiveKit), 0.0118 (STT), 0.054 (TTS), 0.00276 (LLM),
    0.0886 USD in total and 7.35 INR: [calculate_call_cost(120)] returns
    exactly the doubles of these decimal literals. *)
Theorem calculate_call_cost_120 :
  Cost.calculate_call_cost (VInt 120) =
  Ok (Cost.mk_costs (VFloat (lit 2 2)) (VFloat (lit 118 4)) (VFloat (lit 54 3))
                    (VFloat (lit 276 5)) (VFloat (lit 886 4)) (VFloat (lit 735 2))
                    (VFloat (lit 2 0))).
Proof. vm_compute. reflexivity. Qed.

(** ** Claim C2 *)

(** C2 fails: for duration 0 the total is rounded to 4 decimals, so
    [total_cost_usd] is 0.0028, not the estimator cost 0.00276 that
    [cost_llm] holds. *)
Lemma calculate_call_cost_zero_total_is_not_llm :
  exists c, Cost.calculate_call_cost (VInt 0) = Ok c /\
            Cost.total_cost_usd c <> Cost.cost_llm c /\
            Cost.total_cost_usd c <> VFloat (lit 276 5).
Proof.
  eexists. split; [vm_compute; reflexivity |].
  split; vm_compute; discriminate.
Qed.

(** C2: For a zero duration the three duration-proportional costs are
    zero (with the sign of the zero duration), [cost_llm] is the full
    estimator cost 2000 * (0.00000059 + 0.00000079) = 0.00276, and
    [total_cost_usd] is that estimator cost rounded to 4 decimals, 0.0028. *)
Theorem calculate_call_cost_zero_duration :
  forall d, zero_value d ->
  exists s c, Cost.calculate_call_cost d = Ok c /\
    Cost.cost_livekit c = VFloat (S754_zero s) /\
    Cost.cost_stt c = VFloat (S754_zero s) /\
    Cost.cost_tts c = VFloat (S754_zero s) /\
    Cost.cost_llm c = VFloat (lit 276 5) /\
    Cost.total_cost_usd c = VFloat (round_float (lit 276 5) 4) /\
    Cost.total_cost_usd c = VFloat (lit 28 4).
Proof.
  intros d [-> | [s ->]].
  - exists false. eexists. split; [vm_compute; reflexivity |].
    vm_compute. repeat split.
  - destruct s; [exists true | exists false]; eexists;
      (split; [vm_compute; reflexivity |]); vm_compute; repeat split.
Qed.

Lemma calculate_call_cost_zero_duration_witness :
  zero_value (VInt 0) /\
  exists s c, Cost.calculate_call_cost (VInt 0) = Ok c /\
    Cost.cost_livekit c = VFloat (S754_zero s) /\
    Cost.cost_stt c = VFloat (S754_zero s) /\
    Cost.cost_tts c = VFloat (S754_zero s) /\
    Cost.cost_llm c = VFloat (lit 276 5) /\
    Cost.total_cost_usd c = VFloat (round_float (lit 276 5) 4) /\
    Cost.total_cost_usd c = VFloat (lit 28 4).
Proof.
  split; [left; reflexivity |].
  apply calculate_call_cost_zero_duration. left. reflexivity.
Defined.

(** ** Claim C5 *)

(** C5: Empty sets of calls raise nothing and sum to 0. On an empty
    [calls] table [get_costs] returns 0 for every category sum, the USD and
    INR totals, the minutes, the cost per minute and the sums and counts of
    the today / week / month windows. On any table, a window query over
    rows of which none is in the window answers sums and count 0, and so
    does that window of a successful [get_costs]. The cost per minute is
    the int 0, without a division, whenever the total minutes are a zero;
    [get_costs] then reports 0 USD and 0.0 INR per minute. This holds for
    any SQLite summation, clock and date functions. *)
Theorem get_costs_empty :
  (forall sum_approx sql_date date_now date_now_minus_days,
   Aggregate.get_costs sum_approx sql_date date_now date_now_minus_days [] =
   Ok (Aggregate.mk_report (VInt 0) (VInt 0) (VInt 0) (VInt 0)
         (VInt 0) (VInt 0) (VInt 0) (VInt 0) (VFloat (S754_zero false))
         (Aggregate.mk_window (VInt 0) (VInt 0) (VInt 0))
         (Aggregate.mk_window (VInt 0) (VInt 0) (VInt 0))
         (Aggregate.mk_window (VInt 0) (VInt 0) (VInt 0)))) /\
  (forall sa keep t, filter keep t = [] ->
   Aggregate.window_query sa keep t = Ok (Aggregate.mk_window (VInt 0) (VInt 0) (VInt 0))) /\
  (forall sa sd dn dnm t rep,
   Aggregate.get_costs sa sd dn dnm t = Ok rep ->
   (filter (Aggregate.in_today sd dn) t = [] ->
    Aggregate.today rep = Aggregate.mk_window (VInt 0) (VInt 0) (VInt 0)) /\
   (filter (Aggregate.in_last_days dnm 7) t = [] ->
    Aggregate.week rep = Aggregate.mk_window (VInt 0) (VInt 0) (VInt 0)) /\
   (filter (Aggregate.in_last_days dnm 30) t = [] ->
    Aggregate.month rep = Aggregate.mk_window (VInt 0) (VInt 0) (VInt 0))) /\
  (forall total_usd total_minutes, zero_value total_minutes ->
   Aggregate.per_minute total_usd total_minutes = Ok (VInt 0)) /\
  (forall sa sd dn dnm t rep d m,
   Aggregate.get_costs sa sd dn dnm t = Ok rep ->
   Aggregate.coalesce_sum sa duration t = Ok d ->
   Aggregate.minutes_of (Aggregate.to_py d) = Ok m -> zero_value m ->
   Aggregate.totals_cost_per_minute_usd rep = VInt 0 /\
   Aggregate.totals_cost_per_minute_inr rep = VFloat (S754_zero false)).
Proof.
  split; [intros; vm_compute; reflexivity|].
  split; [exact SumFacts2.window_query_none|].
  split.
  { intros sa sd dn dnm t rep H.
    destruct (SumFacts2.get_costs_windows _ _ _ _ _ _ H) as [Ht [Hw Hm]].
    split; [| split]; intros Hf; rewrite SumFacts2.window_query_none in * by exact Hf; congruence. }
  split; [exact SumFacts2.per_minute_zero|].
  intros sa sd dn dnm t rep d m H Hd Hm Hz. unfold Aggregate.get_costs in H.
  repeat (apply SumFacts2.bind_ok in H; destruct H as [? [? H]]).
  injection H as <-. cbn [Aggregate.totals_cost_per_minute_usd Aggregate.totals_cost_per_minute_inr].
  match goal with Hx : Aggregate.coalesce_sum _ duration _ = Ok _ |- _ =>
    rewrite Hd in Hx; injection Hx as <- end.
  match goal with Hx : Aggregate.minutes_of _ = Ok _ |- _ =>
    rewrite Hm in Hx; injection Hx as <- end.
  match goal with Hx : Aggregate.per_minute _ _ = Ok _ |- _ =>
    rewrite (SumFacts2.per_minute_zero _ _ Hz) in Hx; injection Hx as <- end.
  match goal with Hx : py_round (VInt 0) 4 = Ok _ |- _ =>
    cbn in Hx; injection Hx as <- end.
  match goal with Hx : py_mul (VInt 0) _ = Ok _ |- _ =>
    vm_compute in Hx; injection Hx as <- end.
  match goal with Hx : py_round (VFloat _) 2 = Ok _ |- _ =>
    vm_compute in Hx; injection Hx as <- end.
  split; reflexivity.
Qed.

Lemma get_costs_empty_witness :
  exists rep,
    Aggregate.get_costs Samples.naive_sum Samples.date_of Samples.date_today Samples.days_before
      [Samples.old_call] = Ok rep /\
    filter (Aggregate.in_today Samples.date_of Samples.date_today) [Samples.old_call] = [] /\
    Aggregate.today rep = Aggregate.mk_window (VInt 0) (VInt 0) (VInt 0) /\
    Aggregate.coalesce_sum Samples.naive_sum duration [Samples.old_call] = Ok (SInt 0) /\
    Aggregate.minutes_of (Aggregate.to_py (SInt 0)) = Ok (VInt 0) /\ zero_value (VInt 0) /\
    Aggregate.totals_cost_per_minute_usd rep = VInt 0 /\
    Aggregate.totals_cost_per_minute_inr rep = VFloat (S754_zero false).
Proof.
  destruct (Aggregate.get_costs Samples.naive_sum Samples.date_of Samples.date_today Samples.days_before
              [Samples.old_call]) as [rep | e] eqn:E; [| vm_compute in E; discriminate].
  exists rep.
  assert (Hf : filter (Aggregate.in_today Samples.date_of Samples.date_today) [Samples.old_call] = [])
    by (vm_compute; reflexivity).
  assert (Hd : Aggregate.coalesce_sum Samples.naive_sum duration [Samples.old_call] = Ok (SInt 0))
    by (vm_compute; reflexivity).
  assert (Hm : Aggregate.minutes_of (Aggregate.to_py (SInt 0)) = Ok (VInt 0)) by reflexivity.
  assert (Hz : zero_value (VInt 0)) by (left; reflexivity).
  destruct get_costs_empty as [_ [_ [Hw [_ Hc]]]].
  destruct (Hc _ _ _ _ _ _ _ _ E Hd Hm Hz) as [Hu Hi].
  refine (conj eq_refl (conj Hf (conj (proj1 (Hw _ _ _ _ _ _ E) Hf) (conj Hd (conj Hm (conj Hz (conj Hu Hi))))))).
Defined.

(** ** Effect of one [UPDATE calls SET ... WHERE id = ?] *)
Module EffectFacts.
Import Effect.

Lemma column_eqb_eq : forall a b, column_eqb a b = true -> a = b.
Proof. intros [] []; simpl; congruence. Qed.

Lemma get_set_column : forall r c c' v,
  get_column (set_column r c v) c' = if column_eqb c c' then v else get_column r c'.
Proof. intros r c c' v; destruct c, c'; reflexivity. Qed.

Lemma id_set_column : forall r c v, id (set_column r c v) = id r.
Proof. intros r c v; destruct c; reflexivity. Qed.

Lemma apply_sets_cons : forall r c v vs,
  apply_sets r ((c, v) :: vs) = apply_sets (set_column r c v) vs.
Proof. reflexivity. Qed.

Lemma apply_sets_get : forall vs r c,
  get_column (apply_sets r vs) c =
  match assigned vs c with Some v => v | None => get_column r c end.
Proof.
  induction vs as [| [c' v] vs IH]; intros r c; [reflexivity |].
  rewrite apply_sets_cons, IH. simpl.
  destruct (assigned vs c); [reflexivity |].
  rewrite get_set_column. now destruct (column_eqb c' c).
Qed.

Lemma apply_sets_id : forall vs r, id (apply_sets r vs) = id r.
Proof.
  induction vs as [| [c v] vs IH]; intros r; [reflexivity |].
  rewrite apply_sets_cons, IH. apply id_set_column.
Qed.

(** The bound [SET] list gives each column the value of its last
    assignment. *)
Lemma bind_sets_assigned : forall tnow sets vs c,
  bind_sets tnow sets = Ok vs ->
  match assigned sets c with
  | Some e => exists x, eval_set tnow c e = Ok x /\ assigned vs c = Some x
  | None => assigned vs c = None
  end.
Proof.
  induction sets as [| [c' e] sets IH]; intros vs c Hb.
  - simpl in Hb. inversion Hb; subst. reflexivity.
  - simpl in Hb.
    destruct e as [v |].
    + destruct (bind_param v) as [sv |] eqn:Hv; simpl in Hb; [| discriminate].
      destruct (bind_sets tnow sets) as [vs' |] eqn:Hr; simpl in Hb; [| discriminate].
      inversion Hb; subst. specialize (IH vs' c eq_refl). simpl.
      destruct (assigned sets c) as [e |].
      * destruct IH as [x [Hx Ha]]. exists x. rewrite Ha. auto.
      * rewrite IH. destruct (column_eqb c' c) eqn:Hcc; [| reflexivity].
        apply column_eqb_eq in Hcc; subst.
        exists (apply_affinity (affinity_of c) sv). split; [| reflexivity].
        simpl. unfold stored. rewrite Hv. reflexivity.
    + destruct (bind_sets tnow sets) as [vs' |] eqn:Hr; simpl in Hb; [| discriminate].
      inversion Hb; subst. specialize (IH vs' c eq_refl). simpl.
      destruct (assigned sets c) as [e |].
      * destruct IH as [x [Hx Ha]]. exists x. rewrite Ha. auto.
      * rewrite IH. destruct (column_eqb c' c) eqn:Hcc; [| reflexivity].
        apply column_eqb_eq in Hcc; subst.
        exists (SText tnow). split; reflexivity.
Qed.

(** After a successful [UPDATE], every row with the target id carries the
    value of the last assignment of every assigned column, and no other row
    changed. *)
Lemma exec_update_rows : forall t tnow sets call_id t',
  exec_update t tnow sets call_id = Ok t' ->
  (forall r', In r' t' -> id r' = call_id ->
     exists r, In r t /\ id r = call_id /\
       forall col e, assigned sets col = Some e -> eval_set tnow col e = Ok (get_column r' col)) /\
  (forall r', In r' t' -> id r' <> call_id -> In r' t).
Proof.
  intros t tnow sets call_id t' He.
  unfold exec_update in He.
  destruct (bind_sets tnow sets) as [vs |] eqn:Hb; simpl in He; [| discriminate].
  unfold bind_param in He.
  destruct ((i64_min <=? call_id) && (call_id <=? i64_max)); simpl in He; [| discriminate].
  inversion He; subst t'. clear He.
  split.
  - intros r' Hin Hid. apply in_map_iff in Hin. destruct Hin as [r [Hr Hin]].
    destruct (call_id =? id r) eqn:Hz.
    + apply Z.eqb_eq in Hz. subst r'. exists r.
      split; [exact Hin |]. split; [symmetry; exact Hz |].
      intros col e Ha. rewrite apply_sets_get.
      pose proof (bind_sets_assigned tnow sets vs col Hb) as Hs. rewrite Ha in Hs.
      destruct Hs as [x [Hx Hvx]]. rewrite Hvx. exact Hx.
    + subst r'. apply Z.eqb_neq in Hz. congruence.
  - intros r' Hin Hid. apply in_map_iff in Hin. destruct Hin as [r [Hr Hin]].
    destruct (call_id =? id r) eqn:Hz.
    + apply Z.eqb_eq in Hz. subst r'. rewrite apply_sets_id in Hid. congruence.
    + subst r'. exact Hin.
Qed.

Lemma assigned_app : forall {A} (a b : list (column * A)) c,
  assigned (a ++ b) c = match assigned b c with Some x => Some x | None => assigned a c end.
Proof.
  intros A a b c. induction a as [| [c' v] a IH]; simpl.
  - now destruct (assigned b c).
  - rewrite IH. now destruct (assigned b c).
Qed.

End EffectFacts.

(** ** Claim C3 *)
Import Effect.

(** C3: When the request body of [update_call] has a [duration] [d], the
    handler calls [calculate_call_cost] exactly once, and the only table it
    makes visible to other connections (by its single commit, if any) holds,
    in the row of the call, [d] together with the six cost fields of
    [calculate_call_cost(d)]; other rows are unchanged. When nothing is
    committed the table stays as it was. No state with the new duration and
    stale costs is ever committed. *)
Theorem update_call_duration_costs_atomic :
  forall call_id data d w resp w',
    pending w = None ->
    dict_find data "duration" = Some d ->
    update_call call_id data w = (resp, w') ->
    exists new, trace w' = trace w ++ new /\
      calc_count new = 1%nat /\
      ((commits new = [] /\ committed w' = committed w) \/
       (exists c, Cost.calculate_call_cost d = Ok c /\
          resp = Success "Call updated" /\
          commits new = [committed w'] /\
          (forall r, In r (committed w') -> id r = call_id -> consistent d c r) /\
          (forall r, In r (committed w') -> id r <> call_id -> In r (committed w)))).
Proof.
  intros call_id data d w resp w' Hp Hd Hu.
  unfold update_call, update_call_body in Hu.
  rewrite Hd in Hu.
  remember (is_terminal (dict_find data "status")) as term eqn:Ht. clear Ht.
  unfold mbind at 1, calc in Hu.
  destruct (Cost.calculate_call_cost d) as [c | e] eqn:Hc.
  2:{ simpl in Hu. inversion Hu; subst. simpl. exists [ECalc d].
      split; [reflexivity |]. split; [reflexivity |]. left. split; reflexivity. }
  unfold mbind, ret in Hu.
  destruct (dict_find data "status") as [st |]; destruct (dict_find data "notes") as [nt |];
    destruct term; simpl in Hu;
    unfold execute in Hu; simpl in Hu; rewrite Hp in Hu; simpl in Hu;
    match type of Hu with
    | context [exec_update ?b ?n ?s ?i] => destruct (exec_update b n s i) as [t' | e] eqn:He
    end; simpl in Hu; inversion Hu; subst; clear Hu; simpl;
    first
      [ exists [ECalc d]; split; [reflexivity |]; split; [reflexivity |];
        left; split; reflexivity
      | eexists; split; [rewrite <- !app_assoc; reflexivity |];
        split; [reflexivity |]; right; exists c;
        split; [reflexivity |]; split; [reflexivity |]; split; [reflexivity |];
        destruct (EffectFacts.exec_update_rows _ _ _ _ _ He) as [Hrow Hother];
        split; [| exact Hother];
        intros r Hin Hid; destruct (Hrow r Hin Hid) as [r0 [_ [_ Hcol]]];
        repeat split;
        [ apply (Hcol Cduration (EParam d))
        | apply (Hcol Ccost_livekit (EParam (Cost.cost_livekit c)))
        | apply (Hcol Ccost_stt (EParam (Cost.cost_stt c)))
        | apply (Hcol Ccost_tts (EParam (Cost.cost_tts c)))
        | apply (Hcol Ccost_llm (EParam (Cost.cost_llm c)))
        | apply (Hcol Ctotal_cost_usd (EParam (Cost.total_cost_usd c)))
        | apply (Hcol Ctotal_cost_inr (EParam (Cost.total_cost_inr c))) ];
        reflexivity ].
Qed.

Lemma update_call_duration_costs_atomic_witness :
  pending Samples.world_after_end = None /\
  dict_find Samples.body_completed_120 "duration" = Some (VInt 120) /\
  exists new,
    trace (snd (update_call 1 Samples.body_completed_120 Samples.world_after_end)) =
      trace Samples.world_after_end ++ new /\
    calc_count new = 1%nat /\
    ((commits new = [] /\
      committed (snd (update_call 1 Samples.body_completed_120 Samples.world_after_end)) =
        committed Samples.world_after_end) \/
     (exists c, Cost.calculate_call_cost (VInt 120) = Ok c /\
        fst (update_call 1 Samples.body_completed_120 Samples.world_after_end) =
          Success "Call updated" /\
        commits new =
          [committed (snd (update_call 1 Samples.body_completed_120 Samples.world_after_end))] /\
        (forall r, In r (committed (snd (update_call 1 Samples.body_completed_120 Samples.world_after_end))) ->
           id r = 1 -> consistent (VInt 120) c r) /\
        (forall r, In r (committed (snd (update_call 1 Samples.body_completed_120 Samples.world_after_end))) ->
           id r <> 1 -> In r (committed Samples.world_after_end)))).
Proof.
  split; [reflexivity |]. split; [reflexivity |].
  apply (update_call_duration_costs_atomic 1 Samples.body_completed_120 (VInt 120)
           Samples.world_after_end
           (fst (update_call 1 Samples.body_completed_120 Samples.world_after_end))
           (snd (update_call 1 Samples.body_completed_120 Samples.world_after_end)));
    [reflexivity | reflexivity | apply surjective_pairing].
Defined.

(** ** Claim C4 *)

(** C4 fails: a second [completed] update, five minutes after the call
    ended, rewrites the end timestamp that was already set. *)
Lemma update_call_terminal_overwrites_ended_at :
  exists r r',
    In r (committed Samples.world_after_end) /\ ended_at r <> SNull /\
    In r' (committed (snd (update_call 1 Samples.body_completed Samples.world_after_end))) /\
    id r' = id r /\ ended_at r' <> ended_at r.
Proof.
  eexists. eexists. split; [left; reflexivity |].
  split; [discriminate |].
  split; [vm_compute; left; reflexivity |].
  split; [reflexivity |]. vm_compute. congruence.
Qed.

(** C4: Every successful update whose status is [completed], [failed] or
    [no_answer] sets the end timestamp of the call's row to the current
    database time, whether or not one was already set. *)
Theorem update_call_terminal_sets_ended_at :
  forall call_id data w resp w',
    pending w = None ->
    is_terminal (dict_find data "status") = true ->
    update_call call_id data w = (resp, w') ->
    resp = Success "Call updated" ->
    forall r, In r (committed w') -> id r = call_id -> ended_at r = SText (now w).
Proof.
  intros call_id data w resp w' Hp Ht Hu Hs.
  unfold update_call, update_call_body in Hu.
  rewrite Ht in Hu.
  destruct (dict_find data "status") as [st |] eqn:Hst; [| discriminate].
  unfold mbind at 1 in Hu.
  destruct (dict_find data "duration") as [d |].
  - unfold calc in Hu.
    destruct (Cost.calculate_call_cost d) as [c | e]; simpl in Hu;
      [| inversion Hu; subst; discriminate].
    unfold mbind, ret in Hu.
    destruct (dict_find data "notes") as [nt |]; simpl in Hu;
      unfold execute in Hu; simpl in Hu; rewrite Hp in Hu; simpl in Hu;
      match type of Hu with
      | context [exec_update ?b ?n ?s ?i] => destruct (exec_update b n s i) as [t' | e] eqn:He
      end; simpl in Hu; inversion Hu; subst; clear Hu; try discriminate; simpl;
      intros r Hin Hid;
      destruct (proj1 (EffectFacts.exec_update_rows _ _ _ _ _ He) r Hin Hid) as [r0 [_ [_ Hcol]]];
      specialize (Hcol Cended_at ECurrentTimestamp eq_refl); simpl in Hcol; congruence.
  - unfold mbind, ret in Hu.
    destruct (dict_find data "notes") as [nt |]; simpl in Hu;
      unfold execute in Hu; simpl in Hu; rewrite Hp in Hu; simpl in Hu;
      match type of Hu with
      | context [exec_update ?b ?n ?s ?i] => destruct (exec_update b n s i) as [t' | e] eqn:He
      end; simpl in Hu; inversion Hu; subst; clear Hu; try discriminate; simpl;
      intros r Hin Hid;
      destruct (proj1 (EffectFacts.exec_update_rows _ _ _ _ _ He) r Hin Hid) as [r0 [_ [_ Hcol]]];
      specialize (Hcol Cended_at ECurrentTimestamp eq_refl); simpl in Hcol; congruence.
Qed.

Lemma update_call_terminal_sets_ended_at_witness :
  pending Samples.world_after_end = None /\
  is_terminal (dict_find Samples.body_completed "status") = true /\
  fst (update_call 1 Samples.body_completed Samples.world_after_end) = Success "Call updated" /\
  forall r, In r (committed (snd (update_call 1 Samples.body_completed Samples.world_after_end))) ->
    id r = 1 -> ended_at r = SText (now Samples.world_after_end).
Proof.
  split; [reflexivity |]. split; [reflexivity |]. split; [vm_compute; reflexivity |].
  apply (update_call_terminal_sets_ended_at 1 Samples.body_completed Samples.world_after_end
           (fst (update_call 1 Samples.body_completed Samples.world_after_end))
           (snd (update_call 1 Samples.body_completed Samples.world_after_end)));
    [reflexivity | reflexivity | apply surjective_pairing | vm_compute; reflexivity].
Defined.

(** ** Claim C8 *)

(** C8: [calculate_call_cost] reads nothing but its argument and the
    constant globals [PRICING] and [USD_TO_INR]: invoked in any two states
    of the database, clock and connection, it returns the same result, and
    it changes none of them. *)
Theorem calculate_call_cost_deterministic :
  forall d w1 w2,
    fst (calc d w1) = fst (calc d w2) /\
    fst (calc d w1) = Cost.calculate_call_cost_with Cost.PRICING Cost.USD_TO_INR d /\
    committed (snd (calc d w1)) = committed w1 /\
    pending (snd (calc d w1)) = pending w1 /\
    now (snd (calc d w1)) = now w1.
Proof. intros d w1 w2. repeat split. Qed.

(** ** Claim C7 *)

(** C7 fails: a price table without its [deepgram_tts] entry makes
    [calculate_call_cost] raise [KeyError] instead of counting 0. *)
Lemma calculate_call_cost_missing_price_raises :
  Cost.calculate_call_cost_with (dict_del Cost.PRICING "deepgram_tts") Cost.USD_TO_INR (VInt 120)
  = Err (KeyError "deepgram_tts").
Proof. vm_compute. reflexivity. Qed.

Ltac run_calc Hm :=
  unfold Cost.calculate_call_cost_with; rewrite Hm; cbn -[fmul fadd fdiv round_float lit].

(** C7: In the shipped price table, a zero entry (0, 0.0 or -0.0) is
    accepted and its category contributes zero, for any duration whose
    minute count [d / 60.0] is finite: the LiveKit, STT or TTS cost is then
    a zero, a zero [avg_tokens_per_call] makes [cost_llm] zero, and a zero
    token price leaves in [cost_llm] only the other token price's part.
    A missing entry is not accepted: [calculate_call_cost] raises [KeyError]
    for it. *)
Theorem calculate_call_cost_zero_or_missing_price :
  forall d m,
    py_truediv d (VFloat (lit 600 1)) = Ok (VFloat m) -> is_finite m = true ->
    (forall k, In k price_keys ->
       Cost.calculate_call_cost_with (dict_del Cost.PRICING k) Cost.USD_TO_INR d = Err (KeyError k)) /\
    (forall z, zero_value z ->
       (exists c s, Cost.calculate_call_cost_with (dict_set Cost.PRICING "livekit_sip" z) Cost.USD_TO_INR d = Ok c /\
                    Cost.cost_livekit c = VFloat (S754_zero s)) /\
       (exists c s, Cost.calculate_call_cost_with (dict_set Cost.PRICING "deepgram_stt" z) Cost.USD_TO_INR d = Ok c /\
                    Cost.cost_stt c = VFloat (S754_zero s)) /\
       (exists c s, Cost.calculate_call_cost_with (dict_set Cost.PRICING "deepgram_tts" z) Cost.USD_TO_INR d = Ok c /\
                    Cost.cost_tts c = VFloat (S754_zero s)) /\
       (exists c s, Cost.calculate_call_cost_with (dict_set Cost.PRICING "avg_tokens_per_call" z) Cost.USD_TO_INR d = Ok c /\
                    Cost.cost_llm c = VFloat (S754_zero s)) /\
       (exists c, Cost.calculate_call_cost_with (dict_set Cost.PRICING "groq_input" z) Cost.USD_TO_INR d = Ok c /\
                  Cost.cost_llm c = VFloat (lit 158 5)) /\
       (exists c, Cost.calculate_call_cost_with (dict_set Cost.PRICING "groq_output" z) Cost.USD_TO_INR d = Ok c /\
                  Cost.cost_llm c = VFloat (lit 118 5))).
Proof.
  intros d m Hm Hf.
  destruct m as [sm | sm | | sm mm em]; try discriminate Hf; split.
  1, 3: intros k Hk; simpl in Hk;
        repeat (destruct Hk as [<- | Hk]; [run_calc Hm; reflexivity |]); destruct Hk.
  all: intros z [-> | [sz ->]];
       refine (conj _ (conj _ (conj _ (conj _ (conj _ _)))));
       first
         [ eexists; eexists; split; [run_calc Hm; reflexivity |];
           cbn [Cost.cost_livekit Cost.cost_stt Cost.cost_tts Cost.cost_llm]; reflexivity
         | eexists; exists sz; split; [run_calc Hm; reflexivity |];
           cbn [Cost.cost_llm]; destruct sz; vm_compute; reflexivity
         | eexists; split; [run_calc Hm; reflexivity |];
           cbn [Cost.cost_llm]; vm_compute; reflexivity ].
Qed.

Lemma calculate_call_cost_zero_or_missing_price_witness :
  py_truediv (VInt 120) (VFloat (lit 600 1)) = Ok (VFloat (lit 2 0)) /\
  is_finite (lit 2 0) = true /\
  Cost.calculate_call_cost_with (dict_del Cost.PRICING "groq_input") Cost.USD_TO_INR (VInt 120)
  = Err (KeyError "groq_input").
Proof.
  split; [vm_compute; reflexivity |]. split; [vm_compute; reflexivity |].
  apply (proj1 (calculate_call_cost_zero_or_missing_price (VInt 120) (lit 2 0)
                  ltac:(vm_compute; reflexivity) ltac:(vm_compute; reflexivity))).
  simpl; tauto.
Defined.

(** ** Claim C6 *)

(** C6 fails: a duration of [10^308] seconds is costed, but twice that
    duration is an int too large for a double, and [duration_seconds / 60]
    raises [OverflowError] converting it. *)
Lemma calculate_call_cost_double_overflows :
  (exists c, Cost.calculate_call_cost (VInt (10 ^ 308)) = Ok c) /\
  py_mul (VInt 2) (VInt (10 ^ 308)) = Ok (VInt (2 * 10 ^ 308)) /\
  Cost.calculate_call_cost (VInt (2 * 10 ^ 308)) = Err OverflowError.
Proof.
  split; [eexists; vm_compute; reflexivity |].
  split; [reflexivity | vm_compute; reflexivity].
Qed.

(** C6: For every duration [d >= 0] (a bool, an int, or a double, [-0.0]
    included) such that [float(2 * d)] is finite, the livekit, STT and TTS
    costs of [2 * d] are twice those of [d] up to one unit of the sixth
    decimal: both are [round(_, 6)] results of [k] and [k2] millionths of
    the same sign with [|k2 - 2k| <= 1]. *)
Theorem calculate_call_cost_double_duration :
  forall d d2, nonneg_duration d -> py_mul (VInt 2) d = Ok d2 -> as_finite_double d2 ->
  exists c c2, Cost.calculate_call_cost d = Ok c /\ Cost.calculate_call_cost d2 = Ok c2 /\
    near_double (Cost.cost_livekit c) (Cost.cost_livekit c2) /\
    near_double (Cost.cost_stt c) (Cost.cost_stt c2) /\
    near_double (Cost.cost_tts c) (Cost.cost_tts c2).
Proof.
  intros d d2 Hr Hm Hf.
  destruct (CostFacts.minutes_double d d2 Hr Hm Hf) as [x [x2 [H1 [H2 Hx]]]].
  destruct (CostFacts.calculate_call_cost_minutes _ _ H1) as [c [Hc [Hl [Hs [Ht _]]]]].
  destruct (CostFacts.calculate_call_cost_minutes _ _ H2) as [c2 [Hc2 [Hl2 [Hs2 [Ht2 _]]]]].
  exists c, c2. split; [exact Hc |]. split; [exact Hc2 |].
  rewrite Hl, Hl2, Hs, Hs2, Ht, Ht2, CostFacts.lit_60,
    CostFacts.lit_livekit, CostFacts.lit_stt, CostFacts.lit_tts.
  destruct Hx as [[-> ->] | [[-> Hx] | [Hx Hx2]]].
  - (* [-0.0]: every cost is [-0.0] *)
    split; [| split]; exists true, 0, 0;
      (split; [reflexivity |]); (split; [reflexivity | simpl; lia]).
  - split; [| split];
      [ destruct (FloatFacts.scale_core 5764607523034235 (-59) ltac:(lia) ltac:(lia) x Hx) as [k [k2 [E1 [E2 E3]]]]
      | destruct (FloatFacts.scale_core 6802236877180397 (-60) ltac:(lia) ltac:(lia) x Hx) as [k [k2 [E1 [E2 E3]]]]
      | destruct (FloatFacts.scale_core 7782220156096217 (-58) ltac:(lia) ltac:(lia) x Hx) as [k [k2 [E1 [E2 E3]]]] ];
      exists false, k, k2; rewrite E1, E2; auto.
  - (* below [2^-800] minutes every cost rounds to [0.0] *)
    split; [| split];
      [ rewrite (FloatFacts.scale_tiny 5764607523034235 (-59) ltac:(lia) ltac:(lia) x Hx),
                (FloatFacts.scale_tiny 5764607523034235 (-59) ltac:(lia) ltac:(lia) x2 Hx2)
      | rewrite (FloatFacts.scale_tiny 6802236877180397 (-60) ltac:(lia) ltac:(lia) x Hx),
                (FloatFacts.scale_tiny 6802236877180397 (-60) ltac:(lia) ltac:(lia) x2 Hx2)
      | rewrite (FloatFacts.scale_tiny 7782220156096217 (-58) ltac:(lia) ltac:(lia) x Hx),
                (FloatFacts.scale_tiny 7782220156096217 (-58) ltac:(lia) ltac:(lia) x2 Hx2) ];
      exists false, 0, 0; (split; [reflexivity |]); (split; [reflexivity | simpl; lia]).
Qed.

Lemma calculate_call_cost_double_duration_witness :
  nonneg_duration (VInt 120) /\ py_mul (VInt 2) (VInt 120) = Ok (VInt 240) /\
  as_finite_double (VInt 240) /\
  exists c c2, Cost.calculate_call_cost (VInt 120) = Ok c /\ Cost.calculate_call_cost (VInt 240) = Ok c2 /\
    near_double (Cost.cost_livekit c) (Cost.cost_livekit c2) /\
    near_double (Cost.cost_stt c) (Cost.cost_stt c2) /\
    near_double (Cost.cost_tts c) (Cost.cost_tts c2).
Proof.
  split; [simpl; lia |]. split; [reflexivity |]. split; [vm_compute; reflexivity |].
  apply (calculate_call_cost_double_duration (VInt 120) (VInt 240));
    [simpl; lia | reflexivity | vm_compute; reflexivity].
Defined.

(** ** Claim C9 *)





(** ** Claim C10 *)

Module UpdateFacts.
Import FloatFacts CostFacts.

Lemma param_ok_some : forall v, param_ok (Some v) = true -> exists sv, bind_param v = Ok sv.
Proof. intros v H. simpl in H. destruct (bind_param v); [eauto | discriminate]. Qed.

Lemma bind_float : forall f, exists sv, bind_param (VFloat f) = Ok sv.
Proof. intros [s | s | | s m e]; eexists; reflexivity. Qed.

Lemma bind_sets_ok : forall tnow sets,
  (forall c v, In (c, EParam v) sets -> exists sv, bind_param v = Ok sv) ->
  exists vs, bind_sets tnow sets = Ok vs.
Proof.
  intros tnow sets. induction sets as [| [c e] sets IH]; intros H; [eexists; reflexivity |].
  destruct IH as [vs Hvs]; [intros c' v Hin; apply (H c' v); right; exact Hin |].
  destruct e as [v |]; simpl; rewrite Hvs.
  - destruct (H c v (or_introl eq_refl)) as [sv Hsv]. rewrite Hsv. eexists; reflexivity.
  - eexists; reflexivity.
Qed.

Lemma exec_update_ok : forall t tnow sets call_id,
  i64_min <= call_id <= i64_max ->
  (forall c v, In (c, EParam v) sets -> exists sv, bind_param v = Ok sv) ->
  exists t', exec_update t tnow sets call_id = Ok t'.
Proof.
  intros t tnow sets call_id Hid H.
  destruct (bind_sets_ok tnow sets H) as [vs Hvs].
  unfold exec_update. rewrite Hvs. simpl. unfold bind_param.
  replace ((i64_min <=? call_id) && (call_id <=? i64_max)) with true
    by (symmetry; apply andb_true_intro; split; apply Z.leb_le; lia).
  eexists; reflexivity.
Qed.

(** The minutes of a negative duration are negative. *)
Lemma minutes_negative : forall d, negative_duration d ->
  exists y, py_truediv d (VFloat (lit 600 1)) = Ok (VFloat y) /\ has_sign true y.
Proof.
  intros d Hd.
  assert (Hnz : is_zero (lit 600 1) = false) by (rewrite lit_60; reflexivity).
  destruct d as [| b | z | f | str |]; simpl in Hd; try contradiction.
  - destruct z as [| p | p]; [lia | lia |].
    destruct (int_to_float_neg p) as [x [Hx Hs]]; [unfold i64_min in Hd; lia |].
    exists (fdiv x (lit 600 1)). split.
    + unfold py_truediv; cbn -[fdiv int_to_float lit]. rewrite Hx. cbn -[fdiv lit].
      rewrite Hnz. reflexivity.
    + rewrite lit_60. apply fdiv_sign. exact Hs.
  - exists (fdiv f (lit 600 1)). split.
    + unfold py_truediv; cbn -[fdiv int_to_float lit]. rewrite Hnz. reflexivity.
    + rewrite lit_60. apply fdiv_sign. apply Hd.
Qed.

Lemma costs_negative : forall d, negative_duration d ->
  exists c, Cost.calculate_call_cost d = Ok c /\
    (exists f, Cost.cost_livekit c = VFloat f /\ has_sign true f) /\
    (exists f, Cost.cost_stt c = VFloat f /\ has_sign true f) /\
    (exists f, Cost.cost_tts c = VFloat f /\ has_sign true f) /\
    Cost.cost_llm c = VFloat (lit 276 5) /\
    (exists f, Cost.total_cost_usd c = VFloat f) /\
    (exists f, Cost.total_cost_inr c = VFloat f).
Proof.
  intros d Hd. destruct (minutes_negative d Hd) as [y [Hy Hs]].
  destruct (calculate_call_cost_minutes d y Hy) as [c [Hc [Hl [Hst [Ht [Hllm [Hu Hi]]]]]]].
  exists c. split; [exact Hc |].
  split; [eexists; split; [exact Hl |] | split; [eexists; split; [exact Hst |] |
    split; [eexists; split; [exact Ht |] | auto]]];
    [rewrite lit_livekit | rewrite lit_stt | rewrite lit_tts];
    apply round_float_sign, fmul_sign, Hs.
Qed.

Lemma stored_cost : forall col f, affinity_of col = AReal -> has_sign true f ->
  stored col (VFloat f) = Ok (SReal f).
Proof.
  intros col f Ha Hs. unfold stored. rewrite Ha.
  destruct f as [s | s | | s m e]; simpl in Hs; try contradiction; reflexivity.
Qed.

End UpdateFacts.

(** C10 fails: a duration of [-2^64] is costed, but it does not fit
    SQLite's 64-bit integer, so binding it raises [OverflowError] and
    nothing is committed. *)
Lemma update_call_out_of_range_negative_duration_fails :
  (exists c, Cost.calculate_call_cost (VInt (- 2 ^ 64)) = Ok c) /\
  fst (update_call 1 [("duration", VInt (- 2 ^ 64))]%string Samples.world_after_end) = Failure OverflowError /\
  committed (snd (update_call 1 [("duration", VInt (- 2 ^ 64))]%string Samples.world_after_end)) =
    committed Samples.world_after_end.
Proof.
  split; [eexists; vm_compute; reflexivity |].
  split; vm_compute; reflexivity.
Qed.

(** C10: When [update_call] gets a negative duration SQLite can bind (an
    int in [-2^63, 0) or a negative double), with a bindable status and
    notes, the update succeeds after one call of [calculate_call_cost], and
    every row with that id stores the duration and costs computed from it:
    negative (or zero) livekit, STT and TTS costs, and the fixed positive
    LLM cost. *)
Theorem update_call_negative_duration_persisted :
  forall call_id data d w resp w',
    pending w = None ->
    i64_min <= call_id <= i64_max ->
    dict_find data "duration" = Some d ->
    negative_duration d ->
    param_ok (dict_find data "status") = true ->
    param_ok (dict_find data "notes") = true ->
    update_call call_id data w = (resp, w') ->
    resp = Success "Call updated" /\
    exists c new,
      Cost.calculate_call_cost d = Ok c /\
      trace w' = trace w ++ new /\ calc_count new = 1%nat /\
      Cost.cost_llm c = VFloat (lit 276 5) /\
      forall r, In r (committed w') -> id r = call_id ->
        consistent d c r /\
        (exists f, cost_livekit r = SReal f /\ has_sign true f) /\
        (exists f, cost_stt r = SReal f /\ has_sign true f) /\
        (exists f, cost_tts r = SReal f /\ has_sign true f) /\
        cost_llm r = SReal (lit 276 5).
Proof.
  intros call_id data d w resp w' Hp Hid Hd Hneg Hbs Hbn Hu.
  destruct (UpdateFacts.costs_negative d Hneg)
    as [c [Hc [[fl [Hl Hsl]] [[fs [Hs Hss]] [[ft [Ht Hst]] [Hllm [[fu Hu'] [fi Hi]]]]]]]].
  assert (Hbd : exists sv, bind_param d = Ok sv).
  { destruct d as [| b | z | f | str |]; simpl in Hneg; try contradiction.
    - unfold bind_param. replace ((i64_min <=? z) && (z <=? i64_max)) with true
        by (symmetry; apply andb_true_intro; split; apply Z.leb_le; unfold i64_max in *; lia).
      eexists; reflexivity.
    - apply UpdateFacts.bind_float. }
  assert (Hrow : forall r, consistent d c r ->
    consistent d c r /\
    (exists f, cost_livekit r = SReal f /\ has_sign true f) /\
    (exists f, cost_stt r = SReal f /\ has_sign true f) /\
    (exists f, cost_tts r = SReal f /\ has_sign true f) /\
    cost_llm r = SReal (lit 276 5)).
  { intros r Hr. split; [exact Hr |].
    destruct Hr as [_ [H1 [H2 [H3 [H4 _]]]]].
    rewrite Hl, UpdateFacts.stored_cost in H1 by (reflexivity || exact Hsl).
    rewrite Hs, UpdateFacts.stored_cost in H2 by (reflexivity || exact Hss).
    rewrite Ht, UpdateFacts.stored_cost in H3 by (reflexivity || exact Hst).
    assert (E : stored Ccost_llm (VFloat (lit 276 5)) = Ok (SReal (lit 276 5)))
      by (vm_compute; reflexivity).
    rewrite Hllm, E in H4.
    split; [exists fl; split; [congruence | exact Hsl] |].
    split; [exists fs; split; [congruence | exact Hss] |].
    split; [exists ft; split; [congruence | exact Hst] |].
    congruence. }
  unfold update_call, update_call_body in Hu.
  rewrite Hd in Hu.
  remember (is_terminal (dict_find data "status")) as term eqn:Hterm. clear Hterm.
  unfold mbind at 1, calc in Hu. rewrite Hc in Hu.
  unfold mbind, ret in Hu.
  destruct (dict_find data "status") as [st |]; destruct (dict_find data "notes") as [nt |];
    destruct term; simpl in Hu;
    unfold execute in Hu; simpl in Hu; rewrite Hp in Hu; simpl in Hu;
    match type of Hu with
    | context [exec_update ?b ?n ?s ?i] =>
        destruct (exec_update b n s i) as [t' | e] eqn:He;
        [| destruct (UpdateFacts.exec_update_ok b n s i Hid) as [t'' Ht''];
           [ intros col v Hin; simpl in Hin;
             repeat (destruct Hin as [Heq | Hin];
                     [inversion Heq; subst;
                      first [ apply UpdateFacts.param_ok_some; exact Hbs
                            | apply UpdateFacts.param_ok_some; exact Hbn | exact Hbd
                            | apply UpdateFacts.bind_float
                            | rewrite Hl; apply UpdateFacts.bind_float
                            | rewrite Hs; apply UpdateFacts.bind_float
                            | rewrite Ht; apply UpdateFacts.bind_float
                            | rewrite Hllm; apply UpdateFacts.bind_float
                            | rewrite Hu'; apply UpdateFacts.bind_float
                            | rewrite Hi; apply UpdateFacts.bind_float ] |]);
             contradiction
           | congruence ]]
    end;
    simpl in Hu; inversion Hu; subst; clear Hu; simpl;
    (split; [reflexivity |]); exists c; eexists;
    (split; [exact Hc |]); (split; [rewrite <- !app_assoc; reflexivity |]);
    (split; [reflexivity |]); (split; [exact Hllm |]);
    (intros r Hin Hidr; apply Hrow;
    destruct (proj1 (EffectFacts.exec_update_rows _ _ _ _ _ He) r Hin Hidr) as [r0 [_ [_ Hcol]]];
    repeat split;
    [ apply (Hcol Cduration (EParam d))
    | apply (Hcol Ccost_livekit (EParam (Cost.cost_livekit c)))
    | apply (Hcol Ccost_stt (EParam (Cost.cost_stt c)))
    | apply (Hcol Ccost_tts (EParam (Cost.cost_tts c)))
    | apply (Hcol Ccost_llm (EParam (Cost.cost_llm c)))
    | apply (Hcol Ctotal_cost_usd (EParam (Cost.total_cost_usd c)))
    | apply (Hcol Ctotal_cost_inr (EParam (Cost.total_cost_inr c))) ];
    reflexivity).
Qed.

Lemma update_call_negative_duration_persisted_witness :
  pending Samples.world_after_end = None /\
  i64_min <= 1 <= i64_max /\
  dict_find Samples.body_completed_neg30 "duration" = Some (VInt (-30)) /\
  negative_duration (VInt (-30)) /\
  param_ok (dict_find Samples.body_completed_neg30 "status") = true /\
  param_ok (dict_find Samples.body_completed_neg30 "notes") = true /\
  fst (update_call 1 Samples.body_completed_neg30 Samples.world_after_end) = Success "Call updated" /\
  exists c new,
    Cost.calculate_call_cost (VInt (-30)) = Ok c /\
    trace (snd (update_call 1 Samples.body_completed_neg30 Samples.world_after_end)) =
      trace Samples.world_after_end ++ new /\
    calc_count new = 1%nat /\
    Cost.cost_llm c = VFloat (lit 276 5) /\
    forall r, In r (committed (snd (update_call 1 Samples.body_completed_neg30 Samples.world_after_end))) ->
      id r = 1 ->
      consistent (VInt (-30)) c r /\
      (exists f, cost_livekit r = SReal f /\ has_sign true f) /\
      (exists f, cost_stt r = SReal f /\ has_sign true f) /\
      (exists f, cost_tts r = SReal f /\ has_sign true f) /\
      cost_llm r = SReal (lit 276 5).
Proof.
  split; [reflexivity |]. split; [vm_compute; split; discriminate |].
  split; [reflexivity |]. split; [vm_compute; split; [discriminate | reflexivity] |].
  split; [reflexivity |]. split; [reflexivity |].
  apply (update_call_negative_duration_persisted 1 Samples.body_completed_neg30 (VInt (-30))
           Samples.world_after_end
           (fst (update_call 1 Samples.body_completed_neg30 Samples.world_after_end))
           (snd (update_call 1 Samples.body_completed_neg30 Samples.world_after_end)));
    [reflexivity | vm_compute; split; discriminate | reflexivity
    | vm_compute; split; [discriminate | reflexivity] | reflexivity | reflexivity
    | apply surjective_pairing].
Defined.

Module SqlTextFacts.
Import Req SqlText.

Lemma SFcompare_swap (x y : spec_float) :
  SFcompare y x = option_map CompOpp (SFcompare x y).
Proof.
  destruct x as [s1|s1| |s1 m1 e1], y as [s2|s2| |s2 m2 e2];
    try destruct s1; try destruct s2; simpl; auto;
    change (PosDef.Pos.compare_cont Eq m2 m1) with (Pos.compare m2 m1);
    change (PosDef.Pos.compare_cont Eq m1 m2) with (Pos.compare m1 m2);
    pose proof (Z.compare_antisym e1 e2) as Ha; pose proof (Pos.compare_antisym m1 m2) as Hp;
    destruct (e1 ?= e2)%Z, (e2 ?= e1)%Z; cbn in Ha; try discriminate Ha;
    destruct (m1 ?= m2)%positive, (m2 ?= m1)%positive; cbn in Hp; try discriminate Hp; reflexivity.
Qed.

Lemma sql_same_sym (a b : sqlval) : sql_same a b = sql_same b a.
Proof.
  destruct a, b; simpl; auto.
  - apply Z.eqb_sym.
  - rewrite (SFcompare_swap f f0). destruct (SFcompare f f0) as [[]|]; reflexivity.
  - apply String.eqb_sym.
Qed.

Lemma sql_compare_antisym (a b : sqlval) : sql_compare b a = CompOpp (sql_compare a b).
Proof.
  destruct a, b; simpl; auto;
    try (apply Z.compare_antisym); try (rewrite CompOpp_involutive; reflexivity).
  - rewrite (SFcompare_swap f f0). destruct (SFcompare f f0); reflexivity.
  - apply String.compare_antisym.
Qed.

Section Sort.
Context {A : Type}.
Variable cmp : A -> A -> comparison.
Hypothesis cmp_antisym : forall a b, cmp b a = CompOpp (cmp a b).

Lemma insert_by_perm (x : A) (l : list A) : Permutation (insert_by cmp x l) (x :: l).
Proof.
  induction l as [|y l IH]; simpl; auto.
  destruct (cmp x y); auto;
    (eapply perm_trans; [apply perm_skip, IH | apply perm_swap]).
Qed.

Lemma insert_by_hd (x y : A) (l : list A) :
  cmp x y <> Lt -> HdRel (le_by cmp) y l -> HdRel (le_by cmp) y (insert_by cmp x l).
Proof.
  intros E Hhd. destruct l as [|z l]; simpl.
  - constructor. unfold le_by. rewrite cmp_antisym. destruct (cmp x y); easy.
  - inversion Hhd; subst. destruct (cmp x z); constructor; auto.
    unfold le_by. rewrite cmp_antisym. destruct (cmp x y); easy.
Qed.

Lemma insert_by_sorted (x : A) (l : list A) : Sorted (le_by cmp) l -> Sorted (le_by cmp) (insert_by cmp x l).
Proof.
  intros Hs. induction Hs as [|y l Hs IH Hhd]; simpl.
  - auto.
  - destruct (cmp x y) eqn:E.
    + constructor; auto. apply insert_by_hd; auto. rewrite E; discriminate.
    + constructor; [constructor; auto|]. constructor. unfold le_by. rewrite E. discriminate.
    + constructor; auto. apply insert_by_hd; auto. rewrite E; discriminate.
Qed.

Lemma sort_by_fold_perm (l acc : list A) :
  Permutation (fold_left (fun acc x => insert_by cmp x acc) l acc) (l ++ acc).
Proof.
  revert acc. induction l as [|x l IH]; intros acc; simpl; auto.
  eapply perm_trans; [apply IH|].
  eapply perm_trans; [apply Permutation_app_head, insert_by_perm|].
  apply Permutation_sym, Permutation_middle.
Qed.

Lemma sort_by_perm (l : list A) : Permutation (sort_by cmp l) l.
Proof.
  unfold sort_by. rewrite <- (app_nil_r l) at 2. apply sort_by_fold_perm.
Qed.

Lemma sort_by_sorted (l : list A) : Sorted (le_by cmp) (sort_by cmp l).
Proof.
  unfold sort_by.
  assert (H : forall acc, Sorted (le_by cmp) acc ->
            Sorted (le_by cmp) (fold_left (fun acc x => insert_by cmp x acc) l acc)).
  { induction l as [|x l IH]; intros acc Hs; simpl; auto. apply IH, insert_by_sorted, Hs. }
  apply H. constructor.
Qed.

End Sort.

Lemma order_asc_perm {A} (key : A -> sqlval) (l : list A) : Permutation (order_asc key l) l.
Proof. apply sort_by_perm. Qed.

Lemma order_asc_sorted {A} (key : A -> sqlval) (l : list A) :
  Sorted (fun a b => sql_compare (key a) (key b) <> Gt) (order_asc key l).
Proof.
  apply (sort_by_sorted (fun a b => sql_compare (key a) (key b))).
  intros; apply sql_compare_antisym.
Qed.



End SqlTextFacts.

Module WebFacts.
Import Req SqlText Web SqlTextFacts.
Local Open Scope string_scope.
Local Open Scope Z_scope.

Lemma fold_max_bound (l : list Z) (a : Z) :
  a <= fold_left Z.max l a /\ forall i, In i l -> i <= fold_left Z.max l a.
Proof.
  revert a. induction l as [|x l IH]; intros a; simpl.
  - split; [lia | tauto].
  - destruct (IH (Z.max a x)) as [H1 H2]. split; [lia|].
    intros i [<-|Hi]; [lia | auto].
Qed.

Lemma next_rowid_gt (seq : Z) (ids : list Z) (z : Z) :
  next_rowid seq ids = Done z -> (forall i, In i ids -> i < z) /\ seq < z /\ 0 < z /\ z <= i64_max.
Proof.
  unfold next_rowid. destruct (fold_max_bound ids (Z.max seq 0)) as [H1 H2].
  destruct (_ <? i64_max) eqn:E; intros H; inversion H; subst.
  apply Z.ltb_lt in E. split; [intros i Hi; specialize (H2 i Hi); lia | lia].
Qed.

Lemma py_strip_field (data : jdict) (k : string) :
  str_or_missing data k = true -> py_strip (jget data k (JStr "")) = Done (stripped_field data k).
Proof.
  unfold str_or_missing, stripped_field, jget. destruct (jfind data k) as [[]|]; simpl; congruence.
Qed.

Lemma py_strip_field_done (data : jdict) (k s : string) :
  py_strip (jget data k (JStr "")) = Done s ->
  str_or_missing data k = true /\ s = stripped_field data k.
Proof.
  unfold str_or_missing, stripped_field, jget.
  destruct (jfind data k) as [[]|]; simpl; intros H; inversion H; auto.
Qed.

Lemma py_strip_field_raise (data : jdict) (k : string) :
  str_or_missing data k = false -> exists e, py_strip (jget data k (JStr "")) = Raise e.
Proof.
  unfold str_or_missing, jget. destruct (jfind data k) as [[]|]; simpl; try congruence; eauto.
Qed.

Lemma fields_strip (data : jdict) :
  forallb (str_or_missing data) contact_fields = true ->
  forall k, In k contact_fields -> py_strip (jget data k (JStr "")) = Done (stripped_field data k).
Proof.
  intros H k Hk. apply py_strip_field. rewrite forallb_forall in H. auto.
Qed.

Ltac fields_done H :=
  let F := fresh "F" in
  pose proof (fields_strip _ H) as F; unfold contact_fields in F; simpl In in F;
  rewrite (F "name"), (F "phone_number"), (F "company"), (F "notes"), (F "tags") by tauto;
  clear F.

End WebFacts.

Module ContactFacts.
Import Req SqlText Web SqlTextFacts WebFacts.
Local Open Scope Z_scope.

Lemma forallb_map' {A B} (f : A -> B) (g : B -> bool) (l : list A) :
  forallb g (map f l) = forallb (fun x => g (f x)) l.
Proof. induction l; simpl; congruence. Qed.

Lemma existsb_false_in {A} (f : A -> bool) (l : list A) (x : A) :
  existsb f l = false -> In x l -> f x = false.
Proof.
  intros H Hx. destruct (f x) eqn:E; auto.
  rewrite <- H. symmetry. apply existsb_exists. eauto.
Qed.

Lemma contacts_ok_cons (r : contact) (cs : list contact) :
  contacts_ok (r :: cs) = true <->
  (forall r', In r' cs -> ct_id r <> ct_id r' /\ sql_same (ct_phone_number r) (ct_phone_number r') = false) /\
  contacts_ok cs = true.
Proof.
  simpl. rewrite andb_true_iff, forallb_forall. split; intros [H1 H2]; split; auto.
  - intros r' Hr. specialize (H1 r' Hr). apply andb_true_iff in H1 as [H1 H3].
    apply negb_true_iff in H1, H3. apply Z.eqb_neq in H1. auto.
  - intros r' Hr. destruct (H1 r' Hr) as [H3 H4].
    apply andb_true_iff. rewrite negb_true_iff, negb_true_iff, Z.eqb_neq. auto.
Qed.

Lemma contacts_ok_app_one (cs : list contact) (r : contact) :
  contacts_ok cs = true ->
  (forall r', In r' cs -> ct_id r' <> ct_id r /\ sql_same (ct_phone_number r') (ct_phone_number r) = false) ->
  contacts_ok (app cs [r]) = true.
Proof.
  induction cs as [|r0 cs IH]; intros Hok Hnew; simpl app.
  - reflexivity.
  - apply contacts_ok_cons in Hok as [H1 H2]. apply contacts_ok_cons. split.
    + intros r' Hr. apply in_app_or in Hr as [Hr|[<-|[]]]; auto. apply Hnew. left; auto.
    + apply IH; auto. intros r' Hr. apply Hnew. right; auto.
Qed.

Lemma contacts_ok_filter (f : contact -> bool) (cs : list contact) :
  contacts_ok cs = true -> contacts_ok (filter f cs) = true.
Proof.
  induction cs as [|r cs IH]; intros Hok; simpl; auto.
  apply contacts_ok_cons in Hok as [H1 H2].
  destruct (f r); auto. apply contacts_ok_cons. split; auto.
  intros r' Hr. apply filter_In in Hr as [Hr _]. auto.
Qed.

Lemma contacts_ok_map_keys (f : contact -> contact) (cs : list contact) :
  (forall r, ct_id (f r) = ct_id r /\ ct_phone_number (f r) = ct_phone_number r) ->
  contacts_ok (map f cs) = contacts_ok cs.
Proof.
  intros Hf. induction cs as [|r cs IH]; simpl; auto.
  rewrite IH, forallb_map'. f_equal. clear IH. induction cs as [|r' cs IH]; simpl; auto.
  rewrite IH. destruct (Hf r) as [-> ->], (Hf r') as [-> ->]. reflexivity.
Qed.

Lemma contacts_ok_update (cid : Z) (name phone company notes tags : sqlval) (cs : list contact) :
  contacts_ok cs = true ->
  existsb (fun r => negb (Z.eqb (ct_id r) cid) && sql_same (ct_phone_number r) phone) cs = false ->
  contacts_ok (map (fun r => if Z.eqb (ct_id r) cid
                             then mk_contact (ct_id r) name phone company notes tags
                                    (ct_created_at r) (ct_last_called r)
                             else r) cs) = true.
Proof.
  induction cs as [|r cs IH]; intros Hok Hu; simpl map; auto.
  simpl existsb in Hu. apply orb_false_iff in Hu as [Hr Hu].
  apply contacts_ok_cons in Hok as [H1 H2]. apply contacts_ok_cons. split; [|auto].
  intros r2 Hr2. apply in_map_iff in Hr2 as [r' [<- Hr']].
  destruct (H1 r' Hr') as [Hid Hph].
  pose proof (existsb_false_in _ _ r' Hu Hr') as Hu'.
  revert Hu' Hr. destruct (Z.eqb (ct_id r) cid) eqn:E, (Z.eqb (ct_id r') cid) eqn:E';
    simpl; intros Hu' Hr.
  - apply Z.eqb_eq in E, E'. congruence.
  - split; auto. rewrite sql_same_sym. exact Hu'.
  - split; auto.
  - split; auto.
Qed.

Ltac split_binds :=
  repeat match goal with
         | |- context [obind ?m _] => destruct m eqn:?; cbn [obind]
         end.

Lemma insert_contact_keeps rt w n p c no t cid w1 :
  insert_contact rt w n p c no t = Done (cid, w1) ->
  contacts_ok (contacts w) = true -> contacts_ok (contacts w1) = true.
Proof.
  unfold insert_contact. intros H Hok.
  destruct (next_rowid _ _) as [z|e] eqn:Ez; cbn [obind] in H; [|discriminate].
  destruct (not_null _ (text_affinity rt n)); cbn [obind] in H; [|discriminate].
  destruct (not_null _ (text_affinity rt p)); cbn [obind] in H; [|discriminate].
  destruct (existsb _ _) eqn:Ex; inversion H; subst; clear H. simpl.
  apply contacts_ok_app_one; auto. simpl.
  apply next_rowid_gt in Ez as [Hlt _].
  intros r' Hr'. split.
  - specialize (Hlt (ct_id r') (in_map _ _ _ Hr')). lia.
  - exact (existsb_false_in _ _ r' Ex Hr').
Qed.

Lemma add_contact_keeps rt es data w :
  contacts_ok (contacts w) = true -> contacts_ok (contacts (snd (add_contact rt es data w))) = true.
Proof.
  intros Hok. unfold add_contact. split_binds; simpl; auto.
  destruct (_ || _); simpl; auto.
  destruct (insert_contact rt w _ _ _ _ _) as [[cid w1]|e] eqn:Ei.
  - simpl. eapply insert_contact_keeps; eauto.
  - destruct e; simpl; auto.
Qed.

Lemma exec_update_contact_keeps w cid n p c no t w' :
  exec_update_contact w cid n p c no t = Done w' ->
  contacts_ok (contacts w) = true -> contacts_ok (contacts w') = true.
Proof.
  unfold exec_update_contact. intros H Hok.
  destruct (existsb _ _); [|inversion H; subst; auto].
  destruct (not_null _ n); cbn [obind] in H; [|discriminate].
  destruct (not_null _ p); cbn [obind] in H; [|discriminate].
  destruct (existsb _ _) eqn:Ex; inversion H; subst; clear H. simpl.
  apply contacts_ok_update; auto.
Qed.

Lemma update_contact_keeps rt es cid data w :
  contacts_ok (contacts w) = true ->
  contacts_ok (contacts (snd (update_contact rt es cid data w))) = true.
Proof.
  intros Hok. unfold update_contact. split_binds; simpl; auto.
  destruct (exec_update_contact _ _ _ _ _ _ _) eqn:Ee; simpl; auto.
  eapply exec_update_contact_keeps; eauto.
Qed.

Lemma delete_contact_keeps es cid w :
  contacts_ok (contacts w) = true ->
  contacts_ok (contacts (snd (delete_contact es cid w))) = true.
Proof.
  intros Hok. unfold delete_contact. destruct (bind_value _); simpl; auto.
  apply contacts_ok_filter; auto.
Qed.

Lemma touch_contacts_keeps now w p :
  contacts_ok (contacts (touch_contacts now w p)) = contacts_ok (contacts w).
Proof.
  unfold touch_contacts. destruct now as [ts|e]; [|reflexivity].
  simpl. apply contacts_ok_map_keys.
  intros r. destruct (sql_same _ _); simpl; auto.
Qed.

Lemma dispatch_call_keeps es phone rand d now w :
  contacts_ok (contacts w) = true ->
  contacts_ok (contacts (snd (dispatch_call es phone rand d now w))) = true.
Proof.
  intros Hok. unfold dispatch_call. destruct d as [did|e]; [|exact Hok].
  destruct (insert_call w phone _ did) as [[cid w1]|e] eqn:Ei; [|exact Hok].
  cbn [snd]. rewrite touch_contacts_keeps. unfold insert_call in Ei.
  destruct (next_rowid _ _); cbn [obind] in Ei; inversion Ei; subst. exact Hok.
Qed.

Lemma make_call_keeps es data env rand d now w :
  contacts_ok (contacts w) = true ->
  contacts_ok (contacts (snd (make_call es data env rand d now w))) = true.
Proof.
  intros Hok. unfold make_call.
  destruct (py_strip _) as [phone|e]; [|exact Hok].
  destruct (String.eqb phone ""); [exact Hok|].
  destruct (negb _); [exact Hok|].
  destruct (Nat.ltb _ _); [exact Hok|].
  destruct (negb _); [exact Hok|].
  pose proof (dispatch_call_keeps es phone rand d now w Hok) as H.
  destruct (dispatch_call es phone rand d now w). exact H.
Qed.

Lemma add_transcript_message_contacts rt es k data w :
  contacts (snd (add_transcript_message rt es k data w)) = contacts w.
Proof.
  unfold add_transcript_message. destruct (negb _); simpl; auto.
  destruct (insert_transcript rt w k _ _) as [[tid w1]|e] eqn:Ei; simpl; auto.
  unfold insert_transcript in Ei. revert Ei. split_binds; intros Ei; inversion Ei; auto.
Qed.

Lemma handle_keeps rt es q w :
  contacts_ok (contacts w) = true -> contacts_ok (contacts (snd (handle rt es q w))) = true.
Proof.
  intros Hok. destruct q; simpl.
  - apply add_contact_keeps; auto.
  - apply update_contact_keeps; auto.
  - apply delete_contact_keeps; auto.
  - apply make_call_keeps; auto.
  - rewrite add_transcript_message_contacts; auto.
  - auto.
  - auto.
  - auto.
Qed.

Lemma exec_update_contact_row w cid n p c no t w' r :
  exec_update_contact w cid n p c no t = Done w' ->
  In r (contacts w') -> ct_id r = cid ->
  ct_name r = n /\ ct_phone_number r = p /\ ct_company r = c /\ ct_notes r = no /\ ct_tags r = t.
Proof.
  unfold exec_update_contact. intros H Hr Hid.
  destruct (existsb _ _) eqn:Hex.
  - destruct (not_null _ n); cbn [obind] in H; [|discriminate].
    destruct (not_null _ p); cbn [obind] in H; [|discriminate].
    match type of H with context [existsb ?f ?l] => destruct (existsb f l) end;
      [discriminate|]. injection H as <-.
    simpl in Hr. apply in_map_iff in Hr as [r0 [<- Hr0]].
    destruct (Z.eqb (ct_id r0) cid) eqn:E.
    + simpl. auto.
    + apply Z.eqb_neq in E. contradiction.
  - injection H as <-. pose proof (existsb_false_in _ _ r Hex Hr) as E. simpl in E.
    rewrite Hid, Z.eqb_refl in E. discriminate.
Qed.

Lemma jget_plain_bind (data : jdict) (k : string) (d : jval) :
  (d = JNone \/ exists s, d = JStr s) ->
  match jfind data k with None | Some JNone | Some (JStr _) => true | _ => false end = true ->
  exists v, bind_value (jget data k d) = Done v.
Proof.
  unfold jget. intros Hd. destruct (jfind data k) as [[]|]; simpl; try discriminate; eauto.
  intros _. destruct Hd as [->|[s ->]]; simpl; eauto.
Qed.

End ContactFacts.

Module LikeFacts.
Import Req SqlText Web.
Local Open Scope Z_scope.

Lemma list_ascii_of_string_app (a b : string) :
  list_ascii_of_string (a ++ b) = list_ascii_of_string a ++ list_ascii_of_string b.
Proof. induction a; simpl; congruence. Qed.

Lemma is_prefix_nil (s : list ascii) : is_prefix [] s = true.
Proof. reflexivity. Qed.

Lemma is_prefix_cons (a b : ascii) (p s : list ascii) :
  is_prefix (a :: p) (b :: s) = Ascii.eqb a b && is_prefix p s.
Proof.
  unfold is_prefix. cbn [List.length firstn Nat.leb].
  destruct (Nat.leb (List.length p) (List.length s)); cbn [andb]; [|symmetry; apply andb_false_r].
  destruct (list_eq_dec ascii_dec (a :: p) (b :: firstn (List.length p) s)) as [H|H];
    destruct (list_eq_dec ascii_dec p (firstn (List.length p) s)) as [H'|H'];
    destruct (Ascii.eqb a b) eqn:E; cbn [andb]; try reflexivity; exfalso.
  all: first [ injection H as H1 H2; apply Ascii.eqb_neq in E; contradiction
             | injection H as H1 H2; contradiction
             | apply Ascii.eqb_eq in E; subst b; apply H; rewrite <- H'; reflexivity ].
Qed.

Lemma is_prefix_cons_nil (a : ascii) (p : list ascii) : is_prefix (a :: p) [] = false.
Proof. reflexivity. Qed.


Lemma any_suffix_nil_true (f : list ascii -> bool) (s : list ascii) :
  f [] = true -> any_suffix f s = true.
Proof. intros H. induction s; simpl; [rewrite H | rewrite IHs, orb_true_r]; reflexivity. Qed.




Lemma like_value_all (rt : spec_float -> string) (v : sqlval) :
  like_value rt "%%%" v = match v with SNull => false | _ => true end.
Proof.
  assert (H : forall x, like ["%"; "%"; "%"]%char x = true).
  { intros x. cbn [like]. change (Ascii.eqb "%" "%") with true. cbv iota.
    apply any_suffix_nil_true. apply any_suffix_nil_true. apply any_suffix_nil_true. reflexivity. }
  destruct v; cbn [like_value]; rewrite ?H; reflexivity.
Qed.

Lemma filter_all {A} (f : A -> bool) (l : list A) :
  (forall x, In x l -> f x = true) -> filter f l = l.
Proof.
  induction l as [|x l IH]; intros H; simpl; auto.
  rewrite H by (left; auto). f_equal. apply IH. intros y Hy. apply H. right; auto.
Qed.

End LikeFacts.

Module CallFacts.
Import Req SqlText Web LikeFacts.
Local Open Scope Z_scope.

Lemma digit_not_plus (k : nat) : (k < 10)%nat -> ascii_of_nat (48 + k) <> "+"%char.
Proof.
  intros Hk E. apply (f_equal nat_of_ascii) in E.
  rewrite nat_ascii_embedding in E by lia.
  replace (nat_of_ascii "+") with 43%nat in E by reflexivity. lia.
Qed.

Lemma digits_aux_no_plus (fuel : nat) (n : Z) (acc : string) :
  ~ In "+"%char (list_ascii_of_string acc) ->
  ~ In "+"%char (list_ascii_of_string (digits_aux fuel n acc)).
Proof.
  revert n acc. induction fuel as [|fuel IH]; intros n acc Hacc; simpl; auto.
  assert (Hd : ~ In "+"%char (list_ascii_of_string
                 (String (ascii_of_nat (48 + Z.to_nat (n mod 10))) acc))).
  { simpl. intros [E|E]; [|auto]. revert E. apply digit_not_plus.
    pose proof (Z.mod_pos_bound n 10). lia. }
  destruct (n <? 10); auto.
Qed.

Lemma z_to_dec_no_plus (z : Z) : ~ In "+"%char (list_ascii_of_string (z_to_dec z)).
Proof.
  unfold z_to_dec.
  assert (H := digits_aux_no_plus (Pos.size_nat (Z.to_pos (Z.abs z + 1))) (Z.abs z) EmptyString).
  destruct (z <? 0); simpl; auto.
  intros [E|E]; [discriminate | apply H; auto].
Qed.

Lemma replace_aux_plus (fuel : nat) (l : list ascii) :
  (List.length l <= fuel)%nat -> ~ In "+"%char (replace_aux fuel ["+"%char] [] l).
Proof.
  revert l. induction fuel as [|fuel IH]; intros l Hl.
  - destruct l; simpl in *; [auto | lia].
  - destruct l as [|c l]; simpl; auto.
    rewrite is_prefix_cons, is_prefix_nil, andb_true_r.
    destruct (Ascii.eqb "+" c) eqn:E.
    + simpl. apply IH. simpl in Hl. lia.
    + simpl. intros [H|H].
      * subst. rewrite Ascii.eqb_refl in E. discriminate.
      * revert H. apply IH. simpl in Hl. lia.
Qed.

Lemma py_replace_plus (s : string) : ~ In "+"%char (list_ascii_of_string (py_replace s "+" "")).
Proof.
  unfold py_replace. simpl list_ascii_of_string at 2 3. cbv iota.
  rewrite list_ascii_of_string_of_list_ascii. apply replace_aux_plus. lia.
Qed.



End CallFacts.

Module GroupFacts.
Import Req SqlText Web SqlTextFacts.
Local Open Scope Z_scope.

Lemma sql_group_eq_sym (a b : sqlval) : sql_group_eq a b = sql_group_eq b a.
Proof. destruct a, b; unfold sql_group_eq; auto; apply sql_same_sym. Qed.

Lemma add_to_group_sum (k : sqlval) (gs : list (sqlval * Z)) :
  count_sum (add_to_group k gs) = count_sum gs + 1.
Proof.
  unfold count_sum. induction gs as [|[k' n] gs IH]; simpl; [lia|].
  destruct (sql_group_eq k k'); simpl; lia.
Qed.

Lemma group_count_sum (key : call -> sqlval) (t : table) :
  count_sum (group_count key t) = Z.of_nat (List.length t).
Proof.
  unfold group_count.
  assert (H : forall acc, count_sum (fold_left (fun gs r => add_to_group (key r) gs) t acc) =
                          count_sum acc + Z.of_nat (List.length t)).
  { induction t as [|r t IH]; intros acc; simpl; [lia|].
    rewrite IH, add_to_group_sum. lia. }
  rewrite H. reflexivity.
Qed.

Lemma count_sum_perm (gs hs : list (sqlval * Z)) : Permutation gs hs -> count_sum gs = count_sum hs.
Proof.
  unfold count_sum. induction 1; simpl; lia.
Qed.

Lemma add_to_group_pos (k : sqlval) (gs : list (sqlval * Z)) :
  Forall (fun g => 1 <= snd g) gs -> Forall (fun g => 1 <= snd g) (add_to_group k gs).
Proof.
  induction 1 as [|[k' n] gs Hn Hgs IH]; simpl; [constructor; simpl; [lia | constructor]|].
  destruct (sql_group_eq k k'); constructor; simpl in *; auto; lia.
Qed.

Lemma add_to_group_keys (k x : sqlval) (gs : list (sqlval * Z)) :
  In x (map fst (add_to_group k gs)) ->
  In x (map fst gs) \/ (x = k /\ forall g, In g gs -> sql_group_eq k (fst g) = false).
Proof.
  induction gs as [|[k' n] gs IH]; simpl.
  - intros [<-|[]]. right. split; auto. intros g [].
  - destruct (sql_group_eq k k') eqn:E; simpl.
    + intros [<-|H]; auto.
    + intros [<-|H]; auto. destruct (IH H) as [H'|[Hx Hg]]; auto.
      right. split; auto. intros g [<-|Hg']; auto.
Qed.

Lemma add_to_group_distinct (k : sqlval) (gs : list (sqlval * Z)) :
  ForallOrdPairs (fun g h => sql_group_eq (fst g) (fst h) = false) gs ->
  ForallOrdPairs (fun g h => sql_group_eq (fst g) (fst h) = false) (add_to_group k gs).
Proof.
  induction gs as [|[k' n] gs IH]; intros Hd; simpl.
  - repeat constructor.
  - inversion Hd as [|g l Hhd Htl]; subst.
    destruct (sql_group_eq k k') eqn:E; constructor; auto.
    apply Forall_forall. intros h Hh.
    destruct (add_to_group_keys k (fst h) gs (in_map _ _ _ Hh)) as [Hin|[Hx _]].
    + apply in_map_iff in Hin as [h' [Hk Hh']]. rewrite Forall_forall in Hhd.
      specialize (Hhd h' Hh'). simpl in *. congruence.
    + simpl. rewrite Hx, sql_group_eq_sym. exact E.
Qed.

Lemma group_count_props (key : call -> sqlval) (t : table) :
  Forall (fun g => 1 <= snd g) (group_count key t) /\
  ForallOrdPairs (fun g h => sql_group_eq (fst g) (fst h) = false) (group_count key t).
Proof.
  unfold group_count.
  assert (H : forall acc,
             Forall (fun g => 1 <= snd g) acc /\
             ForallOrdPairs (fun g h => sql_group_eq (fst g) (fst h) = false) acc ->
             Forall (fun g => 1 <= snd g) (fold_left (fun gs r => add_to_group (key r) gs) t acc) /\
             ForallOrdPairs (fun g h => sql_group_eq (fst g) (fst h) = false)
               (fold_left (fun gs r => add_to_group (key r) gs) t acc)).
  { induction t as [|r t IH]; intros acc [H1 H2]; simpl; auto.
    apply IH. split; [apply add_to_group_pos | apply add_to_group_distinct]; auto. }
  apply H. split; constructor.
Qed.

Lemma add_to_group_keys_in (P : sqlval -> Prop) (k : sqlval) (gs : list (sqlval * Z)) :
  P k -> Forall (fun g => P (fst g)) gs -> Forall (fun g => P (fst g)) (add_to_group k gs).
Proof.
  intros Hk. induction 1 as [|[k' n] gs Hn Hgs IH]; simpl; [constructor; [exact Hk | constructor]|].
  destruct (sql_group_eq k k'); constructor; auto.
Qed.

Lemma group_count_keys_in (P : sqlval -> Prop) (key : call -> sqlval) (t : table) :
  Forall (fun r => P (key r)) t -> Forall (fun g => P (fst g)) (group_count key t).
Proof.
  intros H. unfold group_count.
  assert (G : forall gs, Forall (fun g => P (fst g)) gs ->
                Forall (fun g => P (fst g)) (fold_left (fun gs r => add_to_group (key r) gs) t gs)).
  { induction H as [|r t Hr Ht IH]; intros gs Hg; simpl; [exact Hg|].
    apply IH. apply add_to_group_keys_in; assumption. }
  apply G. constructor.
Qed.

Lemma keys_sortable_text (ks : list sqlval) :
  Forall (fun k => exists s, k = SText s) ks -> keys_sortable ks = true.
Proof.
  destruct 1 as [|k ks Hk Hks]; [reflexivity|]. destruct Hk as [s ->]. simpl.
  apply forallb_forall. intros k' Hin. rewrite Forall_forall in Hks.
  destruct (Hks k' Hin) as [s' ->]. reflexivity.
Qed.

End GroupFacts.

Module WebProps.
Import Req SqlText Web SqlTextFacts WebFacts ContactFacts LikeFacts CallFacts GroupFacts.
Local Open Scope string_scope.
Local Open Scope Z_scope.

Ltac no_fail H := unfold Web.fail in H; inversion H.

(** X1: When every contact field is a string or missing and the stripped name or phone is empty,
    add_contact answers 400 and leaves the database unchanged. *)
Theorem add_contact_requires_name_and_phone rt es data w :
  forallb (str_or_missing data) contact_fields = true ->
  stripped_field data "name" = "" \/ stripped_field data "phone_number" = "" ->
  add_contact rt es data w = (fail 400 "Name and phone number are required", w).
Proof.
  intros Hf Hn. unfold add_contact. fields_done Hf. cbn [obind].
  destruct Hn as [-> | ->]; [reflexivity | rewrite orb_true_r; reflexivity].
Qed.

(** X2: When a contact field is present but not a string, add_contact answers 500 and leaves the
    database unchanged. *)
Theorem add_contact_non_string_field rt es data w :
  (exists k, In k contact_fields /\ str_or_missing data k = false) ->
  exists e, add_contact rt es data w = (fail 500 (es e), w).
Proof.
  intros [k [Hk Hs]]. unfold add_contact.
  destruct (py_strip (jget data "name" (JStr ""))) as [n|e] eqn:E1; cbn [obind]; [|eauto].
  destruct (py_strip (jget data "phone_number" (JStr ""))) as [p|e] eqn:E2; cbn [obind]; [|eauto].
  destruct (py_strip (jget data "company" (JStr ""))) as [c|e] eqn:E3; cbn [obind]; [|eauto].
  destruct (py_strip (jget data "notes" (JStr ""))) as [no|e] eqn:E4; cbn [obind]; [|eauto].
  destruct (py_strip (jget data "tags" (JStr ""))) as [t|e] eqn:E5; cbn [obind]; [|eauto].
  exfalso.
  apply py_strip_field_done in E1, E2, E3, E4, E5.
  unfold contact_fields in Hk; simpl in Hk.
  destruct Hk as [<-|[<-|[<-|[<-|[<-|[]]]]]]; intuition congruence.
Qed.

(** X3: When a stored contact has the stripped phone as its phone number, add_contact answers
    400 and leaves the database unchanged. *)
Theorem add_contact_duplicate_phone rt es data w z :
  forallb (str_or_missing data) contact_fields = true ->
  stripped_field data "name" <> "" ->
  stripped_field data "phone_number" <> "" ->
  next_rowid (contacts_seq w) (map ct_id (contacts w)) = Done z ->
  existsb (fun r => sql_same (ct_phone_number r) (SText (stripped_field data "phone_number")))
    (contacts w) = true ->
  add_contact rt es data w = (fail 400 "Phone number already exists", w).
Proof.
  intros Hf Hn Hp Hz Hdup. unfold add_contact. fields_done Hf. cbn [obind].
  apply String.eqb_neq in Hn, Hp. rewrite Hn, Hp. cbn [orb].
  unfold insert_contact. rewrite Hz. cbn [obind text_affinity not_null].
  rewrite Hdup. reflexivity.
Qed.

(** X4: A successful add_contact appends exactly one contact, with the stripped fields and an id
    larger than every stored id, and changes neither calls nor transcripts. *)
Theorem add_contact_appends rt es data w b w' :
  add_contact rt es data w = (Json 200 b, w') ->
  exists cid,
    b = ok_body [("contact_id", JInt cid); ("message", JStr "Contact added!")] /\
    contacts w' = app (contacts w)
      [mk_contact cid (SText (stripped_field data "name"))
         (SText (stripped_field data "phone_number")) (SText (stripped_field data "company"))
         (SText (stripped_field data "notes")) (SText (stripped_field data "tags"))
         (SText (clock w)) SNull] /\
    stripped_field data "name" <> "" /\ stripped_field data "phone_number" <> "" /\
    (forall r, In r (contacts w) -> ct_id r < cid) /\
    calls w' = calls w /\ transcripts w' = transcripts w.
Proof.
  intros H. unfold add_contact in H.
  destruct (py_strip (jget data "name" (JStr ""))) as [n|e] eqn:E1; cbn [obind] in H; [|no_fail H].
  destruct (py_strip (jget data "phone_number" (JStr ""))) as [p|e] eqn:E2; cbn [obind] in H; [|no_fail H].
  destruct (py_strip (jget data "company" (JStr ""))) as [c|e] eqn:E3; cbn [obind] in H; [|no_fail H].
  destruct (py_strip (jget data "notes" (JStr ""))) as [no|e] eqn:E4; cbn [obind] in H; [|no_fail H].
  destruct (py_strip (jget data "tags" (JStr ""))) as [t|e] eqn:E5; cbn [obind] in H; [|no_fail H].
  apply py_strip_field_done in E1, E2, E3, E4, E5.
  destruct E1 as [_ ->], E2 as [_ ->], E3 as [_ ->], E4 as [_ ->], E5 as [_ ->].
  destruct (String.eqb (stripped_field data "name") "") eqn:Hn; [no_fail H|].
  destruct (String.eqb (stripped_field data "phone_number") "") eqn:Hp; [no_fail H|].
  cbn [orb] in H.
  destruct (insert_contact rt w _ _ _ _ _) as [[cid w1]|e] eqn:Ei;
    [| destruct e; no_fail H].
  inversion H; subst b w1; clear H.
  unfold insert_contact in Ei.
  destruct (next_rowid _ _) as [z|e] eqn:Ez; cbn [obind text_affinity not_null] in Ei; [|discriminate].
  destruct (existsb _ _); [discriminate|]. inversion Ei; subst; clear Ei.
  apply next_rowid_gt in Ez. destruct Ez as [Hlt _].
  exists cid. repeat split; auto.
  - apply String.eqb_neq, Hn.
  - apply String.eqb_neq, Hp.
  - intros r Hr. apply Hlt, in_map, Hr.
Qed.

(** X5: Any sequence of requests keeps contact ids and phone numbers pairwise distinct. *)
Theorem run_keeps_contacts_unique rt es qs w :
  contacts_ok (contacts w) = true -> contacts_ok (contacts (run rt es qs w)) = true.
Proof.
  revert w. induction qs as [|q qs IH]; intros w Hok; simpl; auto.
  apply IH, handle_keeps, Hok.
Qed.

(** X6: Updating an existing contact without a name or a phone number answers 500 and leaves the
    database unchanged. *)
Theorem update_contact_requires_name_and_phone rt es cid data w :
  existsb (fun r => Z.eqb (ct_id r) cid) (contacts w) = true ->
  jget data "name" JNone = JNone \/ jget data "phone_number" JNone = JNone ->
  exists e, update_contact rt es cid data w = (fail 500 (es e), w).
Proof.
  intros Hex Hnull. unfold update_contact.
  destruct Hnull as [Hn|Hn]; rewrite Hn; cbn [bind_value obind];
    split_binds; try (eexists; reflexivity);
    unfold exec_update_contact; rewrite Hex; cbn [text_affinity not_null obind];
    try (eexists; reflexivity).
  destruct (not_null _ _); cbn [obind]; eexists; reflexivity.
Qed.

(** X7: Updating an unknown id never changes the database, and answers Contact updated for a
    64-bit id and string or null fields. *)
Theorem update_contact_unknown_id rt es cid data w :
  existsb (fun r => Z.eqb (ct_id r) cid) (contacts w) = false ->
  snd (update_contact rt es cid data w) = w /\
  (i64_min <= cid <= i64_max ->
   forallb (fun k => match jfind data k with None | Some JNone | Some (JStr _) => true | _ => false end)
     contact_fields = true ->
   update_contact rt es cid data w = (Json 200 (ok_body [("message", JStr "Contact updated!")]), w)).
Proof.
  intros Hex. split.
  - unfold update_contact. split_binds; auto. unfold exec_update_contact. rewrite Hex. reflexivity.
  - intros Hid Hf. rewrite forallb_forall in Hf. unfold contact_fields in Hf. simpl In in Hf.
    unfold update_contact.
    destruct (jget_plain_bind data "name" JNone (or_introl eq_refl) (Hf "name" ltac:(tauto))) as [v1 ->].
    destruct (jget_plain_bind data "phone_number" JNone (or_introl eq_refl) (Hf "phone_number" ltac:(tauto))) as [v2 ->].
    destruct (jget_plain_bind data "company" (JStr "") (or_intror (ex_intro _ _ eq_refl)) (Hf "company" ltac:(tauto))) as [v3 ->].
    destruct (jget_plain_bind data "notes" (JStr "") (or_intror (ex_intro _ _ eq_refl)) (Hf "notes" ltac:(tauto))) as [v4 ->].
    destruct (jget_plain_bind data "tags" (JStr "") (or_intror (ex_intro _ _ eq_refl)) (Hf "tags" ltac:(tauto))) as [v5 ->].
    cbn [obind bind_value].
    replace ((i64_min <=? cid) && (cid <=? i64_max)) with true
      by (symmetry; apply andb_true_iff; split; apply Z.leb_le; lia).
    cbn [obind]. unfold exec_update_contact. rewrite Hex. reflexivity.
Qed.

(** X8: After a successful update, the contact holds the name and phone exactly as sent, and the
    empty text for a missing company, notes or tags. *)
Theorem update_contact_stores_fields rt es cid data w b w' r :
  update_contact rt es cid data w = (Json 200 b, w') ->
  In r (contacts w') -> ct_id r = cid ->
  (forall s, jget data "name" JNone = JStr s -> ct_name r = SText s) /\
  (forall s, jget data "phone_number" JNone = JStr s -> ct_phone_number r = SText s) /\
  (jfind data "company" = None -> ct_company r = SText "") /\
  (jfind data "notes" = None -> ct_notes r = SText "") /\
  (jfind data "tags" = None -> ct_tags r = SText "").
Proof.
  intros H Hr Hid. unfold update_contact in H.
  destruct (bind_value (jget data "name" JNone)) as [n|e] eqn:E1; cbn [obind] in H; [|no_fail H].
  destruct (bind_value (jget data "phone_number" JNone)) as [p|e] eqn:E2; cbn [obind] in H; [|no_fail H].
  destruct (bind_value (jget data "company" (JStr ""))) as [c|e] eqn:E3; cbn [obind] in H; [|no_fail H].
  destruct (bind_value (jget data "notes" (JStr ""))) as [no|e] eqn:E4; cbn [obind] in H; [|no_fail H].
  destruct (bind_value (jget data "tags" (JStr ""))) as [t|e] eqn:E5; cbn [obind] in H; [|no_fail H].
  destruct (bind_value (JInt cid)); cbn [obind] in H; [|no_fail H].
  destruct (exec_update_contact _ _ _ _ _ _ _) as [w1|e] eqn:Ee; [|no_fail H].
  inversion H; subst w1; clear H.
  destruct (exec_update_contact_row _ _ _ _ _ _ _ _ _ Ee Hr Hid) as (Hn & Hp & Hc & Hno & Ht).
  unfold jget in *. repeat split.
  - intros s Hs. rewrite Hs in E1. inversion E1; subst. exact Hn.
  - intros s Hs. rewrite Hs in E2. inversion E2; subst. exact Hp.
  - intros Hs. rewrite Hs in E3. inversion E3; subst. exact Hc.
  - intros Hs. rewrite Hs in E4. inversion E4; subst. exact Hno.
  - intros Hs. rewrite Hs in E5. inversion E5; subst. exact Ht.
Qed.

(** X9: Deleting a 64-bit id always answers 200 and keeps exactly the contacts with another id;
    calls and transcripts are unchanged. *)
Theorem delete_contact_removes es cid w :
  i64_min <= cid <= i64_max ->
  fst (delete_contact es cid w) = Json 200 (ok_body [("message", JStr "Contact deleted!")]) /\
  (forall r, In r (contacts (snd (delete_contact es cid w))) <-> In r (contacts w) /\ ct_id r <> cid) /\
  calls (snd (delete_contact es cid w)) = calls w /\
  transcripts (snd (delete_contact es cid w)) = transcripts w.
Proof.
  intros Hid. unfold delete_contact. cbn [bind_value].
  replace ((i64_min <=? cid) && (cid <=? i64_max)) with true
    by (symmetry; apply andb_true_iff; split; apply Z.leb_le; lia).
  simpl. repeat split; auto.
  - apply filter_In in H. tauto.
  - apply filter_In in H as [_ Hr]. apply negb_true_iff, Z.eqb_neq in Hr. exact Hr.
  - intros [Hr Hn]. apply filter_In. split; auto. apply negb_true_iff, Z.eqb_neq, Hn.
Qed.

(** X10: With an empty search, get_contacts lists every contact once, sorted by name. *)
Theorem get_contacts_all_by_name rt w :
  exists rows,
    get_contacts rt "" w = Json 200 (ok_body [("contacts", JArray (map contact_json rows))]) /\
    Permutation rows (contacts w) /\
    Sorted (fun a b => sql_compare (ct_name a) (ct_name b) <> Gt) rows.
Proof.
  exists (order_asc ct_name (contacts w)). split; [reflexivity|].
  split; [apply order_asc_perm | apply order_asc_sorted].
Qed.


(** X12: When no name is null, searching for a percent sign answers as the empty search. *)
Theorem get_contacts_percent_lists_all rt w :
  forallb (fun r => match ct_name r with SNull => false | _ => true end) (contacts w) = true ->
  get_contacts rt "%" w = get_contacts rt "" w.
Proof.
  intros Hn. unfold get_contacts. cbn [String.eqb]. cbv zeta.
  destruct (contacts w) as [|c cs] eqn:Ec; [reflexivity|].
  assert (Hl : Nat.ltb like_pattern_limit (utf8_length ("%" ++ "%" ++ "%")) = false)
    by (vm_compute; reflexivity).
  rewrite Hl. simpl String.append.
  rewrite filter_all; auto.
  intros r Hr. rewrite forallb_forall in Hn. specialize (Hn r Hr).
  rewrite like_value_all. destruct (ct_name r); easy.
Qed.

(** X30: When there is a contact, a search whose pattern [%s%] is longer than 50000 bytes
    in UTF-8 answers 500 with SQLite's error, whatever it contains. *)
Theorem get_contacts_long_pattern_fails rt s w :
  contacts w <> [] -> (like_pattern_limit < utf8_length ("%" ++ s ++ "%"))%nat ->
  get_contacts rt s w = fail 500 "LIKE or GLOB pattern too complex".
Proof.
  intros Hc Hlen. unfold get_contacts.
  destruct (String.eqb_spec s "") as [-> | Hne].
  - apply Nat.ltb_lt in Hlen. vm_compute in Hlen. discriminate Hlen.
  - cbv zeta. destruct (contacts w) as [|c cs]; [congruence|].
    apply Nat.ltb_lt in Hlen. rewrite Hlen. reflexivity.
Qed.

(** X13: A falsy message answers 400 and a null speaker answers 500; the database is unchanged
    in both cases. *)
Theorem add_transcript_message_rejects rt es cid data w :
  (truthy (jget data "message" (JStr "")) = false ->
   add_transcript_message rt es cid data w = (fail 400 "Message is required", w)) /\
  (truthy (jget data "message" (JStr "")) = true ->
   jget data "speaker" (JStr "unknown") = JNone ->
   exists e, add_transcript_message rt es cid data w = (fail 500 (es e), w)).
Proof.
  split.
  - intros Hm. unfold add_transcript_message. rewrite Hm. reflexivity.
  - intros Hm Hs. unfold add_transcript_message. rewrite Hm, Hs. cbn [negb].
    unfold insert_transcript. cbn [obind bind_value text_affinity not_null].
    split_binds; eexists; reflexivity.
Qed.

(** X14: After a successful add_transcript_message, get_transcript of the call lists the new
    line with its id, speaker, message and timestamp. *)
Theorem add_transcript_then_get rt es cid data w sp m b w' :
  jget data "speaker" (JStr "unknown") = JStr sp ->
  jget data "message" (JStr "") = JStr m ->
  add_transcript_message rt es cid data w = (Json 200 b, w') ->
  exists tid l,
    b = ok_body [("transcript_id", JInt tid)] /\
    get_transcript es cid w' = Json 200 (ok_body [("transcript", JArray l); ("call_id", JInt cid)]) /\
    In (JObject [("id", JInt tid); ("speaker", JStr sp); ("message", JStr m);
                 ("timestamp", JStr (clock w))]) l.
Proof.
  intros Hs Hm H. unfold add_transcript_message in H. rewrite Hs, Hm in H.
  destruct (negb (truthy (JStr m))); [no_fail H|].
  unfold insert_transcript in H. cbn [bind_value obind] in H.
  destruct ((i64_min <=? cid) && (cid <=? i64_max)) eqn:Hr; cbn [obind] in H; [|no_fail H].
  destruct (next_rowid _ _) as [tid|e]; cbn [obind text_affinity not_null] in H; [|no_fail H].
  injection H as <- <-.
  exists tid. eexists. split; [reflexivity|].
  unfold get_transcript. cbn [bind_value]. rewrite Hr. split; [reflexivity|].
  apply in_map_iff.
  exists (mk_transcript tid (SInt cid) (SText sp) (SText m) (SText (clock w))). split; [reflexivity|].
  eapply Permutation_in; [apply Permutation_sym, order_asc_perm|].
  apply filter_In. split.
  - simpl. apply in_or_app. right. left. reflexivity.
  - simpl. apply Z.eqb_refl.
Qed.

(** X15: Adding a transcript line does not change the transcript of any other call. *)
Theorem add_transcript_other_calls rt es cid data w k :
  k <> cid ->
  get_transcript es k (snd (add_transcript_message rt es cid data w)) = get_transcript es k w.
Proof.
  intros Hk. unfold add_transcript_message.
  destruct (negb _); [reflexivity|].
  destruct (insert_transcript rt w cid _ _) as [[tid w1]|e] eqn:Ei; [|reflexivity].
  unfold insert_transcript in Ei. cbn [bind_value] in Ei.
  destruct ((i64_min <=? cid) && (cid <=? i64_max)); cbn [obind] in Ei; [|discriminate].
  revert Ei. split_binds; intros Ei; try discriminate.
  injection Ei as <- <-. simpl snd.
  unfold get_transcript. cbn [bind_value].
  destruct ((i64_min <=? k) && (k <=? i64_max)); [|reflexivity].
  simpl transcripts. rewrite filter_app. simpl filter.
  rewrite (proj2 (Z.eqb_neq cid k)) by congruence.
  rewrite app_nil_r. reflexivity.
Qed.

(** X16: An empty phone, one without a leading plus or one shorter than 8 characters answers 400
    and leaves the database unchanged. *)
Theorem make_call_rejects_bad_phone es data env rand d now w :
  str_or_missing data "phone_number" = true ->
  stripped_field data "phone_number" = "" \/
  startswith (stripped_field data "phone_number") "+" = false \/
  (String.length (stripped_field data "phone_number") < 8)%nat ->
  exists msg, make_call es data env rand d now w = (fail 400 msg, w).
Proof.
  intros Hs Hp. unfold make_call. rewrite (py_strip_field _ _ Hs).
  destruct (String.eqb _ "") eqn:E1; [eexists; reflexivity|].
  destruct (negb (startswith _ "+")) eqn:E2; [eexists; reflexivity|].
  destruct (Nat.ltb _ 8) eqn:E3; [eexists; reflexivity|].
  exfalso. apply String.eqb_neq in E1. apply negb_false_iff in E2. apply Nat.ltb_ge in E3.
  destruct Hp as [H|[H|H]]; [contradiction | congruence | lia].
Qed.

(** X17: A phone that is present but not a string raises out of make_call and leaves the
    database unchanged. *)
Theorem make_call_non_string_phone es data env rand d now w :
  str_or_missing data "phone_number" = false ->
  exists e, make_call es data env rand d now w = (Uncaught e, w).
Proof.
  intros Hs. destruct (py_strip_field_raise _ _ Hs) as [e He].
  unfold make_call. rewrite He. eauto.
Qed.

(** X18: A valid phone without the three LiveKit settings answers 500 and leaves the database
    unchanged. *)
Theorem make_call_needs_credentials es data env rand d now w :
  str_or_missing data "phone_number" = true ->
  stripped_field data "phone_number" <> "" ->
  startswith (stripped_field data "phone_number") "+" = true ->
  (8 <= String.length (stripped_field data "phone_number"))%nat ->
  env_set (getenv env "LIVEKIT_URL") && env_set (getenv env "LIVEKIT_API_KEY") &&
    env_set (getenv env "LIVEKIT_API_SECRET") = false ->
  make_call es data env rand d now w = (fail 500 "LiveKit credentials missing in Settings", w).
Proof.
  intros Hs H1 H2 H3 Henv. unfold make_call. rewrite (py_strip_field _ _ Hs).
  apply String.eqb_neq in H1. rewrite H1, H2. cbn [negb].
  rewrite (proj2 (Nat.ltb_ge _ _) H3), Henv. reflexivity.
Qed.

(** X19: A failed dispatch leaves the database unchanged, and a 200 reply then carries success
    false and the error text. *)
Theorem make_call_dispatch_failure es data env rand e now w :
  snd (make_call es data env rand (Raise e) now w) = w /\
  (forall b, fst (make_call es data env rand (Raise e) now w) = Json 200 b ->
     b = JObject [("success", JBool false); ("error", JStr (es e))]).
Proof.
  unfold make_call.
  destruct (py_strip _) as [phone|e']; [|split; [reflexivity | discriminate]].
  destruct (String.eqb phone ""); [split; [reflexivity | unfold Web.fail; simpl; congruence]|].
  destruct (negb _); [split; [reflexivity | unfold Web.fail; simpl; congruence]|].
  destruct (Nat.ltb _ _); [split; [reflexivity | unfold Web.fail; simpl; congruence]|].
  destruct (negb _); [split; [reflexivity | unfold Web.fail; simpl; congruence]|].
  simpl. split; [reflexivity | congruence].
Qed.

(** X20: A successful make_call appends one dialing call with a fresh id, stamped with the clock of
    its INSERT. When the later update of the contacts succeeds, last_called of the contacts with
    that phone becomes the timestamp of that update; when it fails, no contact changes. Every other
    column of every contact is kept. *)
Theorem make_call_success es data env rand d now w fields w' :
  make_call es data env rand d now w = (Json 200 (ok_body fields), w') ->
  exists phone did cid r,
    d = Done did /\ phone = stripped_field data "phone_number" /\
    calls w' = app (calls w) [r] /\
    id r = cid /\ phone_number r = SText phone /\ room_name r = SText (room_name_of phone rand) /\
    dispatch_id r = SText did /\ status r = SText "dialing" /\ created_at r = SText (clock w) /\
    (forall r0, In r0 (calls w) -> id r0 < cid) /\
    fields = [("call_id", JInt cid); ("dispatch_id", JStr did);
              ("room_name", JStr (room_name_of phone rand)); ("phone_number", JStr phone);
              ("message", JStr "Call dispatched successfully! The agent is now dialing.")] /\
    Forall2 (fun c c' => ct_id c' = ct_id c /\ ct_name c' = ct_name c /\
                         ct_phone_number c' = ct_phone_number c /\ ct_company c' = ct_company c /\
                         ct_notes c' = ct_notes c /\ ct_tags c' = ct_tags c /\
                         ct_created_at c' = ct_created_at c /\
                         ct_last_called c' =
                           match now with
                           | Done ts => if sql_same (ct_phone_number c) (SText phone)
                                        then SText ts else ct_last_called c
                           | Raise _ => ct_last_called c
                           end)
      (contacts w) (contacts w').
Proof.
  intros H. unfold make_call in H.
  destruct (py_strip _) as [phone|e] eqn:Hp; [|discriminate].
  apply py_strip_field_done in Hp as [_ Hp].
  destruct (String.eqb phone ""); [no_fail H|].
  destruct (negb _); [no_fail H|].
  destruct (Nat.ltb _ _); [no_fail H|].
  destruct (negb _); [no_fail H|].
  unfold dispatch_call in H.
  destruct d as [did|e]; [|simpl in H; unfold ok_body in H; congruence].
  destruct (insert_call w phone _ did) as [[cid w1]|e] eqn:Ei;
    [|simpl in H; unfold ok_body in H; congruence].
  simpl in H. unfold ok_body in H. inversion H; subst fields w'; clear H.
  unfold insert_call in Ei.
  destruct (next_rowid _ _) as [z|e] eqn:Ez; cbn [obind] in Ei; [|discriminate].
  injection Ei as Hc Hw. subst cid w1.
  apply next_rowid_gt in Ez as [Hlt _].
  eexists phone, did, z, _. repeat split; eauto.
  all: try (intros r0 Hr0; apply Hlt, in_map, Hr0).
  all: unfold touch_contacts; destruct now as [ts|e]; simpl; clear;
       induction (contacts w) as [|c cs IH]; simpl; constructor; auto;
       try (destruct (sql_same _ _); simpl); repeat split.
Qed.

(** X21: The room name built by make_call never contains a plus sign. *)
Theorem room_name_no_plus phone rand :
  ~ In "+"%char (list_ascii_of_string (room_name_of phone rand)).
Proof.
  unfold room_name_of. rewrite !list_ascii_of_string_app.
  intros H. apply in_app_or in H as [H|H].
  - simpl in H. intuition discriminate.
  - apply in_app_or in H as [H|H].
    + revert H. apply py_replace_plus.
    + simpl in H. destruct H as [H|H]; [discriminate|]. revert H. apply z_to_dec_no_plus.
Qed.


Ltac res_binds H :=
  repeat match type of H with
         | context [Py.bind ?m _] =>
             let E := fresh "E" in destruct m eqn:E; cbn [Py.bind] in H; [|discriminate]
         end.

(** X23: The status counts of get_analytics are positive, distinct and add up to the total, and
    the daily counts add up to the week count in date order. *)
Theorem get_analytics_counts_add_up sa sd dn dnm w a :
  get_analytics sa sd dn dnm w = Ok a ->
  fold_right Z.add 0 (map snd (an_status_counts a)) = an_total_calls a /\
  Forall (fun g => 1 <= snd g) (an_status_counts a) /\
  ForallOrdPairs (fun g h => sql_group_eq (fst g) (fst h) = false) (an_status_counts a) /\
  fold_right Z.add 0 (map snd (an_daily_calls a)) = an_week_calls a /\
  Sorted (fun g h => sql_compare (fst g) (fst h) <> Gt) (an_daily_calls a).
Proof.
  intros H. unfold get_analytics in H. cbv zeta in H. res_binds H.
  destruct (negb _); [discriminate|].
  injection H as <-. cbn.
  destruct (group_count_props status (calls w)) as [Hpos Hdis].
  split; [apply group_count_sum|]. split; [exact Hpos|]. split; [exact Hdis|]. split.
  - change (count_sum (order_asc fst (group_count (fun r => sd (created_at r))
                                         (filter (Aggregate.in_last_days dnm 7) (calls w))))
            = count_rows (Aggregate.in_last_days dnm 7) (calls w)).
    rewrite (count_sum_perm _ _ (order_asc_perm _ _)), group_count_sum. reflexivity.
  - apply order_asc_sorted.
Qed.

(** X24: When every call's status is a text, whenever get_costs succeeds, get_analytics succeeds
    with the same window counts, costs and totals. *)
Theorem get_analytics_agrees_with_get_costs sa sd dn dnm w c :
  Forall (fun r => exists s, status r = SText s) (calls w) ->
  Aggregate.get_costs sa sd dn dnm (calls w) = Ok c ->
  exists a,
    get_analytics sa sd dn dnm w = Ok a /\
    an_today_cost_usd a = Aggregate.w_usd (Aggregate.today c) /\
    an_today_cost_inr a = Aggregate.w_inr (Aggregate.today c) /\
    VInt (an_today_calls a) = Aggregate.w_calls (Aggregate.today c) /\
    an_week_cost_usd a = Aggregate.w_usd (Aggregate.week c) /\
    an_week_cost_inr a = Aggregate.w_inr (Aggregate.week c) /\
    VInt (an_week_calls a) = Aggregate.w_calls (Aggregate.week c) /\
    an_month_cost_usd a = Aggregate.w_usd (Aggregate.month c) /\
    an_month_cost_inr a = Aggregate.w_inr (Aggregate.month c) /\
    VInt (an_month_calls a) = Aggregate.w_calls (Aggregate.month c) /\
    an_total_cost_usd a = Aggregate.totals_usd c /\
    an_total_cost_inr a = Aggregate.totals_inr c.
Proof.
  intros Hs H.
  assert (Hk : keys_sortable (map fst (group_count status (calls w))) = true)
    by (apply keys_sortable_text, Forall_map, (group_count_keys_in (fun v => exists s, v = SText s)), Hs).
  unfold Aggregate.get_costs, Aggregate.window_query, Aggregate.minutes_of, Aggregate.per_minute in H.
  cbv zeta in H.
  res_binds H. injection H as <-.
  repeat match goal with
         | E : context [Py.bind ?m _] |- _ =>
             let E' := fresh "E" in destruct m eqn:E'; cbn [Py.bind] in E; [|discriminate]
         end.
  repeat match goal with
         | E : Ok (Aggregate.mk_window _ _ _) = Ok _ |- _ => injection E as <-
         end.
  unfold get_analytics. cbv zeta.
  repeat match goal with
         | E : ?m = Ok _ |- context [?m] => rewrite E; cbn [Py.bind]
         end.
  rewrite Hk. cbn [negb].
  eexists. split; [reflexivity|]. cbn. repeat split.
Qed.

End WebProps.

Module WebWitnesses.
Import Req SqlText Web WebSamples WebProps.
Local Open Scope string_scope.

Lemma add_contact_requires_name_and_phone_witness :
  let d := [("name", JStr "   "); ("phone_number", JStr "+15550100")] in
  forallb (str_or_missing d) contact_fields = true /\
  (stripped_field d "name" = "" \/ stripped_field d "phone_number" = "") /\
  add_contact rt0 es0 d db_empty = (fail 400 "Name and phone number are required", db_empty).
Proof.
  intros d. split; [vm_compute; reflexivity |]. split; [left; vm_compute; reflexivity |].
  apply add_contact_requires_name_and_phone; [vm_compute; reflexivity | left; vm_compute; reflexivity].
Defined.

Lemma add_contact_non_string_field_witness :
  let d := [("name", JStr "Ann"); ("phone_number", JStr "+15550100"); ("tags", JArray [])] in
  (exists k, In k contact_fields /\ str_or_missing d k = false) /\
  exists e, add_contact rt0 es0 d db_empty = (fail 500 (es0 e), db_empty).
Proof.
  intros d. assert (H : exists k, In k contact_fields /\ str_or_missing d k = false)
    by (exists "tags"; split; [simpl; tauto | vm_compute; reflexivity]).
  split; [exact H | exact (add_contact_non_string_field rt0 es0 d db_empty H)].
Defined.

Lemma add_contact_duplicate_phone_witness :
  forallb (str_or_missing req_bob_same_phone) contact_fields = true /\
  stripped_field req_bob_same_phone "name" <> "" /\
  stripped_field req_bob_same_phone "phone_number" <> "" /\
  next_rowid (contacts_seq db_ann) (map ct_id (contacts db_ann)) = Done 2 /\
  existsb (fun r => sql_same (ct_phone_number r) (SText (stripped_field req_bob_same_phone "phone_number")))
    (contacts db_ann) = true /\
  add_contact rt0 es0 req_bob_same_phone db_ann = (fail 400 "Phone number already exists", db_ann).
Proof.
  assert (H1 : forallb (str_or_missing req_bob_same_phone) contact_fields = true) by (vm_compute; reflexivity).
  assert (H2 : stripped_field req_bob_same_phone "name" <> "") by (vm_compute; discriminate).
  assert (H3 : stripped_field req_bob_same_phone "phone_number" <> "") by (vm_compute; discriminate).
  assert (H4 : next_rowid (contacts_seq db_ann) (map ct_id (contacts db_ann)) = Done 2)
    by (vm_compute; reflexivity).
  assert (H5 : existsb (fun r => sql_same (ct_phone_number r)
                 (SText (stripped_field req_bob_same_phone "phone_number"))) (contacts db_ann) = true)
    by (vm_compute; reflexivity).
  refine (conj H1 (conj H2 (conj H3 (conj H4 (conj H5 _))))).
  exact (add_contact_duplicate_phone rt0 es0 req_bob_same_phone db_ann 2 H1 H2 H3 H4 H5).
Defined.

Lemma add_contact_appends_witness :
  exists b w',
    add_contact rt0 es0 req_ann db_empty = (Json 200 b, w') /\
    exists cid,
      b = ok_body [("contact_id", JInt cid); ("message", JStr "Contact added!")] /\
      contacts w' = app (contacts db_empty)
        [mk_contact cid (SText (stripped_field req_ann "name"))
           (SText (stripped_field req_ann "phone_number")) (SText (stripped_field req_ann "company"))
           (SText (stripped_field req_ann "notes")) (SText (stripped_field req_ann "tags"))
           (SText (clock db_empty)) SNull] /\
      stripped_field req_ann "name" <> "" /\ stripped_field req_ann "phone_number" <> "" /\
      (forall r, In r (contacts db_empty) -> ct_id r < cid) /\
      calls w' = calls db_empty /\ transcripts w' = transcripts db_empty.
Proof.
  exists (reply_body (fst (add_contact rt0 es0 req_ann db_empty))),
         (snd (add_contact rt0 es0 req_ann db_empty)).
  assert (H : add_contact rt0 es0 req_ann db_empty =
              (Json 200 (reply_body (fst (add_contact rt0 es0 req_ann db_empty))),
               snd (add_contact rt0 es0 req_ann db_empty))) by (vm_compute; reflexivity).
  split; [exact H | exact (add_contact_appends rt0 es0 req_ann db_empty _ _ H)].
Defined.


Lemma run_keeps_contacts_unique_witness :
  contacts_ok (contacts db_empty) = true /\
  contacts_ok (contacts (run rt0 es0 session db_empty)) = true.
Proof.
  assert (H : contacts_ok (contacts db_empty) = true) by reflexivity.
  split; [exact H | exact (run_keeps_contacts_unique rt0 es0 session db_empty H)].
Defined.

Lemma update_contact_requires_name_and_phone_witness :
  let d := [("phone_number", JStr "+15550100")] in
  existsb (fun r => Z.eqb (ct_id r) 1) (contacts db_ann) = true /\
  (jget d "name" JNone = JNone \/ jget d "phone_number" JNone = JNone) /\
  exists e, update_contact rt0 es0 1 d db_ann = (fail 500 (es0 e), db_ann).
Proof.
  intros d.
  assert (H1 : existsb (fun r => Z.eqb (ct_id r) 1) (contacts db_ann) = true) by reflexivity.
  assert (H2 : jget d "name" JNone = JNone \/ jget d "phone_number" JNone = JNone)
    by (left; reflexivity).
  exact (conj H1 (conj H2 (update_contact_requires_name_and_phone rt0 es0 1 d db_ann H1 H2))).
Defined.

Lemma update_contact_unknown_id_witness :
  let d := [("name", JStr "Zed"); ("phone_number", JStr "+15550199")] in
  existsb (fun r => Z.eqb (ct_id r) 7) (contacts db_ann) = false /\
  snd (update_contact rt0 es0 7 d db_ann) = db_ann /\
  (i64_min <= 7 <= i64_max ->
   forallb (fun k => match jfind d k with None | Some JNone | Some (JStr _) => true | _ => false end)
     contact_fields = true ->
   update_contact rt0 es0 7 d db_ann = (Json 200 (ok_body [("message", JStr "Contact updated!")]), db_ann)).
Proof.
  intros d.
  assert (H : existsb (fun r => Z.eqb (ct_id r) 7) (contacts db_ann) = false) by reflexivity.
  exact (conj H (update_contact_unknown_id rt0 es0 7 d db_ann H)).
Defined.



Lemma update_contact_stores_fields_witness :
  exists b w',
    update_contact rt0 es0 1 req_ann_renamed db_ann = (Json 200 b, w') /\
    In ann_renamed (contacts w') /\ ct_id ann_renamed = 1 /\
    (forall s, jget req_ann_renamed "name" JNone = JStr s -> ct_name ann_renamed = SText s) /\
    (forall s, jget req_ann_renamed "phone_number" JNone = JStr s -> ct_phone_number ann_renamed = SText s) /\
    (jfind req_ann_renamed "company" = None -> ct_company ann_renamed = SText "") /\
    (jfind req_ann_renamed "notes" = None -> ct_notes ann_renamed = SText "") /\
    (jfind req_ann_renamed "tags" = None -> ct_tags ann_renamed = SText "").
Proof.
  exists (reply_body (fst (update_contact rt0 es0 1 req_ann_renamed db_ann))),
         (snd (update_contact rt0 es0 1 req_ann_renamed db_ann)).
  assert (H : update_contact rt0 es0 1 req_ann_renamed db_ann =
              (Json 200 (reply_body (fst (update_contact rt0 es0 1 req_ann_renamed db_ann))),
               snd (update_contact rt0 es0 1 req_ann_renamed db_ann))) by (vm_compute; reflexivity).
  assert (Hin : In ann_renamed (contacts (snd (update_contact rt0 es0 1 req_ann_renamed db_ann))))
    by (vm_compute; left; reflexivity).
  assert (Hid : ct_id ann_renamed = 1) by reflexivity.
  exact (conj H (conj Hin (conj Hid (update_contact_stores_fields rt0 es0 1 req_ann_renamed db_ann
                                       _ _ ann_renamed H Hin Hid)))).
Defined.

Lemma delete_contact_removes_witness :
  i64_min <= 1 <= i64_max /\
  fst (delete_contact es0 1 db_ann) = Json 200 (ok_body [("message", JStr "Contact deleted!")]) /\
  (forall r, In r (contacts (snd (delete_contact es0 1 db_ann))) <-> In r (contacts db_ann) /\ ct_id r <> 1) /\
  calls (snd (delete_contact es0 1 db_ann)) = calls db_ann /\
  transcripts (snd (delete_contact es0 1 db_ann)) = transcripts db_ann.
Proof.
  assert (H : i64_min <= 1 <= i64_max) by (unfold i64_min, i64_max; lia).
  exact (conj H (delete_contact_removes es0 1 db_ann H)).
Defined.


Lemma get_contacts_long_pattern_fails_witness :
  contacts db_ann <> [] /\ (like_pattern_limit < utf8_length ("%" ++ long_search ++ "%"))%nat /\
  get_contacts rt0 long_search db_ann = fail 500 "LIKE or GLOB pattern too complex".
Proof.
  assert (H1 : contacts db_ann <> []) by discriminate.
  assert (H2 : (like_pattern_limit < utf8_length ("%" ++ long_search ++ "%"))%nat)
    by (apply Nat.ltb_lt; vm_compute; reflexivity).
  exact (conj H1 (conj H2 (get_contacts_long_pattern_fails rt0 long_search db_ann H1 H2))).
Defined.

Lemma get_contacts_percent_lists_all_witness :
  forallb (fun r => match ct_name r with SNull => false | _ => true end) (contacts db_ann) = true /\
  get_contacts rt0 "%" db_ann = get_contacts rt0 "" db_ann.
Proof.
  assert (H : forallb (fun r => match ct_name r with SNull => false | _ => true end) (contacts db_ann) = true)
    by reflexivity.
  exact (conj H (get_contacts_percent_lists_all rt0 db_ann H)).
Defined.


Lemma add_transcript_message_rejects_witness :
  let d := [("message", JStr "")] in
  let d' := [("speaker", JNone); ("message", JStr "Hi")] in
  truthy (jget d "message" (JStr "")) = false /\
  add_transcript_message rt0 es0 1 d db_ann = (fail 400 "Message is required", db_ann) /\
  truthy (jget d' "message" (JStr "")) = true /\ jget d' "speaker" (JStr "unknown") = JNone /\
  exists e, add_transcript_message rt0 es0 1 d' db_ann = (fail 500 (es0 e), db_ann).
Proof.
  intros d d'.
  assert (H1 : truthy (jget d "message" (JStr "")) = false) by reflexivity.
  assert (H2 : truthy (jget d' "message" (JStr "")) = true) by reflexivity.
  assert (H3 : jget d' "speaker" (JStr "unknown") = JNone) by reflexivity.
  refine (conj H1 (conj _ (conj H2 (conj H3 _)))).
  - exact (proj1 (add_transcript_message_rejects rt0 es0 1 d db_ann) H1).
  - exact (proj2 (add_transcript_message_rejects rt0 es0 1 d' db_ann) H2 H3).
Defined.

Lemma add_transcript_then_get_witness :
  exists b w',
    jget req_line "speaker" (JStr "unknown") = JStr "agent" /\
    jget req_line "message" (JStr "") = JStr "Hello, this is Krish" /\
    add_transcript_message rt0 es0 1 req_line db_ann = (Json 200 b, w') /\
    exists tid l,
      b = ok_body [("transcript_id", JInt tid)] /\
      get_transcript es0 1 w' = Json 200 (ok_body [("transcript", JArray l); ("call_id", JInt 1)]) /\
      In (JObject [("id", JInt tid); ("speaker", JStr "agent"); ("message", JStr "Hello, this is Krish");
                   ("timestamp", JStr (clock db_ann))]) l.
Proof.
  exists (reply_body (fst (add_transcript_message rt0 es0 1 req_line db_ann))),
         (snd (add_transcript_message rt0 es0 1 req_line db_ann)).
  assert (H1 : jget req_line "speaker" (JStr "unknown") = JStr "agent") by reflexivity.
  assert (H2 : jget req_line "message" (JStr "") = JStr "Hello, this is Krish") by reflexivity.
  assert (H : add_transcript_message rt0 es0 1 req_line db_ann =
              (Json 200 (reply_body (fst (add_transcript_message rt0 es0 1 req_line db_ann))),
               snd (add_transcript_message rt0 es0 1 req_line db_ann))) by (vm_compute; reflexivity).
  exact (conj H1 (conj H2 (conj H (add_transcript_then_get rt0 es0 1 req_line db_ann _ _ _ _ H1 H2 H)))).
Defined.

Lemma add_transcript_other_calls_witness :
  (2 <> 1) /\
  get_transcript es0 2 (snd (add_transcript_message rt0 es0 1 req_line db_ann)) = get_transcript es0 2 db_ann.
Proof.
  assert (H : 2 <> 1) by lia.
  exact (conj H (add_transcript_other_calls rt0 es0 1 req_line db_ann 2 H)).
Defined.

Lemma make_call_rejects_bad_phone_witness :
  let d := [("phone_number", JStr " 15550100 ")] in
  str_or_missing d "phone_number" = true /\
  (stripped_field d "phone_number" = "" \/
   startswith (stripped_field d "phone_number") "+" = false \/
   (String.length (stripped_field d "phone_number") < 8)%nat) /\
  exists msg, make_call es0 d env_full 4321 (Done "AD_1") touch_ok db_ann = (fail 400 msg, db_ann).
Proof.
  intros d.
  assert (H1 : str_or_missing d "phone_number" = true) by reflexivity.
  assert (H2 : stripped_field d "phone_number" = "" \/
               startswith (stripped_field d "phone_number") "+" = false \/
               (String.length (stripped_field d "phone_number") < 8)%nat)
    by (right; left; vm_compute; reflexivity).
  exact (conj H1 (conj H2 (make_call_rejects_bad_phone es0 d env_full 4321 (Done "AD_1") touch_ok db_ann H1 H2))).
Defined.

Lemma make_call_non_string_phone_witness :
  let d := [("phone_number", JInt 15550100)] in
  str_or_missing d "phone_number" = false /\
  exists e, make_call es0 d env_full 4321 (Done "AD_1") touch_ok db_ann = (Uncaught e, db_ann).
Proof.
  intros d.
  assert (H : str_or_missing d "phone_number" = false) by reflexivity.
  exact (conj H (make_call_non_string_phone es0 d env_full 4321 (Done "AD_1") touch_ok db_ann H)).
Defined.

Lemma make_call_needs_credentials_witness :
  let env := [("LIVEKIT_URL", "wss://x.livekit.cloud"); ("LIVEKIT_API_KEY", "")] in
  str_or_missing req_call "phone_number" = true /\
  stripped_field req_call "phone_number" <> "" /\
  startswith (stripped_field req_call "phone_number") "+" = true /\
  (8 <= String.length (stripped_field req_call "phone_number"))%nat /\
  env_set (getenv env "LIVEKIT_URL") && env_set (getenv env "LIVEKIT_API_KEY") &&
    env_set (getenv env "LIVEKIT_API_SECRET") = false /\
  make_call es0 req_call env 4321 (Done "AD_1") touch_ok db_ann =
    (fail 500 "LiveKit credentials missing in Settings", db_ann).
Proof.
  intros env.
  assert (H1 : str_or_missing req_call "phone_number" = true) by reflexivity.
  assert (H2 : stripped_field req_call "phone_number" <> "") by (vm_compute; discriminate).
  assert (H3 : startswith (stripped_field req_call "phone_number") "+" = true) by (vm_compute; reflexivity).
  assert (H4 : (8 <= String.length (stripped_field req_call "phone_number"))%nat) by (vm_compute; lia).
  assert (H5 : env_set (getenv env "LIVEKIT_URL") && env_set (getenv env "LIVEKIT_API_KEY") &&
                 env_set (getenv env "LIVEKIT_API_SECRET") = false) by (vm_compute; reflexivity).
  refine (conj H1 (conj H2 (conj H3 (conj H4 (conj H5 _))))).
  exact (make_call_needs_credentials es0 req_call env 4321 (Done "AD_1") touch_ok db_ann H1 H2 H3 H4 H5).
Defined.

Lemma make_call_dispatch_failure_witness :
  snd (make_call es0 req_call env_full 4321 (Raise (ApiError "no SIP trunk")) touch_ok db_ann) = db_ann /\
  fst (make_call es0 req_call env_full 4321 (Raise (ApiError "no SIP trunk")) touch_ok db_ann) =
    Json 200 (JObject [("success", JBool false); ("error", JStr (es0 (ApiError "no SIP trunk")))]).
Proof.
  destruct (make_call_dispatch_failure es0 req_call env_full 4321 (ApiError "no SIP trunk") touch_ok db_ann)
    as [H1 H2].
  split; [exact H1 |].
  assert (H : fst (make_call es0 req_call env_full 4321 (Raise (ApiError "no SIP trunk")) touch_ok db_ann) =
              Json 200 (reply_body (fst (make_call es0 req_call env_full 4321
                                            (Raise (ApiError "no SIP trunk")) touch_ok db_ann))))
    by (vm_compute; reflexivity).
  rewrite H. apply (f_equal (Json 200)). exact (H2 _ H).
Defined.

Lemma make_call_success_witness :
  exists fields w',
    make_call es0 req_call env_full 4321 (Done "AD_1") touch_ok db_ann = (Json 200 (ok_body fields), w') /\
    exists phone did cid r,
      Done "AD_1" = Done did /\ phone = stripped_field req_call "phone_number" /\
      calls w' = app (calls db_ann) [r] /\
      id r = cid /\ phone_number r = SText phone /\ room_name r = SText (room_name_of phone 4321) /\
      dispatch_id r = SText did /\ status r = SText "dialing" /\ created_at r = SText (clock db_ann) /\
      (forall r0, In r0 (calls db_ann) -> id r0 < cid) /\
      fields = [("call_id", JInt cid); ("dispatch_id", JStr did);
                ("room_name", JStr (room_name_of phone 4321)); ("phone_number", JStr phone);
                ("message", JStr "Call dispatched successfully! The agent is now dialing.")] /\
      Forall2 (fun c c' => ct_id c' = ct_id c /\ ct_name c' = ct_name c /\
                           ct_phone_number c' = ct_phone_number c /\ ct_company c' = ct_company c /\
                           ct_notes c' = ct_notes c /\ ct_tags c' = ct_tags c /\
                           ct_created_at c' = ct_created_at c /\
                           ct_last_called c' =
                             match touch_ok with
                             | Done ts => if sql_same (ct_phone_number c) (SText phone)
                                          then SText ts else ct_last_called c
                             | Raise _ => ct_last_called c
                             end)
        (contacts db_ann) (contacts w').
Proof.
  set (m := make_call es0 req_call env_full 4321 (Done "AD_1") touch_ok db_ann).
  exists (ok_fields (reply_body (fst m))), (snd m).
  assert (H : m = (Json 200 (ok_body (ok_fields (reply_body (fst m)))), snd m))
    by (vm_compute; reflexivity).
  exact (conj H (make_call_success es0 req_call env_full 4321 (Done "AD_1") touch_ok db_ann _ _ H)).
Defined.



Lemma get_analytics_counts_add_up_witness :
  exists a,
    get_analytics Samples.naive_sum Samples.date_of Samples.date_today Samples.days_before db_calls = Ok a /\
    fold_right Z.add 0 (map snd (an_status_counts a)) = an_total_calls a /\
    Forall (fun g => 1 <= snd g) (an_status_counts a) /\
    ForallOrdPairs (fun g h => sql_group_eq (fst g) (fst h) = false) (an_status_counts a) /\
    fold_right Z.add 0 (map snd (an_daily_calls a)) = an_week_calls a /\
    Sorted (fun g h => sql_compare (fst g) (fst h) <> Gt) (an_daily_calls a).
Proof.
  destruct (get_analytics Samples.naive_sum Samples.date_of Samples.date_today Samples.days_before db_calls)
    as [a | e] eqn:E; [| vm_compute in E; discriminate].
  exists a. exact (conj eq_refl (get_analytics_counts_add_up _ _ _ _ _ _ E)).
Defined.

Lemma get_analytics_agrees_with_get_costs_witness :
  Forall (fun r => exists s, status r = SText s) (calls db_calls) /\
  exists c,
    Aggregate.get_costs Samples.naive_sum Samples.date_of Samples.date_today Samples.days_before
      (calls db_calls) = Ok c /\
    exists a,
      get_analytics Samples.naive_sum Samples.date_of Samples.date_today Samples.days_before db_calls = Ok a /\
      an_today_cost_usd a = Aggregate.w_usd (Aggregate.today c) /\
      an_today_cost_inr a = Aggregate.w_inr (Aggregate.today c) /\
      VInt (an_today_calls a) = Aggregate.w_calls (Aggregate.today c) /\
      an_week_cost_usd a = Aggregate.w_usd (Aggregate.week c) /\
      an_week_cost_inr a = Aggregate.w_inr (Aggregate.week c) /\
      VInt (an_week_calls a) = Aggregate.w_calls (Aggregate.week c) /\
      an_month_cost_usd a = Aggregate.w_usd (Aggregate.month c) /\
      an_month_cost_inr a = Aggregate.w_inr (Aggregate.month c) /\
      VInt (an_month_calls a) = Aggregate.w_calls (Aggregate.month c) /\
      an_total_cost_usd a = Aggregate.totals_usd c /\
      an_total_cost_inr a = Aggregate.totals_inr c.
Proof.
  destruct (Aggregate.get_costs Samples.naive_sum Samples.date_of Samples.date_today Samples.days_before
              (calls db_calls)) as [c | e] eqn:E; [| vm_compute in E; discriminate].
  assert (Hs : Forall (fun r => exists s, status r = SText s) (calls db_calls))
    by (repeat constructor; eexists; reflexivity).
  split; [exact Hs|].
  exists c. exact (conj eq_refl (get_analytics_agrees_with_get_costs _ _ _ _ _ _ Hs E)).
Defined.

End WebWitnesses.

Module AgentFacts.
Import Req Web AgentCfg LikeFacts.
Local Open Scope nat_scope.

Lemma is_prefix_app_long (p a y : list ascii) :
  (List.length p <= List.length a)%nat -> is_prefix p (a ++ y) = is_prefix p a.
Proof.
  revert a. induction p as [|c p IH]; intros a Hl; [reflexivity|].
  destruct a as [|d a]; simpl in Hl; [lia|].
  simpl app. rewrite !is_prefix_cons, IH by lia. reflexivity.
Qed.

Lemma is_prefix_self (p y : list ascii) : is_prefix p (p ++ y) = true.
Proof.
  induction p as [|c p IH]; [reflexivity|]. simpl app. rewrite is_prefix_cons, IH, Ascii.eqb_refl.
  reflexivity.
Qed.

Lemma list_ascii_length (s : string) : List.length (list_ascii_of_string s) = String.length s.
Proof. induction s; simpl; congruence. Qed.

Lemma match_at_lits (kw : list ascii) (r : list item) (s : list ascii) (i op : nat) grp :
  match_at (lits kw ++ r) s i op grp =
  if is_prefix kw s then match_at r (skipn (List.length kw) s) (i + List.length kw) op grp else None.
Proof.
  revert s i. induction kw as [|c kw IH]; intros s i.
  - simpl. rewrite Nat.add_0_r. reflexivity.
  - destruct s as [|c' s]; [reflexivity|].
    rewrite is_prefix_cons. cbn [lits map app match_at].
    change (map ILit kw ++ r) with (lits kw ++ r).
    destruct (Ascii.eqb c c'); [|reflexivity]. rewrite IH. cbn [andb List.length skipn].
    rewrite Nat.add_succ_r. reflexivity.
Qed.

Lemma match_at_lits_self (kw t : list ascii) (r : list item) (i op : nat) grp :
  match_at (lits kw ++ r) (kw ++ t) i op grp = match_at r t (i + List.length kw) op grp.
Proof.
  rewrite match_at_lits, is_prefix_self. f_equal.
  rewrite skipn_app, skipn_all, Nat.sub_diag. reflexivity.
Qed.

Lemma search_skip (kw : list ascii) (r : list item) (pre y : list ascii) (p : nat) :
  first_occ_at kw (pre ++ y) p = Some (p + List.length pre)%nat ->
  search_at (lits kw ++ r) (pre ++ y) p = search_at (lits kw ++ r) y (p + List.length pre).
Proof.
  revert p. induction pre as [|c pre IH]; intros p H.
  - simpl. rewrite Nat.add_0_r. reflexivity.
  - simpl in H |- *. destruct (is_prefix kw (c :: pre ++ y)) eqn:E.
    + injection H as H. lia.
    + rewrite match_at_lits, E. rewrite IH by (rewrite H; f_equal; lia). f_equal. lia.
Qed.


Lemma first_occ_transfer (kw pre y z : list ascii) (p : nat) :
  first_occ_at kw (pre ++ kw ++ y) p = Some (p + List.length pre)%nat ->
  first_occ_at kw (pre ++ kw ++ z) p = Some (p + List.length pre)%nat.
Proof.
  revert p. induction pre as [|c pre IH]; intros p H.
  - simpl app. destruct (kw ++ z) eqn:E; simpl; rewrite <- E, is_prefix_self, Nat.add_0_r;
      reflexivity.
  - simpl app in H |- *. simpl in H |- *.
    assert (Hl : (List.length kw <= List.length (c :: pre ++ kw))%nat)
      by (simpl; rewrite length_app; lia).
    assert (Ey := is_prefix_app_long kw (c :: pre ++ kw) y Hl).
    assert (Ez := is_prefix_app_long kw (c :: pre ++ kw) z Hl).
    simpl app in Ey, Ez. rewrite <- !app_assoc in Ey, Ez. rewrite Ez. rewrite Ey in H.
    destruct (is_prefix kw (c :: pre ++ kw)).
    + injection H as H. lia.
    + replace (p + S (List.length pre))%nat with (S p + List.length pre)%nat in H |- * by lia.
      apply IH, H.
Qed.

Lemma first_occ_before (kw s : list ascii) (p k : nat) :
  first_occ_at kw s p = Some (p + k)%nat ->
  forall n, (n < k)%nat -> is_prefix kw (skipn n s) = false.
Proof.
  revert p k. induction s as [|c s IH]; intros p k H n Hn.
  - simpl in H. destruct (is_prefix kw []) eqn:E; [injection H as H; lia | discriminate].
  - simpl in H. destruct (is_prefix kw (c :: s)) eqn:E; [injection H as H; lia|].
    destruct n as [|n]; [exact E|]. simpl skipn.
    apply (IH (S p) (k - 1)); [rewrite H; f_equal; lia | lia].
Qed.

Lemma first_occ_none (kw s : list ascii) (p : nat) :
  first_occ_at kw s p = None -> forall n, is_prefix kw (skipn n s) = false.
Proof.
  revert p. induction s as [|c s IH]; intros p H n; simpl in H.
  - destruct (is_prefix kw []) eqn:E; [discriminate|]. destruct n; exact E.
  - destruct (is_prefix kw (c :: s)) eqn:E; [discriminate|].
    destruct n as [|n]; [exact E|]. apply (IH (S p) H).
Qed.

Lemma first_some_seq {B} (f : nat -> option B) (a k m : nat) (x : B) :
  (a <= m < a + k)%nat -> (forall n, (a <= n < m)%nat -> f n = None) -> f m = Some x ->
  first_some f (seq a k) = Some x.
Proof.
  revert a. induction k as [|k IH]; intros a Hm Hb Hx; [lia|].
  simpl. destruct (Nat.eq_dec a m) as [->|Hne]; [rewrite Hx; reflexivity|].
  rewrite Hb by lia. apply IH; [lia | intros n Hn; apply Hb; lia | exact Hx].
Qed.

Lemma run_len_app (f : ascii -> bool) (g t : list ascii) :
  forallb f g = true -> run_len f (g ++ t) = (List.length g + run_len f t)%nat.
Proof.
  induction g as [|c g IH]; intros H; [reflexivity|].
  simpl in H |- *. apply andb_true_iff in H as [H1 H2]. rewrite H1, IH; auto.
Qed.

Lemma run_len_all (s : list ascii) : run_len any_char s = List.length s.
Proof. induction s; simpl; congruence. Qed.

Lemma skipn_app_lt (n : nat) (g t : list ascii) :
  (n < List.length g)%nat -> skipn n (g ++ t) = nth n g "000"%char :: (skipn (S n) g ++ t).
Proof.
  revert g. induction n as [|n IH]; intros g H; destruct g as [|c g]; simpl in H |- *; try lia.
  - reflexivity.
  - apply IH. lia.
Qed.

Lemma skipn_app_len (g t : list ascii) : skipn (List.length g) (g ++ t) = t.
Proof. rewrite skipn_app, skipn_all, Nat.sub_diag. reflexivity. Qed.

Lemma forallb_nth (f : ascii -> bool) (g : list ascii) (n : nat) :
  forallb f g = true -> (n < List.length g)%nat -> f (nth n g "000"%char) = true.
Proof.
  intros H Hn. rewrite forallb_forall in H. apply H, nth_In, Hn.
Qed.

Lemma quote_not_newline (q : ascii) : is_quote q = true -> not_newline q = true.
Proof.
  unfold is_quote, not_newline. intros H.
  apply orb_true_iff in H as [H|H]; apply Ascii.eqb_eq in H; subst q; reflexivity.
Qed.

(** A lazy run of non-newlines between two quotes stops at the first quote. *)
Lemma match_lazy_quote (mn : nat) (after : list item) (g rest : list ascii) (q : ascii) (i op : nat) grp
    (res : nat -> option (nat * nat)) :
  (mn <= List.length g)%nat ->
  forallb (fun c => negb (is_quote c) && not_newline c) g = true -> is_quote q = true ->
  (forall n t, match_at after t (i + n) op grp = match_at [IOne is_quote] t (i + n) op (res n)) ->
  match_at (IRep not_newline true mn :: after) (g ++ q :: rest) i op grp =
  Some (S (i + List.length g), res (List.length g)).
Proof.
  intros Hmn Hg Hq Haft. cbn [match_at].
  assert (Hnn : forallb not_newline g = true).
  { rewrite forallb_forall in Hg |- *. intros c Hc. specialize (Hg c Hc).
    apply andb_true_iff in Hg. tauto. }
  rewrite run_len_app by exact Hnn. cbn [run_len]. rewrite (quote_not_newline q Hq).
  apply (first_some_seq _ _ _ (List.length g)).
  - lia.
  - intros n Hn. rewrite Haft, skipn_app_lt by lia. cbn [match_at].
    pose proof (forallb_nth _ g n Hg ltac:(lia)) as Hc. cbv beta in Hc.
    destruct (is_quote (nth n g "000"%char)); [discriminate | reflexivity].
  - rewrite Haft, skipn_app_len. cbn [match_at]. rewrite Hq; try (f_equal; f_equal; lia).
Qed.

(** The first three double quotes after a lazy run of any characters. *)
Lemma match_lazy_tq (after : list item) (body rest : list ascii) (i op : nat) grp
    (res : nat -> option (nat * nat)) :
  (forall n, (n < List.length body)%nat -> is_prefix triple_quote (skipn n (body ++ triple_quote ++ rest)) = false) ->
  (forall n t, match_at after t (i + n) op grp = match_at (lits triple_quote) t (i + n) op (res n)) ->
  match_at (IRep any_char true 0 :: after) (body ++ triple_quote ++ rest) i op grp =
  Some (i + List.length body + 3, res (List.length body))%nat.
Proof.
  intros Hb Haft. cbn [match_at]. rewrite run_len_all.
  apply (first_some_seq _ _ _ (List.length body)).
  - rewrite !length_app. simpl. lia.
  - intros n Hn. rewrite Haft. rewrite <- (app_nil_r (lits triple_quote)), match_at_lits.
    rewrite Hb by lia. reflexivity.
  - rewrite Haft. rewrite <- (app_nil_r (lits triple_quote)), match_at_lits, skipn_app_len,
      is_prefix_self. reflexivity.
Qed.

(** [\s*=\s*] on [" = "] followed by a non-space. *)
Lemma match_assign_tail (r : list item) (c : ascii) (t : list ascii) (i op : nat) grp x :
  is_space c = false ->
  match_at r (c :: t) (i + 3) op grp = Some x ->
  match_at ([IRep is_space false 0; ILit "="%char; IRep is_space false 0] ++ r)
    (" " :: "=" :: " " :: c :: t)%char i op grp = Some x.
Proof.
  intros Hc Hr.
  assert (Hs : is_space " "%char = true) by reflexivity.
  assert (He : is_space "="%char = false) by reflexivity.
  cbn [app match_at run_len]. rewrite Hs, He.
  cbn [seq rev app first_some skipn Nat.sub match_at Ascii.eqb run_len]. rewrite Hs, Hc.
  cbn [seq rev app first_some skipn Nat.sub].
  cbn [Bool.eqb]. replace (S (i + 1) + 1) with (i + 3) by lia. rewrite Hr. reflexivity.
Qed.

End AgentFacts.

Module AgentFacts2.
Import Req Web AgentCfg LikeFacts AgentFacts.
Local Open Scope nat_scope.

Lemma search_at_found (its : list item) (s : list ascii) (p e : nat) grp :
  match_at its s p 0 None = Some (e, grp) -> search_at its s p = Some (p, e, grp).
Proof. intros H. destruct s; simpl; rewrite H; reflexivity. Qed.

Lemma plain_escapes_app (a b : list ascii) :
  plain_escapes a = true -> plain_escapes (a ++ b) = plain_escapes b.
Proof.
  intros H. remember (List.length a) as n eqn:En. assert (Hn : List.length a <= n) by lia. clear En.
  revert a H Hn. induction n as [|n IH]; intros a H Hn.
  - destruct a; [reflexivity | simpl in Hn; lia].
  - destruct a as [|c a]; [reflexivity|]. simpl in H, Hn |- *.
    destruct (Ascii.eqb c backslash).
    + destruct a as [|d a]; [discriminate|]. apply andb_true_iff in H as [H1 H2].
      simpl. rewrite H1. apply IH; [exact H2 | simpl in Hn; lia].
    + apply IH; [exact H | lia].
Qed.

Lemma replace_single (q : ascii) (nw l : list ascii) (fuel : nat) :
  List.length l <= fuel ->
  replace_aux fuel [q] nw l = flat_map (fun c => if Ascii.eqb q c then nw else [c]) l.
Proof.
  revert l. induction fuel as [|fuel IH]; intros l Hl.
  - destruct l; [reflexivity | simpl in Hl; lia].
  - destruct l as [|c l]; [reflexivity|]. simpl in Hl.
    cbn [replace_aux flat_map]. rewrite is_prefix_cons, is_prefix_nil, andb_true_r.
    destruct (Ascii.eqb q c); rewrite IH by (simpl; lia); reflexivity.
Qed.

Lemma replace_absent (old nw l : list ascii) (fuel p : nat) :
  first_occ_at old l p = None -> replace_aux fuel old nw l = l.
Proof.
  revert l p. induction fuel as [|fuel IH]; intros l p H; [reflexivity|].
  destruct l as [|c l]; [reflexivity|]. simpl in H |- *.
  destruct (is_prefix old (c :: l)); [discriminate|]. rewrite (IH l (S p) H). reflexivity.
Qed.

Lemma escape_greeting_list (g : string) :
  list_ascii_of_string (escape_greeting g) = flat_map esc_dq (list_ascii_of_string g).
Proof.
  unfold escape_greeting, py_replace. rewrite list_ascii_of_string_of_list_ascii.
  simpl list_ascii_of_string at 2. cbv iota. apply replace_single. lia.
Qed.

Lemma escape_prompt_absent (p : string) :
  first_occ tq p = None -> escape_prompt p = p.
Proof.
  intros H. unfold escape_prompt, py_replace. simpl list_ascii_of_string at 2. cbv iota.
  unfold first_occ in H. rewrite (replace_absent _ _ _ _ _ H).
  apply string_of_list_ascii_of_string.
Qed.

Lemma plain_escapes_esc (g : list ascii) :
  forallb (fun c => negb (Ascii.eqb c backslash)) g = true -> plain_escapes (flat_map esc_dq g) = true.
Proof.
  induction g as [|c g IH]; intros H; [reflexivity|]. simpl in H. apply andb_true_iff in H as [H1 H2].
  simpl flat_map. unfold esc_dq at 1. destruct (Ascii.eqb dquote c).
  - reflexivity || (simpl; apply IH, H2).
  - apply negb_true_iff in H1. simpl. rewrite H1. apply IH, H2.
Qed.

Lemma plain_escapes_plain (g : list ascii) :
  forallb (fun c => negb (Ascii.eqb c backslash)) g = true -> plain_escapes g = true.
Proof.
  induction g as [|c g IH]; intros H; [reflexivity|]. simpl in H |- *.
  apply andb_true_iff in H as [H1 H2]. apply negb_true_iff in H1. rewrite H1. apply IH, H2.
Qed.

Lemma parse_plain (t : list ascii) (fuel : nat) :
  plain_escapes t = true -> List.length t < fuel -> parse_template fuel t = Some (map TChar t).
Proof.
  revert t. induction fuel as [|fuel IH]; intros t H Hl; [lia|].
  destruct t as [|c t]; [reflexivity|]. simpl in H, Hl.
  cbn [parse_template]. destruct (Ascii.eqb c backslash) eqn:Ec.
  - destruct t as [|d t]; [discriminate|]. apply andb_true_iff in H as [Hd H].
    apply Ascii.eqb_eq in Ec, Hd. subst c d. cbn -[parse_template].
    rewrite IH by (auto; simpl in Hl; lia). reflexivity.
  - cbn [negb]. rewrite IH by (auto; lia). reflexivity.
Qed.




Lemma expand_chars (t m : list ascii) : expand (map TChar t) m = t.
Proof. induction t as [|c t IH]; [reflexivity|]. simpl. f_equal. exact IH. Qed.

Lemma drop_spaces_snoc (l : list ascii) (c : ascii) :
  is_space c = true ->
  drop_spaces (l ++ [c]) = match drop_spaces l with [] => [] | d => d ++ [c] end.
Proof.
  intros Hc. induction l as [|x l IH]; simpl; [rewrite Hc; reflexivity|].
  destruct (is_space x); [exact IH | reflexivity].
Qed.

Lemma strip_newlines (l : list ascii) :
  strip (string_of_list_ascii (newline :: l ++ [newline])) = strip (string_of_list_ascii l).
Proof.
  unfold strip. rewrite !list_ascii_of_string_of_list_ascii. f_equal.
  assert (Hn : is_space newline = true) by reflexivity.
  cbn [drop_spaces]. rewrite Hn. rewrite drop_spaces_snoc by exact Hn.
  destruct (drop_spaces l) as [|d l'] eqn:E; [reflexivity|].
  rewrite rev_app_distr. cbn [rev app drop_spaces]. rewrite Hn. reflexivity.
Qed.

End AgentFacts2.

Module AgentFacts3.
Import Req Web AgentCfg LikeFacts AgentFacts AgentFacts2.
Local Open Scope nat_scope.

Lemma greeting_group (key : string) (P G R : list ascii) (Q : ascii) :
  let kw := list_ascii_of_string key in
  first_occ_at kw (P ++ kw ++ eq_line ++ dquote :: G ++ Q :: R) 0 = Some (List.length P) ->
  G <> [] -> forallb (fun c => negb (is_quote c) && not_newline c) G = true -> is_quote Q = true ->
  group1 (get_greeting_pat key) (P ++ kw ++ eq_line ++ dquote :: G ++ Q :: R) = Some G.
Proof.
  intros kw Hocc HG Hg Hq. unfold group1, search, get_greeting_pat, assign. rewrite <- app_assoc.
  change (lits (list_ascii_of_string key)) with (lits kw).
  rewrite search_skip by exact Hocc. simpl (0 + List.length P).
  set (i := List.length P + List.length kw).
  assert (Hm : match_at (lits kw ++ [IRep is_space false 0; ILit "="%char; IRep is_space false 0] ++
                 [IOne is_quote; IOpen; IRep not_newline true 1; IClose; IOne is_quote])
                 (kw ++ eq_line ++ dquote :: G ++ Q :: R) (List.length P) 0 None =
               Some (S (S (i + 3) + List.length G), Some (S (i + 3), S (i + 3) + List.length G))).
  { rewrite match_at_lits_self. apply match_assign_tail; [reflexivity|].
    cbn [match_at]. change (is_quote dquote) with true. cbv iota.
    apply (match_lazy_quote 1 [IClose; IOne is_quote] G R Q (S (i + 3)) (S (i + 3)) None
             (fun n => Some (S (i + 3), S (i + 3) + n))); auto.
    destruct G; [congruence | simpl; lia]. }
  rewrite (search_at_found _ _ _ _ _ Hm). unfold slice.
  replace (S (i + 3) + List.length G - S (i + 3)) with (List.length G) by lia.
  replace (S (i + 3)) with (List.length (P ++ kw ++ eq_line ++ [dquote])) by
    (unfold i; rewrite !length_app; simpl; lia).
  replace (P ++ kw ++ eq_line ++ dquote :: G ++ Q :: R) with ((P ++ kw ++ eq_line ++ [dquote]) ++ G ++ Q :: R)
    by (rewrite <- !app_assoc; reflexivity).
  rewrite skipn_app_len, firstn_app, Nat.sub_diag, firstn_all. simpl. rewrite app_nil_r. reflexivity.
Qed.

Lemma sub_greeting_first (key : string) (P O R T : list ascii) (Q : ascii) (fuel : nat) :
  let kw := list_ascii_of_string key in
  first_occ_at kw (P ++ kw ++ eq_line ++ dquote :: O ++ Q :: R) 0 = Some (List.length P) ->
  forallb (fun c => negb (is_quote c) && not_newline c) O = true -> is_quote Q = true ->
  sub_loop (S fuel) (set_greeting_pat key) (map TChar T) (P ++ kw ++ eq_line ++ dquote :: O ++ Q :: R) =
  P ++ T ++ sub_loop fuel (set_greeting_pat key) (map TChar T) R.
Proof.
  intros kw Hocc Ho Hq. cbn [sub_loop]. unfold search, set_greeting_pat, assign.
  rewrite <- app_assoc. change (lits (list_ascii_of_string key)) with (lits kw).
  rewrite search_skip by exact Hocc. simpl (0 + List.length P).
  set (i := List.length P + List.length kw).
  assert (Hm : match_at (lits kw ++ [IRep is_space false 0; ILit "="%char; IRep is_space false 0] ++
                 [IOne is_quote; IRep not_newline true 0; IOne is_quote])
                 (kw ++ eq_line ++ dquote :: O ++ Q :: R) (List.length P) 0 None =
               Some (S (S (i + 3) + List.length O), None)).
  { rewrite match_at_lits_self. apply match_assign_tail; [reflexivity|].
    cbn [match_at]. change (is_quote dquote) with true. cbv iota.
    apply (match_lazy_quote 0 [IOne is_quote] O R Q (S (i + 3)) 0 None (fun _ => None)); auto.
    lia. }
  rewrite (search_at_found _ _ _ _ _ Hm).
  rewrite firstn_app, Nat.sub_diag, firstn_all. simpl (firstn 0 _). rewrite app_nil_r.
  f_equal. rewrite expand_chars. f_equal. f_equal.
  replace (S (S (i + 3) + List.length O)) with (List.length (P ++ kw ++ eq_line ++ dquote :: O ++ [Q]))
    by (unfold i; rewrite !length_app; simpl; rewrite length_app; simpl; lia).
  replace (P ++ kw ++ eq_line ++ dquote :: O ++ Q :: R) with ((P ++ kw ++ eq_line ++ dquote :: O ++ [Q]) ++ R)
    by (rewrite <- !app_assoc; simpl; rewrite <- app_assoc; reflexivity).
  apply skipn_app_len.
Qed.

Lemma prompt_group (P B R : list ascii) :
  let kw := list_ascii_of_string "SYSTEM_PROMPT" in
  first_occ_at kw (P ++ kw ++ eq_line ++ triple_quote ++ B ++ triple_quote ++ R) 0 = Some (List.length P) ->
  (forall n, n < List.length B -> is_prefix triple_quote (skipn n (B ++ triple_quote ++ R)) = false) ->
  group1 get_prompt_pat (P ++ kw ++ eq_line ++ triple_quote ++ B ++ triple_quote ++ R) = Some B.
Proof.
  intros kw Hocc HB. unfold group1, search, get_prompt_pat, assign. rewrite <- app_assoc.
  change (lits (list_ascii_of_string "SYSTEM_PROMPT")) with (lits kw).
  rewrite search_skip by exact Hocc. simpl (0 + List.length P).
  set (i := List.length P + List.length kw).
  assert (Hm : match_at (lits kw ++ [IRep is_space false 0; ILit "="%char; IRep is_space false 0] ++
                 lits triple_quote ++ [IOpen; IRep any_char true 0; IClose] ++ lits triple_quote)
                 (kw ++ eq_line ++ triple_quote ++ B ++ triple_quote ++ R) (List.length P) 0 None =
               Some (i + 3 + 3 + List.length B + 3, Some (i + 3 + 3, i + 3 + 3 + List.length B))).
  { rewrite match_at_lits_self. apply match_assign_tail; [reflexivity|].
    change (dquote :: dquote :: dquote :: B ++ triple_quote ++ R) with (triple_quote ++ B ++ triple_quote ++ R).
    fold i.
    rewrite match_at_lits_self. cbn [match_at List.length triple_quote].
    apply (match_lazy_tq (IClose :: lits triple_quote) B R (i + 3 + 3) (i + 3 + 3) None
             (fun n => Some (i + 3 + 3, i + 3 + 3 + n))); auto. }
  rewrite (search_at_found _ _ _ _ _ Hm). unfold slice.
  replace (i + 3 + 3 + List.length B - (i + 3 + 3)) with (List.length B) by lia.
  replace (i + 3 + 3) with (List.length (P ++ kw ++ eq_line ++ triple_quote)) by
    (unfold i; rewrite !length_app; simpl; lia).
  replace (P ++ kw ++ eq_line ++ triple_quote ++ B ++ triple_quote ++ R)
    with ((P ++ kw ++ eq_line ++ triple_quote) ++ B ++ triple_quote ++ R)
    by (rewrite <- !app_assoc; reflexivity).
  rewrite skipn_app_len, firstn_app, Nat.sub_diag, firstn_all. simpl. rewrite app_nil_r. reflexivity.
Qed.

Lemma sub_prompt_first (P O R T : list ascii) (fuel : nat) :
  let kw := list_ascii_of_string "SYSTEM_PROMPT" in
  first_occ_at kw (P ++ kw ++ eq_line ++ triple_quote ++ O ++ triple_quote ++ R) 0 = Some (List.length P) ->
  (forall n, n < List.length O -> is_prefix triple_quote (skipn n (O ++ triple_quote ++ R)) = false) ->
  sub_loop (S fuel) set_prompt_pat (map TChar T) (P ++ kw ++ eq_line ++ triple_quote ++ O ++ triple_quote ++ R) =
  P ++ T ++ sub_loop fuel set_prompt_pat (map TChar T) R.
Proof.
  intros kw Hocc HO. cbn [sub_loop]. unfold search, set_prompt_pat, assign.
  rewrite <- app_assoc. change (lits (list_ascii_of_string "SYSTEM_PROMPT")) with (lits kw).
  rewrite search_skip by exact Hocc. simpl (0 + List.length P).
  set (i := List.length P + List.length kw).
  assert (Hm : match_at (lits kw ++ [IRep is_space false 0; ILit "="%char; IRep is_space false 0] ++
                 lits triple_quote ++ [IRep any_char true 0] ++ lits triple_quote)
                 (kw ++ eq_line ++ triple_quote ++ O ++ triple_quote ++ R) (List.length P) 0 None =
               Some (i + 3 + 3 + List.length O + 3, None)).
  { rewrite match_at_lits_self. apply match_assign_tail; [reflexivity|].
    change (dquote :: dquote :: dquote :: O ++ triple_quote ++ R) with (triple_quote ++ O ++ triple_quote ++ R).
    fold i.
    rewrite match_at_lits_self. cbn [match_at List.length triple_quote].
    apply (match_lazy_tq (lits triple_quote) O R (i + 3 + 3) 0 None (fun _ => None)); auto. }
  rewrite (search_at_found _ _ _ _ _ Hm).
  rewrite firstn_app, Nat.sub_diag, firstn_all. simpl (firstn 0 _). rewrite app_nil_r.
  f_equal. rewrite expand_chars. f_equal.
  replace (i + 3 + 3 + List.length O + 3) with (List.length (P ++ kw ++ eq_line ++ triple_quote ++ O ++ triple_quote))
    by (unfold i; rewrite !length_app; simpl; lia).
  replace (P ++ kw ++ eq_line ++ triple_quote ++ O ++ triple_quote ++ R)
    with ((P ++ kw ++ eq_line ++ triple_quote ++ O ++ triple_quote) ++ R)
    by (rewrite <- !app_assoc; reflexivity).
  f_equal. apply skipn_app_len.
Qed.

(** Three double quotes cannot straddle a newline. *)
Lemma no_tq_around_newline (p y : list ascii) :
  first_occ_at triple_quote p 0 = None ->
  forall n, n < S (List.length p) + 1 ->
  is_prefix triple_quote (skipn n (newline :: p ++ newline :: y)) = false.
Proof.
  intros Hp n Hn. destruct n as [|n]; [cbn [skipn]; unfold triple_quote; rewrite is_prefix_cons; reflexivity|].
  simpl skipn.
  destruct (Nat.lt_ge_cases n (List.length p)) as [Hlt|Hge].
  - rewrite skipn_app. replace (n - List.length p) with 0 by lia. simpl skipn at 2.
    pose proof (first_occ_none _ _ _ Hp n) as Hno.
    remember (skipn n p) as a eqn:Ea.
    destruct (Nat.le_gt_cases 3 (List.length a)) as [H3|H3].
    + rewrite is_prefix_app_long by exact H3. exact Hno.
    + unfold triple_quote. destruct a as [|x [|y' [|z a]]]; simpl in H3; try lia; simpl app;
        rewrite !is_prefix_cons; [reflexivity | destruct (Ascii.eqb dquote x); reflexivity |
        destruct (Ascii.eqb dquote x), (Ascii.eqb dquote y'); reflexivity].
  - replace n with (List.length p) by lia. rewrite skipn_app_len. unfold triple_quote; rewrite is_prefix_cons; reflexivity.
Qed.

End AgentFacts3.

Module AgentFacts4.
Import Req Web AgentCfg LikeFacts AgentFacts AgentFacts2 AgentFacts3.
Local Open Scope nat_scope.

Lemma assign_line_list (pre key g rest : string) (q : ascii) :
  list_ascii_of_string (pre ++ key ++ " = " ++ dq ++ g ++ String q rest)%string =
  list_ascii_of_string pre ++ list_ascii_of_string key ++ eq_line ++ dquote ::
    list_ascii_of_string g ++ q :: list_ascii_of_string rest.
Proof. rewrite !list_ascii_of_string_app. reflexivity. Qed.

Lemma prompt_line_list (pre body rest : string) :
  list_ascii_of_string (pre ++ "SYSTEM_PROMPT" ++ " = " ++ tq ++ body ++ tq ++ rest)%string =
  list_ascii_of_string pre ++ list_ascii_of_string "SYSTEM_PROMPT" ++ eq_line ++ triple_quote ++
    list_ascii_of_string body ++ triple_quote ++ list_ascii_of_string rest.
Proof. rewrite !list_ascii_of_string_app. reflexivity. Qed.

Lemma greeting_template_list (key g : string) :
  list_ascii_of_string (greeting_template key g) =
  list_ascii_of_string key ++ eq_line ++ dquote :: list_ascii_of_string g ++ [dquote].
Proof. unfold greeting_template. rewrite !list_ascii_of_string_app. reflexivity. Qed.

Lemma prompt_template_list (p : string) :
  list_ascii_of_string (prompt_template p) =
  list_ascii_of_string "SYSTEM_PROMPT" ++ eq_line ++ triple_quote ++ newline ::
    list_ascii_of_string p ++ newline :: triple_quote.
Proof. unfold prompt_template. rewrite !list_ascii_of_string_app. reflexivity. Qed.

Lemma esc_dq_id (l : list ascii) :
  forallb (fun c => negb (is_quote c) && not_newline c) l = true -> flat_map esc_dq l = l.
Proof.
  induction l as [|c l IH]; intros H; [reflexivity|]. simpl in H. apply andb_true_iff in H as [H1 H2].
  simpl flat_map. unfold esc_dq at 1. destruct (Ascii.eqb_spec dquote c) as [<-|_].
  - discriminate H1.
  - simpl. rewrite IH by exact H2. reflexivity.
Qed.

Lemma greeting_line_assoc (P K T X : list ascii) :
  P ++ (K ++ eq_line ++ dquote :: T ++ [dquote]) ++ X = P ++ K ++ eq_line ++ dquote :: T ++ dquote :: X.
Proof. rewrite <- !app_assoc. simpl. rewrite <- app_assoc. reflexivity. Qed.

Lemma prompt_line_assoc (P K T X : list ascii) :
  P ++ (K ++ eq_line ++ triple_quote ++ newline :: T ++ newline :: triple_quote) ++ X =
  P ++ K ++ eq_line ++ triple_quote ++ (newline :: T ++ [newline]) ++ triple_quote ++ X.
Proof. rewrite <- !app_assoc. simpl. rewrite <- !app_assoc. reflexivity. Qed.

Lemma greeting_parse (key g : string) (fuel : nat) :
  forallb (fun c => negb (Ascii.eqb c backslash)) (list_ascii_of_string key) = true ->
  forallb (fun c => negb (Ascii.eqb c backslash)) (list_ascii_of_string g) = true ->
  List.length (list_ascii_of_string (greeting_template key (escape_greeting g))) < fuel ->
  parse_template fuel (list_ascii_of_string (greeting_template key (escape_greeting g))) =
  Some (map TChar (list_ascii_of_string (greeting_template key (escape_greeting g)))).
Proof.
  intros Hk Hg Hl. apply parse_plain; [|exact Hl].
  rewrite greeting_template_list, escape_greeting_list.
  rewrite plain_escapes_app by (apply plain_escapes_plain, Hk).
  change (plain_escapes ([" "; "="; " "; dquote]%char ++ flat_map esc_dq (list_ascii_of_string g) ++ [dquote]) = true).
  rewrite plain_escapes_app by reflexivity.
  rewrite plain_escapes_app by (apply plain_escapes_esc, Hg). reflexivity.
Qed.

Lemma prompt_parse (p : string) (fuel : nat) :
  forallb (fun c => negb (Ascii.eqb c backslash)) (list_ascii_of_string p) = true ->
  List.length (list_ascii_of_string (prompt_template p)) < fuel ->
  parse_template fuel (list_ascii_of_string (prompt_template p)) =
  Some (map TChar (list_ascii_of_string (prompt_template p))).
Proof.
  intros Hp Hl. apply parse_plain; [|exact Hl].
  rewrite prompt_template_list. rewrite plain_escapes_app by reflexivity.
  change (plain_escapes ([" "; "="; " "; dquote; dquote; dquote; newline]%char ++
            list_ascii_of_string p ++ [newline; dquote; dquote; dquote]) = true).
  rewrite plain_escapes_app by reflexivity.
  rewrite plain_escapes_app by (apply plain_escapes_plain, Hp). reflexivity.
Qed.


Lemma skip_step (data : jdict) (key : string) escape pat template (s : list ascii) :
  jfind data key = None -> save_step data key escape pat template s = Done s.
Proof. intros H. unfold save_step. rewrite H. reflexivity. Qed.

Lemma greeting_step (data : jdict) (dkey key g : string) (P A R : list ascii) (Q : ascii) :
  let kw := list_ascii_of_string key in
  jfind data dkey = Some (JStr g) ->
  forallb (fun c => negb (Ascii.eqb c backslash)) kw = true ->
  forallb (fun c => negb (Ascii.eqb c backslash)) (list_ascii_of_string g) = true ->
  first_occ_at kw (P ++ kw ++ eq_line ++ dquote :: A ++ Q :: R) 0 = Some (List.length P) ->
  forallb (fun c => negb (is_quote c) && not_newline c) A = true -> is_quote Q = true ->
  exists fuel,
    save_step data dkey escape_greeting (set_greeting_pat key) (greeting_template key)
      (P ++ kw ++ eq_line ++ dquote :: A ++ Q :: R) =
    Done (P ++ list_ascii_of_string (greeting_template key (escape_greeting g)) ++
          sub_loop fuel (set_greeting_pat key)
            (map TChar (list_ascii_of_string (greeting_template key (escape_greeting g)))) R).
Proof.
  intros kw Hd Hk Hg Hocc HA HQ. unfold save_step. rewrite Hd. unfold re_sub.
  rewrite greeting_parse by (auto; lia).
  exists (List.length (P ++ kw ++ eq_line ++ dquote :: A ++ Q :: R)).
  rewrite sub_greeting_first by auto. reflexivity.
Qed.

Lemma prompt_step (data : jdict) (p : string) (P O R : list ascii) :
  let kw := list_ascii_of_string "SYSTEM_PROMPT" in
  jfind data "system_prompt" = Some (JStr p) ->
  forallb (fun c => negb (Ascii.eqb c backslash)) (list_ascii_of_string p) = true ->
  first_occ tq p = None ->
  first_occ_at kw (P ++ kw ++ eq_line ++ triple_quote ++ O ++ triple_quote ++ R) 0 = Some (List.length P) ->
  (forall n, n < List.length O -> is_prefix triple_quote (skipn n (O ++ triple_quote ++ R)) = false) ->
  exists fuel,
    save_step data "system_prompt" escape_prompt set_prompt_pat prompt_template
      (P ++ kw ++ eq_line ++ triple_quote ++ O ++ triple_quote ++ R) =
    Done (P ++ list_ascii_of_string (prompt_template p) ++
          sub_loop fuel set_prompt_pat (map TChar (list_ascii_of_string (prompt_template p))) R).
Proof.
  intros kw Hd Hp Htq Hocc HO. unfold save_step. rewrite Hd, (escape_prompt_absent p Htq).
  unfold re_sub. rewrite prompt_parse by (auto; lia).
  exists (List.length (P ++ kw ++ eq_line ++ triple_quote ++ O ++ triple_quote ++ R)).
  rewrite sub_prompt_first by auto. reflexivity.
Qed.

Lemma tq_free_body (O R : list ascii) :
  first_occ_at triple_quote (O ++ triple_quote) 0 = Some (List.length O) ->
  forall n, n < List.length O -> is_prefix triple_quote (skipn n (O ++ triple_quote ++ R)) = false.
Proof.
  intros H n Hn. rewrite app_assoc, skipn_app.
  replace (n - List.length (O ++ triple_quote)) with 0 by (rewrite length_app; simpl; lia).
  cbn [skipn]. rewrite is_prefix_app_long by (rewrite length_skipn, length_app; simpl; lia).
  exact (first_occ_before _ _ 0 (List.length O) H n Hn).
Qed.


End AgentFacts4.

Module AgentFacts5.
Import Req Web AgentCfg.

Lemma universal_newlines_no_cr (b : bool) (l : list ascii) :
  Forall (fun c => c <> carriage_return) (universal_newlines b l).
Proof.
  revert b. induction l as [|c l IH]; intros b; simpl; [constructor|].
  destruct (Ascii.eqb_spec c carriage_return) as [_|Hc].
  - constructor; [discriminate | apply IH].
  - destruct (b && Ascii.eqb c newline); [apply IH | constructor; [exact Hc | apply IH]].
Qed.

Lemma read_text_no_cr (raw : string) :
  Forall (fun c => c <> carriage_return) (list_ascii_of_string (read_text raw)).
Proof. unfold read_text. rewrite list_ascii_of_string_of_list_ascii. apply universal_newlines_no_cr. Qed.

Lemma universal_newlines_id (l : list ascii) :
  Forall (fun c => c <> carriage_return) l -> universal_newlines false l = l.
Proof.
  induction 1 as [|c l Hc Hl IH]; simpl; [reflexivity|].
  destruct (Ascii.eqb_spec c carriage_return) as [E|_]; [contradiction|].
  simpl andb. cbv iota. rewrite IH. reflexivity.
Qed.

(** Text without carriage returns is read back as written. *)
Lemma read_text_id (l : list ascii) :
  Forall (fun c => c <> carriage_return) l -> read_text (string_of_list_ascii l) = string_of_list_ascii l.
Proof.
  intros H. unfold read_text. rewrite list_ascii_of_string_of_list_ascii, universal_newlines_id by exact H.
  reflexivity.
Qed.

Lemma no_cr_of_forallb (l : list ascii) :
  forallb (fun c => negb (Ascii.eqb c carriage_return)) l = true ->
  Forall (fun c => c <> carriage_return) l.
Proof.
  intros H. apply Forall_forall. intros c Hc. rewrite forallb_forall in H. specialize (H c Hc).
  apply negb_true_iff, Ascii.eqb_neq in H. exact H.
Qed.

Lemma Forall_firstn_of {A} (P : A -> Prop) (n : nat) (l : list A) : Forall P l -> Forall P (firstn n l).
Proof. intros H. rewrite <- (firstn_skipn n l) in H. apply Forall_app in H. tauto. Qed.

Lemma Forall_skipn_of {A} (P : A -> Prop) (n : nat) (l : list A) : Forall P l -> Forall P (skipn n l).
Proof. intros H. rewrite <- (firstn_skipn n l) in H. apply Forall_app in H. tauto. Qed.

(** [re.sub] with a template of plain characters only writes characters of
    the text and of the template. *)
Lemma sub_loop_forall (P : ascii -> Prop) (fuel : nat) (its : list item) (T s : list ascii) :
  Forall P s -> Forall P T -> Forall P (sub_loop fuel its (map TChar T) s).
Proof.
  revert s. induction fuel as [|fuel IH]; intros s Hs HT; simpl; [exact Hs|].
  destruct (search its s) as [[[a b] g]|]; [|exact Hs].
  apply Forall_app; split; [apply Forall_firstn_of, Hs|].
  apply Forall_app; split; [rewrite AgentFacts2.expand_chars; exact HT|].
  apply IH; [apply Forall_skipn_of, Hs | exact HT].
Qed.

End AgentFacts5.

Module AgentProps.
Import Req Web AgentCfg LikeFacts AgentFacts AgentFacts2 AgentFacts3 AgentFacts4 AgentFacts5.
Local Open Scope string_scope.

(** X25: get_agent_config reads the initial greeting from the first assignment of the key up to
    the first quote after the opening one. *)
Lemma get_agent_config_greeting_to_first_quote (pre g rest : string) (q : ascii) :
  first_occ "INITIAL_GREETING" (pre ++ "INITIAL_GREETING" ++ " = " ++ dq ++ g ++ String q rest) =
    Some (String.length pre) ->
  g <> "" ->
  forallb (fun c => negb (is_quote c) && not_newline c) (list_ascii_of_string g) = true ->
  is_quote q = true ->
  exists sp fg,
    get_agent_config (pre ++ "INITIAL_GREETING" ++ " = " ++ dq ++ g ++ String q rest) =
    Json 200 (ok_body [("config", JObject [("system_prompt", JStr sp); ("initial_greeting", JStr g);
                                           ("fallback_greeting", JStr fg)])]).
Proof.
  intros Hocc Hne Hg Hq. unfold first_occ in Hocc. rewrite assign_line_list, <- list_ascii_length in Hocc.
  unfold get_agent_config. cbv zeta. rewrite assign_line_list.
  rewrite (greeting_group "INITIAL_GREETING" _ _ _ _ Hocc); auto.
  - cbv beta iota. rewrite string_of_list_ascii_of_string. do 2 eexists. reflexivity.
  - destruct g; [congruence | discriminate].
Qed.


(** X27: When config.py is read in universal newlines mode, after saving an initial greeting
    without quotes, newlines, carriage returns or backslashes, get_agent_config reads it back
    from the file written. *)
Lemma save_then_get_greeting (es : err -> string) (data : jdict) (raw pre a tail g : string) (q : ascii) :
  jfind data "system_prompt" = None -> jfind data "fallback_greeting" = None ->
  jfind data "initial_greeting" = Some (JStr g) ->
  g <> "" ->
  forallb (fun c => negb (is_quote c) && not_newline c && negb (Ascii.eqb c backslash) &&
                    negb (Ascii.eqb c carriage_return))
    (list_ascii_of_string g) = true ->
  read_text raw = pre ++ "INITIAL_GREETING" ++ " = " ++ dq ++ a ++ String q tail ->
  first_occ "INITIAL_GREETING" (read_text raw) = Some (String.length pre) ->
  forallb (fun c => negb (is_quote c) && not_newline c) (list_ascii_of_string a) = true ->
  is_quote q = true ->
  exists raw',
    save_agent_config_file es data raw = (saved_message, raw') /\
    exists sp fg,
      get_agent_config_file raw' =
      Json 200 (ok_body [("config", JObject [("system_prompt", JStr sp); ("initial_greeting", JStr g);
                                             ("fallback_greeting", JStr fg)])]).
Proof.
  intros Hsp Hfb Hig Hne Hg Hraw Hocc Ha Hq.
  pose proof (read_text_no_cr raw) as Hcr. rewrite Hraw in Hocc, Hcr.
  unfold first_occ in Hocc. rewrite assign_line_list, <- list_ascii_length in Hocc.
  rewrite assign_line_list in Hcr.
  apply Forall_app in Hcr as [Hpre Hcr]. apply Forall_app in Hcr as [_ Hcr].
  apply Forall_app in Hcr as [_ Hcr]. apply Forall_cons_iff in Hcr as [_ Hcr].
  apply Forall_app in Hcr as [_ Hcr]. apply Forall_cons_iff in Hcr as [_ Htail].
  assert (Hg1 : forallb (fun c => negb (is_quote c) && not_newline c) (list_ascii_of_string g) = true).
  { rewrite forallb_forall in Hg |- *. intros c Hc. specialize (Hg c Hc).
    apply andb_true_iff in Hg as [Hg _]. apply andb_true_iff in Hg as [Hg _]. exact Hg. }
  assert (Hg2 : forallb (fun c => negb (Ascii.eqb c backslash)) (list_ascii_of_string g) = true).
  { rewrite forallb_forall in Hg |- *. intros c Hc. specialize (Hg c Hc).
    apply andb_true_iff in Hg as [Hg _]. apply andb_true_iff in Hg as [_ Hg]. exact Hg. }
  assert (Hg3 : Forall (fun c => c <> carriage_return) (list_ascii_of_string g)).
  { apply no_cr_of_forallb. rewrite forallb_forall in Hg |- *. intros c Hc. specialize (Hg c Hc).
    apply andb_true_iff in Hg as [_ Hg]. exact Hg. }
  destruct (greeting_step data "initial_greeting" "INITIAL_GREETING" g _ _ _ _ Hig ltac:(reflexivity) Hg2 Hocc Ha Hq)
    as [fuel Hf].
  set (T := list_ascii_of_string (greeting_template "INITIAL_GREETING" (escape_greeting g))) in Hf.
  set (X := sub_loop fuel (set_greeting_pat "INITIAL_GREETING") (map TChar T) (list_ascii_of_string tail)) in Hf.
  assert (HT : Forall (fun c => c <> carriage_return) T).
  { unfold T. rewrite greeting_template_list, escape_greeting_list, (esc_dq_id _ Hg1).
    apply Forall_app; split; [apply no_cr_of_forallb; reflexivity|].
    apply Forall_app; split; [apply no_cr_of_forallb; reflexivity|].
    apply Forall_cons; [apply Ascii.eqb_neq; reflexivity|].
    apply Forall_app; split; [exact Hg3|].
    apply no_cr_of_forallb; reflexivity. }
  assert (Hall : Forall (fun c => c <> carriage_return) (list_ascii_of_string pre ++ T ++ X)).
  { apply Forall_app; split; [exact Hpre|]. apply Forall_app; split; [exact HT|].
    apply sub_loop_forall; [exact Htail | exact HT]. }
  exists (string_of_list_ascii (list_ascii_of_string pre ++ T ++ X)). split.
  - unfold save_agent_config_file, save_content. cbv zeta. rewrite Hraw, assign_line_list.
    rewrite (skip_step _ _ _ _ _ _ Hsp). cbn [obind]. rewrite Hf. cbn [obind].
    rewrite (skip_step _ _ _ _ _ _ Hfb). reflexivity.
  - unfold get_agent_config_file. rewrite (read_text_id _ Hall).
    unfold get_agent_config. cbv zeta. rewrite list_ascii_of_string_of_list_ascii.
    unfold T. rewrite greeting_template_list, escape_greeting_list, (esc_dq_id _ Hg1), greeting_line_assoc.
    rewrite (greeting_group "INITIAL_GREETING" _ _ _ _ (first_occ_transfer _ _ _ _ 0 Hocc)); auto.
    + cbv beta iota. rewrite string_of_list_ascii_of_string. do 2 eexists. reflexivity.
    + destruct g; [congruence | discriminate].
Qed.


(** X29: When config.py is read in universal newlines mode, after saving a system prompt
    without backslashes, carriage returns or triple quotes, get_agent_config reads back the
    prompt stripped from the file written. *)
Lemma save_then_get_system_prompt (es : err -> string) (data : jdict) (raw pre old rest p : string) :
  jfind data "system_prompt" = Some (JStr p) ->
  jfind data "initial_greeting" = None -> jfind data "fallback_greeting" = None ->
  read_text raw = pre ++ "SYSTEM_PROMPT" ++ " = " ++ tq ++ old ++ tq ++ rest ->
  first_occ "SYSTEM_PROMPT" (read_text raw) = Some (String.length pre) ->
  first_occ tq (old ++ tq) = Some (String.length old) ->
  forallb (fun c => negb (Ascii.eqb c backslash) && negb (Ascii.eqb c carriage_return))
    (list_ascii_of_string p) = true ->
  first_occ tq p = None ->
  exists raw',
    save_agent_config_file es data raw = (saved_message, raw') /\
    exists ig fg,
      get_agent_config_file raw' =
      Json 200 (ok_body [("config", JObject [("system_prompt", JStr (strip p));
                                             ("initial_greeting", JStr ig);
                                             ("fallback_greeting", JStr fg)])]).
Proof.
  intros Hsp Hig Hfb Hraw Hocc Hold Hpc Htq.
  pose proof (read_text_no_cr raw) as Hcr. rewrite Hraw in Hocc, Hcr.
  unfold first_occ in Hocc, Hold.
  rewrite prompt_line_list, <- list_ascii_length in Hocc.
  rewrite list_ascii_of_string_app, <- list_ascii_length in Hold.
  rewrite prompt_line_list in Hcr.
  apply Forall_app in Hcr as [Hpre Hcr]. do 5 (apply Forall_app in Hcr as [_ Hcr]).
  rename Hcr into Hrest.
  assert (Hp : forallb (fun c => negb (Ascii.eqb c backslash)) (list_ascii_of_string p) = true).
  { rewrite forallb_forall in Hpc |- *. intros c Hc. specialize (Hpc c Hc).
    apply andb_true_iff in Hpc as [Hpc _]. exact Hpc. }
  assert (Hp2 : Forall (fun c => c <> carriage_return) (list_ascii_of_string p)).
  { apply no_cr_of_forallb. rewrite forallb_forall in Hpc |- *. intros c Hc. specialize (Hpc c Hc).
    apply andb_true_iff in Hpc as [_ Hpc]. exact Hpc. }
  destruct (prompt_step data p _ _ (list_ascii_of_string rest) Hsp Hp Htq Hocc
              (tq_free_body _ _ Hold)) as [fuel Hf].
  set (T := list_ascii_of_string (prompt_template p)) in Hf.
  set (X := sub_loop fuel set_prompt_pat (map TChar T) (list_ascii_of_string rest)) in Hf.
  assert (HT : Forall (fun c => c <> carriage_return) T).
  { unfold T. rewrite prompt_template_list.
    apply Forall_app; split; [apply no_cr_of_forallb; reflexivity|].
    apply Forall_app; split; [apply no_cr_of_forallb; reflexivity|].
    apply Forall_app; split; [apply no_cr_of_forallb; reflexivity|].
    apply Forall_cons; [apply Ascii.eqb_neq; reflexivity|].
    apply Forall_app; split; [exact Hp2|].
    apply no_cr_of_forallb; reflexivity. }
  assert (Hall : Forall (fun c => c <> carriage_return) (list_ascii_of_string pre ++ T ++ X)).
  { apply Forall_app; split; [exact Hpre|]. apply Forall_app; split; [exact HT|].
    apply sub_loop_forall; [exact Hrest | exact HT]. }
  exists (string_of_list_ascii (list_ascii_of_string pre ++ T ++ X)). split.
  - unfold save_agent_config_file, save_content. cbv zeta. rewrite Hraw, prompt_line_list.
    rewrite Hf. cbn [obind].
    rewrite (skip_step _ _ _ _ _ _ Hig). cbn [obind].
    rewrite (skip_step _ _ _ _ _ _ Hfb). reflexivity.
  - unfold get_agent_config_file. rewrite (read_text_id _ Hall).
    unfold get_agent_config. cbv zeta. rewrite list_ascii_of_string_of_list_ascii.
    unfold T. rewrite prompt_template_list, prompt_line_assoc.
    rewrite (prompt_group _ _ _ (first_occ_transfer _ _ _ _ 0 Hocc)).
    + cbv beta iota. rewrite strip_newlines, string_of_list_ascii_of_string. do 2 eexists. reflexivity.
    + intros n Hn. replace ((newline :: list_ascii_of_string p ++ [newline]) ++ triple_quote ++ X)%list
        with (newline :: list_ascii_of_string p ++ newline :: triple_quote ++ X)%list
        by (simpl; rewrite <- app_assoc; reflexivity).
      apply no_tq_around_newline; [exact Htq |].
      simpl in Hn. rewrite length_app in Hn. simpl in Hn. lia.
Qed.

End AgentProps.

Module AgentWitnesses.
Import Req Web WebSamples AgentCfg AgentProps.
Local Open Scope string_scope.

Lemma get_agent_config_greeting_to_first_quote_witness :
  let pre := "# The explicit first message the agent speaks when the user picks up." ++ nl in
  let g := "Hi there! This is Krish calling from Krish Web Solutions. I hope I" in
  let rest := "m not catching you at a bad time?" ++ dq ++ nl in
  first_occ "INITIAL_GREETING" (pre ++ "INITIAL_GREETING" ++ " = " ++ dq ++ g ++ String squote rest) =
    Some (String.length pre) /\
  g <> "" /\
  forallb (fun c => negb (is_quote c) && not_newline c) (list_ascii_of_string g) = true /\
  is_quote squote = true /\
  exists sp fg,
    get_agent_config (pre ++ "INITIAL_GREETING" ++ " = " ++ dq ++ g ++ String squote rest) =
    Json 200 (ok_body [("config", JObject [("system_prompt", JStr sp); ("initial_greeting", JStr g);
                                           ("fallback_greeting", JStr fg)])]).
Proof.
  intros pre g rest.
  assert (H1 : first_occ "INITIAL_GREETING" (pre ++ "INITIAL_GREETING" ++ " = " ++ dq ++ g ++ String squote rest) =
                 Some (String.length pre)) by (vm_compute; reflexivity).
  assert (H2 : g <> "") by (vm_compute; discriminate).
  assert (H3 : forallb (fun c => negb (is_quote c) && not_newline c) (list_ascii_of_string g) = true)
    by (vm_compute; reflexivity).
  assert (H4 : is_quote squote = true) by reflexivity.
  exact (conj H1 (conj H2 (conj H3 (conj H4
           (get_agent_config_greeting_to_first_quote pre g rest squote H1 H2 H3 H4))))).
Defined.


Lemma save_then_get_greeting_witness :
  let data := [("initial_greeting", JStr "Hello, this is Krish from Krish Web Solutions.")] in
  let pre := "# The explicit first message the agent speaks when the user picks up." ++ nl in
  let a := "Hi there! This is Krish calling from Krish Web Solutions. I hope I" in
  let tail := "m not catching you at a bad time?" ++ dq ++ nl in
  let g := "Hello, this is Krish from Krish Web Solutions." in
  let raw := "# The explicit first message the agent speaks when the user picks up." ++ crlf ++
             "INITIAL_GREETING = " ++ dq ++ a ++ String squote ("m not catching you at a bad time?" ++ dq ++ crlf) in
  jfind data "system_prompt" = None /\ jfind data "fallback_greeting" = None /\
  jfind data "initial_greeting" = Some (JStr g) /\ g <> "" /\
  forallb (fun c => negb (is_quote c) && not_newline c && negb (Ascii.eqb c backslash) &&
                    negb (Ascii.eqb c carriage_return))
    (list_ascii_of_string g) = true /\
  read_text raw = pre ++ "INITIAL_GREETING" ++ " = " ++ dq ++ a ++ String squote tail /\
  first_occ "INITIAL_GREETING" (read_text raw) = Some (String.length pre) /\
  forallb (fun c => negb (is_quote c) && not_newline c) (list_ascii_of_string a) = true /\
  is_quote squote = true /\
  exists raw',
    save_agent_config_file es0 data raw = (saved_message, raw') /\
    exists sp fg,
      get_agent_config_file raw' =
      Json 200 (ok_body [("config", JObject [("system_prompt", JStr sp); ("initial_greeting", JStr g);
                                             ("fallback_greeting", JStr fg)])]).
Proof.
  intros data pre a tail g raw.
  assert (H1 : jfind data "system_prompt" = None) by reflexivity.
  assert (H2 : jfind data "fallback_greeting" = None) by reflexivity.
  assert (H3 : jfind data "initial_greeting" = Some (JStr g)) by reflexivity.
  assert (H4 : g <> "") by (vm_compute; discriminate).
  assert (H5 : forallb (fun c => negb (is_quote c) && not_newline c && negb (Ascii.eqb c backslash) &&
                                 negb (Ascii.eqb c carriage_return))
                 (list_ascii_of_string g) = true) by (vm_compute; reflexivity).
  assert (H6 : read_text raw = pre ++ "INITIAL_GREETING" ++ " = " ++ dq ++ a ++ String squote tail)
    by (vm_compute; reflexivity).
  assert (H7 : first_occ "INITIAL_GREETING" (read_text raw) = Some (String.length pre))
    by (vm_compute; reflexivity).
  assert (H8 : forallb (fun c => negb (is_quote c) && not_newline c) (list_ascii_of_string a) = true)
    by (vm_compute; reflexivity).
  assert (H9 : is_quote squote = true) by reflexivity.
  exact (conj H1 (conj H2 (conj H3 (conj H4 (conj H5 (conj H6 (conj H7 (conj H8 (conj H9
           (save_then_get_greeting es0 data raw pre a tail g squote H1 H2 H3 H4 H5 H6 H7 H8 H9)))))))))).
Defined.


Lemma save_then_get_system_prompt_witness :
  let p := "You are Krish, a warm sales consultant for Krish Web Solutions." in
  let data := [("system_prompt", JStr p)] in
  let pre := "# The main instructions for the AI." ++ nl in
  let old := nl ++ "You are **Krish**, a caring professional." ++ nl in
  let rest := nl ++ "INITIAL_GREETING = " ++ dq ++ "Hi there!" ++ dq ++ nl in
  let raw := "# The main instructions for the AI." ++ crlf ++ "SYSTEM_PROMPT = " ++ tq ++ crlf ++
             "You are **Krish**, a caring professional." ++ crlf ++ tq ++ crlf ++
             "INITIAL_GREETING = " ++ dq ++ "Hi there!" ++ dq ++ crlf in
  jfind data "system_prompt" = Some (JStr p) /\
  jfind data "initial_greeting" = None /\ jfind data "fallback_greeting" = None /\
  read_text raw = pre ++ "SYSTEM_PROMPT" ++ " = " ++ tq ++ old ++ tq ++ rest /\
  first_occ "SYSTEM_PROMPT" (read_text raw) = Some (String.length pre) /\
  first_occ tq (old ++ tq) = Some (String.length old) /\
  forallb (fun c => negb (Ascii.eqb c backslash) && negb (Ascii.eqb c carriage_return))
    (list_ascii_of_string p) = true /\
  first_occ tq p = None /\
  exists raw',
    save_agent_config_file es0 data raw = (saved_message, raw') /\
    exists ig fg,
      get_agent_config_file raw' =
      Json 200 (ok_body [("config", JObject [("system_prompt", JStr (strip p));
                                             ("initial_greeting", JStr ig);
                                             ("fallback_greeting", JStr fg)])]).
Proof.
  intros p data pre old rest raw.
  assert (H1 : jfind data "system_prompt" = Some (JStr p)) by reflexivity.
  assert (H2 : jfind data "initial_greeting" = None) by reflexivity.
  assert (H3 : jfind data "fallback_greeting" = None) by reflexivity.
  assert (H4 : read_text raw = pre ++ "SYSTEM_PROMPT" ++ " = " ++ tq ++ old ++ tq ++ rest)
    by (vm_compute; reflexivity).
  assert (H5 : first_occ "SYSTEM_PROMPT" (read_text raw) = Some (String.length pre))
    by (vm_compute; reflexivity).
  assert (H6 : first_occ tq (old ++ tq) = Some (String.length old)) by (vm_compute; reflexivity).
  assert (H7 : forallb (fun c => negb (Ascii.eqb c backslash) && negb (Ascii.eqb c carriage_return))
                 (list_ascii_of_string p) = true) by (vm_compute; reflexivity).
  assert (H8 : first_occ tq p = None) by (vm_compute; reflexivity).
  exact (conj H1 (conj H2 (conj H3 (conj H4 (conj H5 (conj H6 (conj H7 (conj H8
           (save_then_get_system_prompt es0 data raw pre old rest p H1 H2 H3 H4 H5 H6 H7 H8))))))))).
Defined.

End AgentWitnesses.
